(** * Streaks: focus sessions, day splitting and the per-user streak aggregate

    A shallow embedding of the streaks module
    (src/modules/streaks and src/util/date-provider) and the properties of
    its specification.

    Conventions of the embedding.
    - A JS [Date] is its time value in milliseconds since the epoch, or the
      Invalid Date.  A JS [number] that the code obtains from a date
      difference is an integer or [NaN].
    - The counters of the aggregate are integers ([z.number().int()]); they
      are modelled in [Z] (exact below 2^53).
    - Exceptions are values of [Error]; a computation that may throw returns
      a [Result].
    - The injected [IDateProvider] is a record of functions; [now] is the
      instant the provider reports during the call. *)

From Stdlib Require Import ZArith Lia Ascii.
From stdpp Require Import gmap strings list fin_maps pretty sorting.

Local Open Scope Z_scope.

(* ===================================================================== *)
(** ** JavaScript values *)
(* ===================================================================== *)

(** A JS [Date]: a time value (ms since 1970-01-01T00:00:00Z) or Invalid Date. *)
Inductive Date : Type :=
| ValidDate (ms : Z)
| InvalidDate.

(** A JS [number] produced by date arithmetic: an integer or NaN. *)
Inductive number : Type :=
| Num (z : Z)
| NaN.

(** [n === z] on numbers: NaN equals nothing. *)
Definition num_eqb (n : number) (z : Z) : bool :=
  match n with Num k => k =? z | NaN => false end.

(** [n < z] on numbers: every comparison with NaN is false. *)
Definition num_ltb (n : number) (z : Z) : bool :=
  match n with Num k => k <? z | NaN => false end.

(** [z.date()] accepts a Date object unless it is the Invalid Date. *)
Definition z_date (d : Date) : bool :=
  match d with ValidDate _ => true | InvalidDate => false end.

(** [z.string().min(1)]. *)
Definition z_string_min1 (s : string) : bool :=
  match s with EmptyString => false | String _ _ => true end.

(** Thrown values. *)
Inductive Error : Type :=
| ZodError                                         (* schema.parse rejected the props *)
| EndNotAfterStart                                 (* Error('End time must be after start time') *)
| FocusSessionAlreadyExistsError (sessionId : string)
| RangeError                                       (* date-fns format on an Invalid Date *)
| LoopBoundExceeded.                               (* the bound of the modelled while loop ran out *)

Inductive Result (A : Type) : Type :=
| Ok (a : A)
| Err (e : Error).
Arguments Ok {A} a.
Arguments Err {A} e.

Definition bindR {A B : Type} (r : Result A) (k : A -> Result B) : Result B :=
  match r with Ok a => k a | Err e => Err e end.

(* ===================================================================== *)
(** ** [z.uuid()] *)
(* ===================================================================== *)

Definition is_hex (c : ascii) : bool :=
  let n := nat_of_ascii c in
  ((48 <=? n) && (n <=? 57) || (65 <=? n) && (n <=? 70) || (97 <=? n) && (n <=? 102))%nat.

Definition is_dash (c : ascii) : bool := Ascii.eqb c "-"%char.

(** [[1-8]] : the version nibble. *)
Definition is_version (c : ascii) : bool :=
  let n := nat_of_ascii c in ((49 <=? n) && (n <=? 56))%nat.

(** [[89abAB]] : the variant nibble. *)
Definition is_variant (c : ascii) : bool :=
  existsb (Ascii.eqb c) ["8"; "9"; "a"; "b"; "A"; "B"]%char.

(** The character classes of the 36 positions of
    [xxxxxxxx-xxxx-Vxxx-Nxxx-xxxxxxxxxxxx]. *)
Definition uuid_shape : list (ascii -> bool) :=
  (replicate 8 is_hex ++ [is_dash] ++ replicate 4 is_hex ++ [is_dash]
   ++ [is_version] ++ replicate 3 is_hex ++ [is_dash]
   ++ [is_variant] ++ replicate 3 is_hex ++ [is_dash] ++ replicate 12 is_hex)%list.

Fixpoint matches_shape (shape : list (ascii -> bool)) (s : string) : bool :=
  match shape, s with
  | [], EmptyString => true
  | p :: shape', String c s' => p c && matches_shape shape' s'
  | _, _ => false
  end.

(** zod's uuid pattern: an RFC 9562 uuid, the nil uuid or the max uuid. *)
Definition z_uuid (s : string) : bool :=
  matches_shape uuid_shape s
  || String.eqb s "00000000-0000-0000-0000-000000000000"
  || String.eqb s "ffffffff-ffff-ffff-ffff-ffffffffffff".

(* ===================================================================== *)
(** ** util/date-provider/date.provider.ts *)
(* ===================================================================== *)

(** The [IDateProvider] interface.  [nowWithTimezone] and
    [getIsoDateString] are not called by the streaks module and are left
    out.  [format] throws on an Invalid Date, hence the [Result]. *)
Record IDateProvider : Type := {
  now : Date;
  startOfDay : Date -> Date;
  endOfDay : Date -> Date;
  differenceInCalendarDays : Date -> Date -> number;
  differenceInMinutes : Date -> Date -> number;
  toZonedTime : Date -> string -> Date;
  fromZonedTime : Date -> string -> Date;
  addDays : Date -> Z -> Date;
  isBefore : Date -> Date -> bool;
  isAfter : Date -> Date -> bool;
  parseISO : string -> Date;
  format : Date -> string -> option string -> Result string
}.

(* ===================================================================== *)
(** ** domain/user-streak/user-streak.ts *)
(* ===================================================================== *)

Module UserStreak.

(** [UserStreakProps], also the private state of the class. *)
Record t : Type := mk {
  userId : string;
  currentStreak : Z;
  longestStreak : Z;
  lastQualifiedDate : option string;   (* 'YYYY-MM-DD' or null *)
  qualifiedDaysCount : Z;
  updatedAt : Date
}.

(** [UserStreakPropsSchema.parse]. *)
Definition UserStreakPropsSchema (props : t) : bool :=
  z_uuid (userId props)
  && (0 <=? currentStreak props)
  && (0 <=? longestStreak props)
  && (0 <=? qualifiedDaysCount props)
  && z_date (updatedAt props).

Definition create (props : t) : Result t :=
  if UserStreakPropsSchema props then Ok props else Err ZodError.

Definition createNew (userId : string) (dateProvider : IDateProvider) : Result t :=
  create (mk userId 0 0 None 0 (now dateProvider)).

(** [daysDiff]: the calendar days from [last] to [qualifiedDate]. *)
Definition calendarDayDiff (dateProvider : IDateProvider)
    (qualifiedDate last : string) : number :=
  let newDate := startOfDay dateProvider (parseISO dateProvider qualifiedDate) in
  let lastDate := startOfDay dateProvider (parseISO dateProvider last) in
  differenceInCalendarDays dateProvider newDate lastDate.

(** The body of [updateWithQualifiedDate] once [_lastQualifiedDate] is
    known to be a truthy string [last]. *)
Definition updateFromLast (last qualifiedDate : string)
    (dateProvider : IDateProvider) (this : t) : t :=
  let daysDiff := calendarDayDiff dateProvider qualifiedDate last in
  if num_eqb daysDiff 0 then
    (* same day *)
    mk (userId this) (currentStreak this) (longestStreak this)
       (lastQualifiedDate this) (qualifiedDaysCount this) (now dateProvider)
  else if num_ltb daysDiff 0 then
    (* out of order / late arrival *)
    mk (userId this) (currentStreak this) (longestStreak this)
       (lastQualifiedDate this) (qualifiedDaysCount this + 1) (now dateProvider)
  else if num_eqb daysDiff 1 then
    (* consecutive day *)
    let current := currentStreak this + 1 in
    mk (userId this) current
       (if longestStreak this <? current then current else longestStreak this)
       (Some qualifiedDate) (qualifiedDaysCount this + 1) (now dateProvider)
  else
    (* broken streak; also reached when daysDiff is NaN *)
    mk (userId this) 1 (longestStreak this)
       (Some qualifiedDate) (qualifiedDaysCount this + 1) (now dateProvider).

(** [updateWithQualifiedDate].  [!this._lastQualifiedDate] holds for
    [null] and for the empty string. *)
Definition updateWithQualifiedDate (qualifiedDate : string)
    (dateProvider : IDateProvider) (this : t) : t :=
  match lastQualifiedDate this with
  | None | Some EmptyString =>
      mk (userId this) 1 1 (Some qualifiedDate) 1 (now dateProvider)
  | Some last => updateFromLast last qualifiedDate dateProvider this
  end.

Definition resetStreak (dateProvider : IDateProvider) (this : t) : t :=
  mk (userId this) 0 (longestStreak this) None (qualifiedDaysCount this)
     (now dateProvider).

Definition hasActiveStreak (this : t) : bool :=
  (0 <? currentStreak this)
  && match lastQualifiedDate this with Some _ => true | None => false end.

(** The mutating operations of the class, for sequences of calls. *)
Inductive op : Type :=
| OpUpdate (qualifiedDate : string)
| OpReset.

Definition apply (dateProvider : IDateProvider) (this : t) (o : op) : t :=
  match o with
  | OpUpdate d => updateWithQualifiedDate d dateProvider this
  | OpReset => resetStreak dateProvider this
  end.

(** The states observed along a sequence of calls, the initial one first. *)
Fixpoint trace (dateProvider : IDateProvider) (this : t) (ops : list op) : list t :=
  match ops with
  | [] => [this]
  | o :: ops' => this :: trace dateProvider (apply dateProvider this o) ops'
  end.

(** [!this._lastQualifiedDate], the test of the first branch. *)
Definition startsFresh (this : t) : bool :=
  match lastQualifiedDate this with
  | None | Some EmptyString => true
  | Some _ => false
  end.

(** What date-fns guarantees about the empty string: [parseISO] makes
    it an Invalid Date, and a difference with an Invalid Date is NaN. *)
Definition EmptyStringIsNoDate (dateProvider : IDateProvider) : Prop :=
  forall d : Date,
    differenceInCalendarDays dateProvider d
      (startOfDay dateProvider (parseISO dateProvider EmptyString)) = NaN.

End UserStreak.

(* ===================================================================== *)
(** ** domain/focus-session/focus-session.ts *)
(* ===================================================================== *)

(** [a <= b] on Dates compares the time values; false on an Invalid Date. *)
Definition date_leb (a b : Date) : bool :=
  match a, b with
  | ValidDate x, ValidDate y => x <=? y
  | _, _ => false
  end.

Module FocusSession.

(** [FocusSessionProps] as handed to [create]: [durationMinutes] is still
    an unchecked JS number. *)
Module Props.
Record t : Type := mk {
  sessionId : string;
  userId : string;
  startTime : Date;
  endTime : Date;
  durationMinutes : number;
  timezone : string;
  createdAt : Date
}.
End Props.

(** The private state of the class: the validated props. *)
Record t : Type := mk {
  sessionId : string;
  userId : string;
  startTime : Date;          (* UTC *)
  endTime : Date;            (* UTC *)
  durationMinutes : Z;
  timezone : string;         (* IANA timezone *)
  createdAt : Date
}.

(** [FocusSessionPropsSchema.parse]: [None] when zod throws. *)
Definition FocusSessionPropsSchema (props : Props.t) : option t :=
  match Props.durationMinutes props with
  | Num d =>
      if z_string_min1 (Props.sessionId props)
         && z_uuid (Props.userId props)
         && z_date (Props.startTime props)
         && z_date (Props.endTime props)
         && (0 <? d)
         && z_string_min1 (Props.timezone props)
         && z_date (Props.createdAt props)
      then Some (mk (Props.sessionId props) (Props.userId props)
                    (Props.startTime props) (Props.endTime props) d
                    (Props.timezone props) (Props.createdAt props))
      else None
  | NaN => None
  end.

Definition create (props : Props.t) : Result t :=
  match FocusSessionPropsSchema props with
  | None => Err ZodError
  | Some validated =>
      if date_leb (endTime validated) (startTime validated)
      then Err EndNotAfterStart
      else Ok validated
  end.

Definition createNew (sessionId userId : string) (startTime endTime : Date)
    (timezone : string) (dateProvider : IDateProvider) : Result t :=
  let durationMinutes := differenceInMinutes dateProvider endTime startTime in
  create (Props.mk sessionId userId startTime endTime durationMinutes
                   timezone (now dateProvider)).

(** The [while] loop of [splitByDay]; [fuel] bounds the iterations.  The
    segments pushed so far are lost when [create] throws. *)
Fixpoint splitLoop (fuel : nat) (dateProvider : IDateProvider) (this : t)
    (zonedEnd currentStart : Date) (segmentIndex : nat) : Result (list t) :=
  if isBefore dateProvider currentStart zonedEnd then
    match fuel with
    | O => Err LoopBoundExceeded
    | S fuel' =>
        let currentDayEnd := endOfDay dateProvider currentStart in
        let currentEnd :=
          if isBefore dateProvider currentDayEnd zonedEnd
          then currentDayEnd else zonedEnd in
        let utcSegmentStart :=
          fromZonedTime dateProvider currentStart (timezone this) in
        let utcSegmentEnd :=
          fromZonedTime dateProvider currentEnd (timezone this) in
        let segmentDuration :=
          differenceInMinutes dateProvider utcSegmentEnd utcSegmentStart in
        let segmentSessionId := sessionId this +:+ "-day" +:+ pretty segmentIndex in
        bindR (create (Props.mk segmentSessionId (userId this) utcSegmentStart
                                utcSegmentEnd segmentDuration (timezone this)
                                (createdAt this)))
          (fun segment =>
             bindR (splitLoop fuel' dateProvider this zonedEnd
                      (addDays dateProvider (startOfDay dateProvider currentStart) 1)
                      (S segmentIndex))
               (fun sessions => Ok (segment :: sessions)))
    end
  else Ok [].

Definition MS_PER_DAY : Z := 86400000.

(** Iterations granted to the loop: one per started day of the zoned
    interval, and one to spare. *)
Definition loopBound (zonedStart zonedEnd : Date) : nat :=
  match zonedStart, zonedEnd with
  | ValidDate s, ValidDate e => Z.to_nat ((e - s) / MS_PER_DAY + 2)
  | _, _ => O
  end.

Definition splitByDay (dateProvider : IDateProvider) (this : t) : Result (list t) :=
  let zonedStart := toZonedTime dateProvider (startTime this) (timezone this) in
  let zonedEnd := toZonedTime dateProvider (endTime this) (timezone this) in
  let startDayEnd := endOfDay dateProvider zonedStart in
  let spansMultipleDays := isAfter dateProvider zonedEnd startDayEnd in
  if negb spansMultipleDays then Ok [this]
  else splitLoop (loopBound zonedStart zonedEnd) dateProvider this
                 zonedEnd zonedStart 0.

Definition getQualifiedDate (dateProvider : IDateProvider) (this : t) : Result string :=
  let zonedStart := toZonedTime dateProvider (startTime this) (timezone this) in
  format dateProvider zonedStart "yyyy-MM-dd" (Some (timezone this)).

End FocusSession.

(* ===================================================================== *)
(** ** date-fns and date-fns-tz, as util/date-provider/fake-date.provider.ts
       delegates to them *)
(* ===================================================================== *)

(** The library functions behind [FakeDateProvider], for a process whose
    local zone is UTC and for target zones with a constant UTC offset.
    A zoned Date carries the wall-clock reading of the target zone as if it
    were UTC.  [parseISO] covers the calendar-date form 'YYYY-MM-DD' and
    [format] the pattern 'yyyy-MM-dd' for the years 0 to 9999; these are
    the only uses the streaks module makes of them. *)
Module DateFns.

Definition MS_PER_DAY : Z := 86400000.
Definition MS_PER_MINUTE : Z := 60000.

(** Days since 1970-01-01 of a proleptic Gregorian civil date. *)
Definition days_from_civil (y m d : Z) : Z :=
  let y' := if m <=? 2 then y - 1 else y in
  let era := y' / 400 in
  let yoe := y' - era * 400 in
  let doy := (153 * (if 2 <? m then m - 3 else m + 9) + 2) / 5 + d - 1 in
  let doe := yoe * 365 + yoe / 4 - yoe / 100 + doy in
  era * 146097 + doe - 719468.

Definition civil_from_days (z : Z) : Z * Z * Z :=
  let z' := z + 719468 in
  let era := z' / 146097 in
  let doe := z' - era * 146097 in
  let yoe := (doe - doe / 1460 + doe / 36524 - doe / 146096) / 365 in
  let doy := doe - (365 * yoe + yoe / 4 - yoe / 100) in
  let mp := (5 * doy + 2) / 153 in
  let d := doy - (153 * mp + 2) / 5 + 1 in
  let m := if mp <? 10 then mp + 3 else mp - 9 in
  ((if m <=? 2 then yoe + era * 400 + 1 else yoe + era * 400), m, d).

Definition digit (c : ascii) : option Z :=
  let n := Z.of_nat (nat_of_ascii c) in
  if (48 <=? n) && (n <=? 57) then Some (n - 48) else None.

(** The value of a string of decimal digits. *)
Fixpoint digits (acc : Z) (s : string) : option Z :=
  match s with
  | EmptyString => Some acc
  | String c s' =>
      match digit c with
      | Some k => digits (acc * 10 + k) s'
      | None => None
      end
  end.

Definition pad (width : nat) (z : Z) : string :=
  let s := pretty z in
  String.string_of_list_ascii (replicate (width - String.length s) "0"%char) +:+ s.

Definition startOfDay (date : Date) : Date :=
  match date with
  | ValidDate w => ValidDate (w - w mod MS_PER_DAY)
  | InvalidDate => InvalidDate
  end.

Definition endOfDay (date : Date) : Date :=
  match date with
  | ValidDate w => ValidDate (w - w mod MS_PER_DAY + (MS_PER_DAY - 1))
  | InvalidDate => InvalidDate
  end.

Definition differenceInCalendarDays (dateLeft dateRight : Date) : number :=
  match dateLeft, dateRight with
  | ValidDate a, ValidDate b => Num (a / MS_PER_DAY - b / MS_PER_DAY)
  | _, _ => NaN
  end.

(** Whole minutes, truncated towards zero. *)
Definition differenceInMinutes (dateLeft dateRight : Date) : number :=
  match dateLeft, dateRight with
  | ValidDate a, ValidDate b => Num (Z.quot (a - b) MS_PER_MINUTE)
  | _, _ => NaN
  end.

Definition addDays (date : Date) (amount : Z) : Date :=
  match date with
  | ValidDate w => ValidDate (w + amount * MS_PER_DAY)
  | InvalidDate => InvalidDate
  end.

Definition isBefore (date dateToCompare : Date) : bool :=
  match date, dateToCompare with
  | ValidDate a, ValidDate b => a <? b
  | _, _ => false
  end.

Definition isAfter (date dateToCompare : Date) : bool :=
  match date, dateToCompare with
  | ValidDate a, ValidDate b => b <? a
  | _, _ => false
  end.

Definition parseISO (dateString : string) : Date :=
  match digits 0 (String.substring 0 4 dateString),
        digits 0 (String.substring 5 2 dateString),
        digits 0 (String.substring 8 2 dateString) with
  | Some y, Some m, Some d =>
      if (String.length dateString =? 10)%nat
         && String.eqb (String.substring 4 1 dateString) "-"
         && String.eqb (String.substring 7 1 dateString) "-"
         && (1 <=? m) && (m <=? 12) && (1 <=? d)
         && (d <=? days_from_civil (if m =? 12 then y + 1 else y)
                                   (if m =? 12 then 1 else m + 1) 1
                   - days_from_civil y m 1)
      then ValidDate (days_from_civil y m d * MS_PER_DAY)
      else InvalidDate
  | _, _, _ => InvalidDate
  end.

Definition format (date : Date) (formatStr : string) (timeZone : option string)
    : Result string :=
  match date with
  | ValidDate w =>
      let '(y, m, d) := civil_from_days (w / MS_PER_DAY) in
      Ok (pad 4 y +:+ "-" +:+ pad 2 m +:+ "-" +:+ pad 2 d)
  | InvalidDate => Err RangeError
  end.

Section Zones.
(** The UTC offset, in milliseconds, of the recognised time zones. *)
Variable zone : string -> option Z.

Definition toZonedTime (date : Date) (timezone : string) : Date :=
  match date, zone timezone with
  | ValidDate t, Some offset => ValidDate (t + offset)
  | _, _ => InvalidDate
  end.

Definition fromZonedTime (date : Date) (timezone : string) : Date :=
  match date, zone timezone with
  | ValidDate w, Some offset => ValidDate (w - offset)
  | _, _ => InvalidDate
  end.

(** [FakeDateProvider] after [setNow now]. *)
Definition FakeDateProvider (now : Date) : IDateProvider :=
  Build_IDateProvider now startOfDay endOfDay differenceInCalendarDays
    differenceInMinutes toZonedTime fromZonedTime addDays isBefore isAfter
    parseISO format.
End Zones.

(** 'UTC', and 'America/New_York' while on standard time. *)
Definition winterZones (timezone : string) : option Z :=
  if String.eqb timezone "UTC" then Some 0
  else if String.eqb timezone "America/New_York" then Some (-18000000)
  else None.

(** The instant of [y-m-d h:min:00.000] UTC, in ms and as a Date. *)
Definition utcMs (y m d h min : Z) : Z :=
  days_from_civil y m d * MS_PER_DAY + h * 3600000 + min * MS_PER_MINUTE.

Definition utc (y m d h min : Z) : Date := ValidDate (utcMs y m d h min).

End DateFns.

(* ===================================================================== *)
(** ** The repositories *)
(* ===================================================================== *)

(** domain/focus-session/focus-session.repository.ts.  A repository of
    state type [R]: each method maps the state before the call to the
    outcome and the state after it.  [findByUserAndDateRange] is not used by
    the handlers and is left out. *)
Module FocusSessionRepository.

Class IFocusSessionRepository (R : Type) : Type := {
  save : FocusSession.t -> R -> Result unit * R;
  findById : string -> R -> Result (option FocusSession.t) * R;
  getTotalMinutesForDate : string -> string -> string -> R -> Result Z * R
}.

(** infrastructure/focus-session/in-memory-focus-session.repository.ts:
    the state is the [sessions] map. *)
Module InMemory.
Section WithDateProvider.
Variable dateProvider : IDateProvider.

Definition save (session : FocusSession.t)
    (sessions : gmap string FocusSession.t)
    : Result unit * gmap string FocusSession.t :=
  match sessions !! FocusSession.sessionId session with
  | Some _ =>
      (Err (FocusSessionAlreadyExistsError (FocusSession.sessionId session)),
       sessions)
  | None => (Ok tt, <[FocusSession.sessionId session := session]> sessions)
  end.

Definition findById (sessionId : string)
    (sessions : gmap string FocusSession.t)
    : Result (option FocusSession.t) * gmap string FocusSession.t :=
  (Ok (sessions !! sessionId), sessions).

(** One turn of the summing loop. *)
Definition addMinutes (userId date : string) (totalMinutes : Result Z)
    (session : FocusSession.t) : Result Z :=
  bindR totalMinutes (fun total =>
    if negb (String.eqb (FocusSession.userId session) userId) then Ok total
    else
      bindR (FocusSession.getQualifiedDate dateProvider session) (fun sessionDate =>
        if String.eqb sessionDate date
        then Ok (total + FocusSession.durationMinutes session)
        else Ok total)).

Definition getTotalMinutesForDate (userId date _timezone : string)
    (sessions : gmap string FocusSession.t)
    : Result Z * gmap string FocusSession.t :=
  (fold_left (addMinutes userId date) (map_to_list sessions).*2 (Ok 0),
   sessions).

Definition getAll (sessions : gmap string FocusSession.t) : list FocusSession.t :=
  (map_to_list sessions).*2.
End WithDateProvider.

Definition repository (dateProvider : IDateProvider)
    : IFocusSessionRepository (gmap string FocusSession.t) :=
  Build_IFocusSessionRepository _ save findById
    (getTotalMinutesForDate dateProvider).
End InMemory.

End FocusSessionRepository.

(** domain/user-streak/user-streak.repository.ts, without the leaderboard
    query. *)
Module UserStreakRepository.

Class IUserStreakRepository (S : Type) : Type := {
  save : UserStreak.t -> S -> Result unit * S;
  findByUserId : string -> S -> Result (option UserStreak.t) * S;
  findOrCreate : string -> S -> Result UserStreak.t * S
}.

(** infrastructure/user-streak/in-memory-user-streak.repository.ts: the
    state is the [streaks] map.  The object that [findOrCreate] returns is
    the stored one; the handler mutates it and saves it again before any
    other read of the map, so the map of values below agrees with the map
    of objects at every point where the handler returns or throws. *)
Module InMemory.
Section WithDateProvider.
Variable dateProvider : IDateProvider.

Definition save (streak : UserStreak.t) (streaks : gmap string UserStreak.t)
    : Result unit * gmap string UserStreak.t :=
  (Ok tt, <[UserStreak.userId streak := streak]> streaks).

Definition findByUserId (userId : string) (streaks : gmap string UserStreak.t)
    : Result (option UserStreak.t) * gmap string UserStreak.t :=
  (Ok (streaks !! userId), streaks).

Definition findOrCreate (userId : string) (streaks : gmap string UserStreak.t)
    : Result UserStreak.t * gmap string UserStreak.t :=
  match streaks !! userId with
  | Some existing => (Ok existing, streaks)
  | None =>
      match UserStreak.createNew userId dateProvider with
      | Ok newStreak => (Ok newStreak, <[userId := newStreak]> streaks)
      | Err e => (Err e, streaks)
      end
  end.
End WithDateProvider.

Definition repository (dateProvider : IDateProvider)
    : IUserStreakRepository (gmap string UserStreak.t) :=
  Build_IUserStreakRepository _ save findByUserId (findOrCreate dateProvider).
End InMemory.

End UserStreakRepository.

(* ===================================================================== *)
(** ** application/commands/accept-focus-session/accept-focus-session.command.ts *)
(* ===================================================================== *)

Module AcceptFocusSession.
Import FocusSessionRepository UserStreakRepository.

Record AcceptFocusSessionCommandProps : Type := {
  correlationId : string;
  sessionId : string;
  userId : string;
  startTime : Date;
  endTime : Date;
  timezone : string
}.

Definition QUALIFIED_DAY_THRESHOLD_MINUTES : Z := 30.

(** [dateSet.add]: a JS Set keeps the first insertion of a value. *)
Definition setAdd (dateSet : list string) (date : string) : list string :=
  if existsb (String.eqb date) dateSet then dateSet else dateSet ++ [date].

(** [Array.prototype.sort] without a comparator, on strings: ascending
    code-unit order. *)
Fixpoint sortInsert (x : string) (sorted : list string) : list string :=
  match sorted with
  | [] => [x]
  | y :: rest => if String.leb x y then x :: sorted else y :: sortInsert x rest
  end.

Definition sort (l : list string) : list string := foldr sortInsert [] l.

Section Handler.
Context {R S : Type}.
Context {sessionRepository : IFocusSessionRepository R}.
Context {streakRepository : IUserStreakRepository S}.
Variable dateProvider : IDateProvider.

(** The handler runs against both repositories and may throw. *)
Definition M (A : Type) : Type := R * S -> Result A * (R * S).

Definition ret {A : Type} (a : A) : M A := fun w => (Ok a, w).

Definition bind {A B : Type} (m : M A) (k : A -> M B) : M B :=
  fun w => match m w with
           | (Ok a, w') => k a w'
           | (Err e, w') => (Err e, w')
           end.

Definition liftResult {A : Type} (r : Result A) : M A := fun w => (r, w).

Definition onSessions {A : Type} (f : R -> Result A * R) : M A :=
  fun w => let '(a, r) := f w.1 in (a, (r, w.2)).

Definition onStreaks {A : Type} (f : S -> Result A * S) : M A :=
  fun w => let '(a, s) := f w.2 in (a, (w.1, s)).

(** [for (const x of l) { await f(x) }]. *)
Fixpoint forEach {A : Type} (f : A -> M unit) (l : list A) : M unit :=
  match l with
  | [] => ret tt
  | x :: rest => bind (f x) (fun _ => forEach f rest)
  end.

(** The first loop of [updateUserStreak]: the set of qualified dates of
    the segments. *)
Fixpoint collectDates (sessionSegments : list FocusSession.t)
    (dateSet : list string) : Result (list string) :=
  match sessionSegments with
  | [] => Ok dateSet
  | segment :: rest =>
      bindR (FocusSession.getQualifiedDate dateProvider segment)
            (fun date => collectDates rest (setAdd dateSet date))
  end.

(** The body of the second loop: the threshold test on one date. *)
Definition qualifyDate (userId timezone : string) (userStreak : UserStreak.t)
    (date : string) : M UserStreak.t :=
  bind (onSessions (getTotalMinutesForDate userId date timezone))
    (fun totalMinutes =>
       if QUALIFIED_DAY_THRESHOLD_MINUTES <=? totalMinutes
       then ret (UserStreak.updateWithQualifiedDate date dateProvider userStreak)
       else ret userStreak).

Fixpoint qualifyDates (userId timezone : string) (uniqueDates : list string)
    (userStreak : UserStreak.t) : M UserStreak.t :=
  match uniqueDates with
  | [] => ret userStreak
  | date :: rest =>
      bind (qualifyDate userId timezone userStreak date)
           (qualifyDates userId timezone rest)
  end.

Definition updateUserStreak (userId : string)
    (sessionSegments : list FocusSession.t) (timezone : string) : M unit :=
  bind (onStreaks (findOrCreate userId)) (fun userStreak =>
  bind (liftResult (collectDates sessionSegments [])) (fun dateSet =>
  let uniqueDates := sort dateSet in
  bind (qualifyDates userId timezone uniqueDates userStreak) (fun userStreak' =>
  onStreaks (UserStreakRepository.save userStreak')))).

Definition execute (command : AcceptFocusSessionCommandProps) : M unit :=
  bind (onSessions (findById (sessionId command))) (fun existingSession =>
  match existingSession with
  | Some _ => ret tt
  | None =>
      bind (liftResult (FocusSession.createNew (sessionId command) (userId command)
                          (startTime command) (endTime command)
                          (timezone command) dateProvider)) (fun session =>
      bind (liftResult (FocusSession.splitByDay dateProvider session))
           (fun sessionSegments =>
      bind (forEach (fun segment => onSessions (FocusSessionRepository.save segment))
                    sessionSegments) (fun _ =>
      updateUserStreak (userId command) sessionSegments (timezone command))))
  end).
End Handler.

End AcceptFocusSession.

(* ===================================================================== *)
(** ** application/queries/get-user-streak/get-user-streak.query.ts *)
(* ===================================================================== *)

Module GetUserStreak.
Import UserStreakRepository.

Record GetUserStreakQueryProps : Type := {
  correlationId : string;
  userId : string
}.

Record UserStreakResult : Type := {
  r_userId : string;
  r_currentStreak : Z;
  r_longestStreak : Z;
  r_lastQualifiedDate : option string;
  r_qualifiedDaysCount : Z
}.

Definition execute {S : Type} {streakRepository : IUserStreakRepository S}
    (query : GetUserStreakQueryProps) (streaks : S) : Result UserStreakResult * S :=
  match findByUserId (userId query) streaks with
  | (Err e, streaks') => (Err e, streaks')
  | (Ok None, streaks') =>
      (Ok {| r_userId := userId query;
             r_currentStreak := 0;
             r_longestStreak := 0;
             r_lastQualifiedDate := None;
             r_qualifiedDaysCount := 0 |},
       streaks')
  | (Ok (Some streak), streaks') =>
      (Ok {| r_userId := UserStreak.userId streak;
             r_currentStreak := UserStreak.currentStreak streak;
             r_longestStreak := UserStreak.longestStreak streak;
             r_lastQualifiedDate := UserStreak.lastQualifiedDate streak;
             r_qualifiedDaysCount := UserStreak.qualifiedDaysCount streak |},
       streaks')
  end.

End GetUserStreak.

(* ===================================================================== *)
(** ** What the specification asks of the segments of a split *)
(* ===================================================================== *)

Module Segments.
Import FocusSession.


(** The civil day on which a segment starts, as the start of that day on
    the wall clock of the segment's timezone. *)
Definition civilDay (dateProvider : IDateProvider) (segment : t) : Date :=
  startOfDay dateProvider
    (toZonedTime dateProvider (startTime segment) (timezone segment)).






(** A segment as the loop of [splitByDay] cuts it at the wall-clock
    instant [c], for a zone at [offset] and a session that ends at the
    wall-clock instant [zonedEnd]: it runs from [c] to the end of that
    day or to [zonedEnd], whichever comes first. *)
Definition piece (tz : string) (offset zonedEnd c : Z) (segment : t) : Prop :=
  c < zonedEnd
  /\ startTime segment = ValidDate (c - offset)
  /\ endTime segment
     = ValidDate (Z.min (c - c mod DateFns.MS_PER_DAY
                         + (DateFns.MS_PER_DAY - 1)) zonedEnd - offset)
  /\ timezone segment = tz.

(** The segments that the loop emits from [cur] on: a piece at [cur],
    then the pieces from the start of the next day, until [zonedEnd] is
    reached. *)
Fixpoint emitted (tz : string) (offset zonedEnd cur : Z) (segments : list t) : Prop :=
  match segments with
  | [] => zonedEnd <= cur
  | segment :: rest =>
      piece tz offset zonedEnd cur segment
      /\ emitted tz offset zonedEnd
           (cur - cur mod DateFns.MS_PER_DAY + DateFns.MS_PER_DAY) rest
  end.

End Segments.

(* ===================================================================== *)
(** ** Inputs taken from the test suites of the repository *)
(* ===================================================================== *)

Module Fixtures.
Import AcceptFocusSession.

Definition userId : string := "550e8400-e29b-41d4-a716-446655440000".

(** [dateProvider.setNow(new Date('2025-01-15T12:00:00Z'))]. *)
Definition dateProvider : IDateProvider :=
  DateFns.FakeDateProvider DateFns.winterZones (DateFns.utc 2025 1 15 12 0).

Definition sessionRepository :=
  FocusSessionRepository.InMemory.repository dateProvider.
Definition streakRepository :=
  UserStreakRepository.InMemory.repository dateProvider.

(** The handler wired to the in-memory repositories. *)
Definition handle (command : AcceptFocusSessionCommandProps)
    (w : gmap string FocusSession.t * gmap string UserStreak.t) :=
  @execute _ _ sessionRepository streakRepository dateProvider command w.

Definition noData : gmap string FocusSession.t * gmap string UserStreak.t := (∅, ∅).

(** user-streak.spec.ts, 'should correctly identify active vs inactive
    streaks': a user with history and no date. *)
Definition inactiveStreak : UserStreak.t :=
  UserStreak.mk "660e8400-e29b-41d4-a716-446655440001" 0 10 None 20
                (DateFns.utc 2025 1 15 12 0).

(** The zero-value aggregate that [createNew] builds for the user. *)
Definition newStreak : UserStreak.t :=
  UserStreak.mk userId 0 0 None 0 (DateFns.utc 2025 1 15 12 0).

(** user-streak.spec.ts, 'should reset current streak to 0 and clear
    lastQualifiedDate'. *)
Definition tenDayStreak : UserStreak.t :=
  UserStreak.mk userId 10 15 (Some "2025-01-15") 25 (DateFns.utc 2025 1 15 10 0).

(** user-streak.spec.ts, 'should increment qualified count but NOT change
    streak for late data'. *)
Definition fiveDayStreak : UserStreak.t :=
  UserStreak.mk userId 5 5 (Some "2025-01-15") 10 (DateFns.utc 2025 1 15 12 0).



(** accept-focus-session.command.spec.ts, 'should split session across
    midnight and process both days'. *)
Definition midnightSession : AcceptFocusSessionCommandProps :=
  Build_AcceptFocusSessionCommandProps "corr-1" "midnight-session" userId
    (DateFns.utc 2025 1 15 23 0) (DateFns.utc 2025 1 16 1 0) "UTC".

(** 'should handle minimum qualifying session (exactly 30 min)'. *)
Definition exact30min : AcceptFocusSessionCommandProps :=
  Build_AcceptFocusSessionCommandProps "corr-1" "exact-30min" userId
    (DateFns.utc 2025 1 15 10 0) (DateFns.utc 2025 1 15 10 30) "UTC".

(** 'should handle just-below-threshold session (29 min)'. *)
Definition justUnder : AcceptFocusSessionCommandProps :=
  Build_AcceptFocusSessionCommandProps "corr-1" "just-under" userId
    (DateFns.utc 2025 1 15 10 0) (DateFns.utc 2025 1 15 10 29) "UTC".



(** The repositories after each of the two calls, from no data. *)
Definition after30min := (handle exact30min noData).2.
Definition after29min := (handle justUnder noData).2.

Definition someQuery : GetUserStreak.GetUserStreakQueryProps :=
  GetUserStreak.Build_GetUserStreakQueryProps "corr-1" userId.


Definition lastHourSession : FocusSession.t :=
  FocusSession.mk "last-hour" userId
    (DateFns.utc 2025 1 15 23 0) (DateFns.utc 2025 1 16 0 0) 60 "UTC"
    (DateFns.utc 2025 1 15 12 0).


(** A session that starts thirty seconds before midnight. *)
Definition lastSeconds : FocusSession.t :=
  FocusSession.mk "last-seconds" userId
    (ValidDate (DateFns.utcMs 2025 1 15 23 59 + 30000)) (DateFns.utc 2025 1 16 0 10)
    10 "UTC" (DateFns.utc 2025 1 15 12 0).

(** focus-session.spec.ts, 'should split session crossing midnight in
    user timezone'. *)
Definition estMidnight : FocusSession.Props.t :=
  FocusSession.Props.mk "midnight-session" userId
    (DateFns.utc 2025 1 16 4 30) (DateFns.utc 2025 1 16 5 30) (Num 60)
    "America/New_York" (DateFns.utc 2025 1 15 12 0).

Definition estMidnightSession : FocusSession.t :=
  FocusSession.mk "midnight-session" userId
    (DateFns.utc 2025 1 16 4 30) (DateFns.utc 2025 1 16 5 30) 60
    "America/New_York" (DateFns.utc 2025 1 15 12 0).

End Fixtures.

(* ===================================================================== *)
(** ** Aggregates as the transition leaves them *)
(* ===================================================================== *)

Module StreakHistory.
Import UserStreak.

(** The shape the aggregate has after [createNew] and any number of
    qualifying dates: the current streak is within the longest one, an
    aggregate without a date has counted at most one day, and an aggregate
    with a date has a streak of at least one day. *)
Definition consistent (this : t) : Prop :=
  currentStreak this <= longestStreak this
  /\ (if startsFresh this
      then 0 <= currentStreak this
           /\ longestStreak this <= 1 /\ qualifiedDaysCount this <= 1
      else 1 <= currentStreak this).

(** The calls [updateWithQualifiedDate(d)] for the dates of a list. *)
Definition updates (dates : list string) : list op := map OpUpdate dates.

End StreakHistory.

(* ===================================================================== *)
(** ** Sessions as [create] lets them through *)
(* ===================================================================== *)

Module SessionFacts.
Import FocusSession.

(** What the schema and the business rule of [create] ask of a session. *)
Definition valid (this : t) : Prop :=
  sessionId this <> EmptyString
  /\ z_uuid (userId this) = true
  /\ timezone this <> EmptyString
  /\ 0 < durationMinutes this
  /\ z_date (createdAt this) = true
  /\ exists a b : Z,
       startTime this = ValidDate a /\ endTime this = ValidDate b /\ a < b.

(** The props that hold the fields of a session. *)
Definition propsOf (this : t) : Props.t :=
  Props.mk (sessionId this) (userId this) (startTime this) (endTime this)
           (Num (durationMinutes this)) (timezone this) (createdAt this).

(** The id that [splitByDay] gives to the segment of index [i]. *)
Definition segmentId (this : t) (i : nat) : string :=
  sessionId this +:+ "-day" +:+ pretty i.

(** A segment carries the user, the timezone and the creation time of the
    session it was cut from. *)
Definition cutFrom (this segment : t) : Prop :=
  userId segment = userId this
  /\ timezone segment = timezone this
  /\ createdAt segment = createdAt this.

(** The sum of the minutes of a list of sessions. *)
Definition sumMinutes (sessions : list t) : Z :=
  foldr (fun s acc => durationMinutes s + acc) 0 sessions.

End SessionFacts.

(* ===================================================================== *)
(** ** Further inputs *)
(* ===================================================================== *)

Module MoreFixtures.

(** The session of the command 'exact-30min', as [createNew] builds it. *)
Definition exact30minSession : FocusSession.t :=
  FocusSession.mk "exact-30min" Fixtures.userId
    (DateFns.utc 2025 1 15 10 0) (DateFns.utc 2025 1 15 10 30) 30 "UTC"
    (DateFns.utc 2025 1 15 12 0).

(** The two segments of [Fixtures.estMidnightSession]: the last half
    hour of 15 January in New York, less a millisecond, and the first half
    hour of 16 January. *)
Definition estMidnightSegments : list FocusSession.t :=
  [FocusSession.mk "midnight-session-day0" Fixtures.userId
     (DateFns.utc 2025 1 16 4 30) (ValidDate (DateFns.utcMs 2025 1 16 5 0 - 1)) 29
     "America/New_York" (DateFns.utc 2025 1 15 12 0);
   FocusSession.mk "midnight-session-day1" Fixtures.userId
     (DateFns.utc 2025 1 16 5 0) (DateFns.utc 2025 1 16 5 30) 30
     "America/New_York" (DateFns.utc 2025 1 15 12 0)].

(** The aggregate of the user after the dates 2025-01-14 and 2025-01-15,
    and after the date 2025-01-20 that follows them. *)
Definition twoDayStreak : UserStreak.t :=
  UserStreak.mk Fixtures.userId 2 2 (Some "2025-01-15") 2 (DateFns.utc 2025 1 15 12 0).

Definition restartedStreak : UserStreak.t :=
  UserStreak.mk Fixtures.userId 1 2 (Some "2025-01-20") 3 (DateFns.utc 2025 1 15 12 0).

(** A session of 45 minutes on the day before. *)
Definition dayBeforeSession : FocusSession.t :=
  FocusSession.mk "day-before" Fixtures.userId
    (DateFns.utc 2025 1 14 9 0) (DateFns.utc 2025 1 14 9 45) 45 "UTC"
    (DateFns.utc 2025 1 15 12 0).

(** The aggregate of the user after that session. *)
Definition dayBeforeStreak : UserStreak.t :=
  UserStreak.mk Fixtures.userId 1 1 (Some "2025-01-14") 1 (DateFns.utc 2025 1 14 12 0).

(** A command of 45 minutes in a timezone that the library does not know,
    and the session that [createNew] builds from it. *)
Definition unknownZone : AcceptFocusSession.AcceptFocusSessionCommandProps :=
  {| AcceptFocusSession.correlationId := "test-correlation-id";
     AcceptFocusSession.sessionId := "unknown-zone";
     AcceptFocusSession.userId := Fixtures.userId;
     AcceptFocusSession.startTime := DateFns.utc 2025 1 15 9 0;
     AcceptFocusSession.endTime := DateFns.utc 2025 1 15 9 45;
     AcceptFocusSession.timezone := "Mars/Olympus_Mons" |}.

Definition unknownZoneSession : FocusSession.t :=
  FocusSession.mk "unknown-zone" Fixtures.userId
    (DateFns.utc 2025 1 15 9 0) (DateFns.utc 2025 1 15 9 45) 45 "Mars/Olympus_Mons"
    (DateFns.utc 2025 1 15 12 0).

End MoreFixtures.

(* ===================================================================== *)
(** ** What the in-memory maps hold *)
(* ===================================================================== *)

Module StoreFacts.

(** The minutes that one stored session adds to the total of [userId] on
    [date]: its duration if it belongs to the user and its qualified date
    is [date], and nothing otherwise. *)
Definition minutesOn (dateProvider : IDateProvider) (userId date : string)
    (session : FocusSession.t) : Z :=
  if negb (String.eqb (FocusSession.userId session) userId) then 0
  else match FocusSession.getQualifiedDate dateProvider session with
       | Ok sessionDate =>
           if String.eqb sessionDate date
           then FocusSession.durationMinutes session else 0
       | Err _ => 0
       end.

Definition sumOn (dateProvider : IDateProvider) (userId date : string)
    (sessions : list FocusSession.t) : Z :=
  foldr (fun s acc => minutesOn dateProvider userId date s + acc) 0 sessions.

(** Every stored session of the user has a qualified date, that is,
    [getQualifiedDate] does not throw for it. *)
Definition dated (dateProvider : IDateProvider) (userId : string)
    (sessions : gmap string FocusSession.t) : Prop :=
  forall (id : string) (s : FocusSession.t),
    sessions !! id = Some s -> FocusSession.userId s = userId ->
    exists d : string, FocusSession.getQualifiedDate dateProvider s = Ok d.


End StoreFacts.

(* ===================================================================== *)
(** ** The mappers between the aggregates and the rows of the database *)
(* ===================================================================== *)

(** infrastructure, [SqlFocusSessionMapper]. *)
Module SqlFocusSessionMapper.

(** The row type that Prisma generates for the table of the sessions. *)
Record PrismaFocusSession : Type := {
  session_id : string;
  user_id : string;
  start_time : Date;
  end_time : Date;
  duration_minutes : number;
  timezone : string;
  created_at : Date
}.

Definition toDomain (prisma : PrismaFocusSession) : Result FocusSession.t :=
  FocusSession.create
    (FocusSession.Props.mk (session_id prisma) (user_id prisma) (start_time prisma)
       (end_time prisma) (duration_minutes prisma) (timezone prisma)
       (created_at prisma)).

Definition toPrisma (domain : FocusSession.t) : PrismaFocusSession :=
  {| session_id := FocusSession.sessionId domain;
     user_id := FocusSession.userId domain;
     start_time := FocusSession.startTime domain;
     end_time := FocusSession.endTime domain;
     duration_minutes := Num (FocusSession.durationMinutes domain);
     timezone := FocusSession.timezone domain;
     created_at := FocusSession.createdAt domain |}.

End SqlFocusSessionMapper.

(** infrastructure, [SqlUserStreakMapper].  It calls [format] and
    [parseISO] of date-fns directly, not through the date provider. *)
Module SqlUserStreakMapper.

(** The row type that Prisma generates for the table of the streaks. *)
Record PrismaUserStreak : Type := {
  user_id : string;
  current_streak : Z;
  longest_streak : Z;
  last_qualified_date : option Date;
  qualified_days_count : Z;
  updated_at : Date
}.

(** A Date object is truthy, also an Invalid Date, on which [format]
    throws before [create] is called. *)
Definition toDomain (prisma : PrismaUserStreak) : Result UserStreak.t :=
  bindR (match last_qualified_date prisma with
         | Some date =>
             bindR (DateFns.format date "yyyy-MM-dd" None) (fun s => Ok (Some s))
         | None => Ok None
         end)
    (fun lastQualifiedDate =>
       UserStreak.create
         (UserStreak.mk (user_id prisma) (current_streak prisma)
            (longest_streak prisma) lastQualifiedDate
            (qualified_days_count prisma) (updated_at prisma))).

(** [domain.lastQualifiedDate ? parseISO(...) : null]: null and the empty
    string are falsy. *)
Definition toPrisma (domain : UserStreak.t) : PrismaUserStreak :=
  {| user_id := UserStreak.userId domain;
     current_streak := UserStreak.currentStreak domain;
     longest_streak := UserStreak.longestStreak domain;
     last_qualified_date :=
       match UserStreak.lastQualifiedDate domain with
       | None | Some EmptyString => None
       | Some last => Some (DateFns.parseISO last)
       end;
     qualified_days_count := UserStreak.qualifiedDaysCount domain;
     updated_at := UserStreak.updatedAt domain |}.

End SqlUserStreakMapper.

(* ===================================================================== *)
(** ** Calendar dates as strings *)
(* ===================================================================== *)

Module CalendarDates.

(** A string of the form 'YYYY-MM-DD' that names a day of the years 1 to
    9999. *)
Definition isCalendarDate (dateString : string) : bool :=
  match DateFns.parseISO dateString with
  | ValidDate _ => negb (String.eqb (String.substring 0 4 dateString) "0000")
  | InvalidDate => false
  end.

(** The length of the month [m] of the year [y], as [parseISO] counts
    it. *)
Definition daysInMonth (y m : Z) : Z :=
  DateFns.days_from_civil (if m =? 12 then y + 1 else y) (if m =? 12 then 1 else m + 1) 1
  - DateFns.days_from_civil y m 1.

(** The instant [w], in ms on the wall clock, falls in the years 1 to
    9999. *)
Definition inYears1to9999 (w : Z) : bool :=
  (DateFns.days_from_civil 1 1 1 * DateFns.MS_PER_DAY <=? w)
  && (w <? DateFns.days_from_civil 10000 1 1 * DateFns.MS_PER_DAY).

Definition range (n : nat) : list Z := map Z.of_nat (seq 0 n).

(** The character of the decimal digit [k]. *)
Definition digitChar (k : Z) : ascii := ascii_of_nat (Z.to_nat (48 + k)).

Definition written2 (k0 k1 : Z) : string :=
  String (digitChar k0) (String (digitChar k1) EmptyString).

Definition written4 (k0 k1 k2 k3 : Z) : string :=
  String (digitChar k0) (String (digitChar k1) (written2 k2 k3)).

(** [pad] writes every number of two digits, and every number of four
    digits, as the digits it was read from: checked on all of them. *)
Definition pad2Checked : bool :=
  forallb (fun k0 => forallb (fun k1 =>
    String.eqb (DateFns.pad 2 ((0 * 10 + k0) * 10 + k1)) (written2 k0 k1))
    (range 10)) (range 10).

Definition pad4Checked : bool :=
  forallb (fun k0 => forallb (fun k1 => forallb (fun k2 => forallb (fun k3 =>
    String.eqb (DateFns.pad 4 ((((0 * 10 + k0) * 10 + k1) * 10 + k2) * 10 + k3))
               (written4 k0 k1 k2 k3))
    (range 10)) (range 10)) (range 10)) (range 10).

End CalendarDates.

(* ===================================================================== *)
(** * Properties *)
(* ===================================================================== *)

(* ===================================================================== *)
(** ** The streak transition *)
(* ===================================================================== *)

Section StreakTransition.
Import UserStreak.
Variable dateProvider : IDateProvider.

Lemma update_fresh (this : t) (d : string) :
  startsFresh this = true ->
  updateWithQualifiedDate d dateProvider this
  = mk (userId this) 1 1 (Some d) 1 (now dateProvider).
Proof.
  unfold startsFresh, updateWithQualifiedDate.
  destruct (lastQualifiedDate this) as [[|c last]|]; intros H;
    try discriminate H; reflexivity.
Qed.

Lemma update_dated (this : t) (d last : string) :
  lastQualifiedDate this = Some last ->
  last <> EmptyString ->
  updateWithQualifiedDate d dateProvider this
  = updateFromLast last d dateProvider this.
Proof.
  intros Hlast Hne. unfold updateWithQualifiedDate. rewrite Hlast.
  destruct last; [contradiction | reflexivity].
Qed.

(** A string with a negative day difference to some date is not the
    empty string, for a provider that parses like date-fns. *)
Lemma dated_not_empty (d last : string) (n : Z) :
  EmptyStringIsNoDate dateProvider ->
  calendarDayDiff dateProvider d last = Num n ->
  last <> EmptyString.
Proof.
  intros Hlaw Hdiff ->. unfold calendarDayDiff in Hdiff.
  rewrite Hlaw in Hdiff. discriminate Hdiff.
Qed.

(** Every branch keeps the user. *)
Lemma update_userId (this : t) (d : string) :
  userId (updateWithQualifiedDate d dateProvider this) = userId this.
Proof.
  unfold updateWithQualifiedDate, updateFromLast.
  destruct (lastQualifiedDate this) as [[|c last]|]; try reflexivity.
  repeat match goal with |- context [if ?b then _ else _] => destruct b end;
    reflexivity.
Qed.

Lemma update_updatedAt (this : t) (d : string) :
  updatedAt (updateWithQualifiedDate d dateProvider this) = now dateProvider.
Proof.
  unfold updateWithQualifiedDate, updateFromLast.
  destruct (lastQualifiedDate this) as [[|c last]|]; try reflexivity.
  repeat match goal with |- context [if ?b then _ else _] => destruct b end;
    reflexivity.
Qed.

Lemma apply_userId (this : t) (o : op) :
  userId (apply dateProvider this o) = userId this.
Proof. destruct o; [apply update_userId | reflexivity]. Qed.

Lemma trace_userId (ops : list op) :
  forall this s, s ∈ trace dateProvider this ops -> userId s = userId this.
Proof.
  induction ops as [|o ops IH]; intros this s Hs; simpl in Hs.
  - apply list_elem_of_singleton in Hs. now subst.
  - apply elem_of_cons in Hs as [-> | Hs]; [reflexivity |].
    rewrite (IH _ _ Hs). apply apply_userId.
Qed.

(** Away from the start-fresh branch an operation keeps the high-water
    mark and the day count from falling. *)
Lemma apply_monotone (this : t) (o : op) :
  (forall d, o = OpUpdate d -> startsFresh this = false) ->
  longestStreak this <= longestStreak (apply dateProvider this o)
  /\ qualifiedDaysCount this <= qualifiedDaysCount (apply dateProvider this o)
  /\ (currentStreak this <= longestStreak this -> 1 <= longestStreak this ->
      currentStreak (apply dateProvider this o)
      <= longestStreak (apply dateProvider this o)).
Proof.
  intros Hfresh. destruct o as [d|]; simpl.
  - specialize (Hfresh d eq_refl). unfold startsFresh in Hfresh.
    unfold updateWithQualifiedDate, updateFromLast.
    destruct (lastQualifiedDate this) as [[|c last]|]; try discriminate Hfresh.
    repeat match goal with |- context [if ?b then _ else _] => destruct b eqn:? end;
      simpl; repeat split; try lia.
    all: rewrite ?Z.ltb_lt, ?Z.ltb_ge in *; lia.
  - repeat split; try lia.
Qed.

End StreakTransition.

(** The library model parses the empty string to the Invalid Date. *)
Lemma FakeDateProvider_empty_string (zone : string -> option Z) (now : Date) :
  UserStreak.EmptyStringIsNoDate (DateFns.FakeDateProvider zone now).
Proof. intros [ms|]; reflexivity. Qed.

(** C3, at an aggregate with history and no last date: the first branch
    of [updateWithQualifiedDate] assigns the literal 1 to both
    [longestStreak] and [qualifiedDaysCount].  For the aggregate
    [{currentStreak: 0, longestStreak: 10, lastQualifiedDate: null,
    qualifiedDaysCount: 20}] of the test suite, which [create] accepts, the
    transition on any date gives [longestStreak = 1], not
    [max(10, 1) = 10], and [qualifiedDaysCount = 1], not [20 + 1]. *)
Theorem first_date_forgets_history (dateProvider : IDateProvider) (d : string) :
  UserStreak.create Fixtures.inactiveStreak = Ok Fixtures.inactiveStreak
  /\ UserStreak.lastQualifiedDate Fixtures.inactiveStreak = None
  /\ (let s' := UserStreak.updateWithQualifiedDate d dateProvider Fixtures.inactiveStreak in
      UserStreak.currentStreak s' = 1
      /\ UserStreak.lastQualifiedDate s' = Some d
      /\ UserStreak.longestStreak s' = 1
      /\ UserStreak.longestStreak s'
         <> Z.max (UserStreak.longestStreak Fixtures.inactiveStreak) 1
      /\ UserStreak.qualifiedDaysCount s' = 1
      /\ UserStreak.qualifiedDaysCount s'
         <> UserStreak.qualifiedDaysCount Fixtures.inactiveStreak + 1).
Proof. repeat split; try reflexivity; simpl; lia. Qed.

(** For the zero-value aggregate that [createNew] builds, the first
    transition does give the values of the table. *)
Lemma first_date_of_new_user (dateProvider : IDateProvider) (uid d : string) (s : UserStreak.t) :
  UserStreak.createNew uid dateProvider = Ok s ->
  let s' := UserStreak.updateWithQualifiedDate d dateProvider s in
  UserStreak.currentStreak s' = 1
  /\ UserStreak.longestStreak s' = Z.max (UserStreak.longestStreak s) 1
  /\ UserStreak.lastQualifiedDate s' = Some d
  /\ UserStreak.qualifiedDaysCount s' = UserStreak.qualifiedDaysCount s + 1.
Proof.
  unfold UserStreak.createNew, UserStreak.create.
  destruct (UserStreak.UserStreakPropsSchema _); intros H; inversion H; subst.
  repeat split.
Qed.

(** C4, on a sequence of operations from the zero-value aggregate of
    [createNew]: qualifying dates 2025-01-14 and 2025-01-15, then
    [resetStreak], then the qualifying date 2025-01-16.  [currentStreak] is
    observed as 0, 1, 2, 0, 1, [longestStreak] as 0, 1, 2, 2, 1 and
    [qualifiedDaysCount] as 0, 1, 2, 2, 1: the last operation lowers the
    high-water mark below the [currentStreak] of 2 observed before, and
    lowers the day count. *)
Theorem reset_then_date_lowers_the_marks :
  let states := UserStreak.trace Fixtures.dateProvider Fixtures.newStreak
                  [UserStreak.OpUpdate "2025-01-14"; UserStreak.OpUpdate "2025-01-15";
                   UserStreak.OpReset; UserStreak.OpUpdate "2025-01-16"] in
  UserStreak.createNew Fixtures.userId Fixtures.dateProvider = Ok Fixtures.newStreak
  /\ map UserStreak.currentStreak states = [0; 1; 2; 0; 1]
  /\ map UserStreak.longestStreak states = [0; 1; 2; 2; 1]
  /\ map UserStreak.qualifiedDaysCount states = [0; 1; 2; 2; 1].
Proof. repeat split; vm_compute; reflexivity. Qed.

(** C7: for an aggregate whose [lastQualifiedDate] is set and a date [d]
    with [calendarDayDiff(d, lastQualifiedDate) < 0], the transition adds
    exactly 1 to [qualifiedDaysCount] and leaves [currentStreak],
    [longestStreak] and [lastQualifiedDate] as they were. *)
Theorem late_date_only_counts (dateProvider : IDateProvider)
    (this : UserStreak.t) (last d : string) (n : Z) :
  UserStreak.EmptyStringIsNoDate dateProvider ->
  UserStreak.lastQualifiedDate this = Some last ->
  UserStreak.calendarDayDiff dateProvider d last = Num n ->
  n < 0 ->
  let s' := UserStreak.updateWithQualifiedDate d dateProvider this in
  UserStreak.qualifiedDaysCount s' = UserStreak.qualifiedDaysCount this + 1
  /\ UserStreak.currentStreak s' = UserStreak.currentStreak this
  /\ UserStreak.longestStreak s' = UserStreak.longestStreak this
  /\ UserStreak.lastQualifiedDate s' = UserStreak.lastQualifiedDate this.
Proof.
  intros Hlaw Hlast Hdiff Hneg s'. subst s'.
  rewrite (update_dated dateProvider this d last Hlast
             (dated_not_empty dateProvider d last n Hlaw Hdiff)).
  unfold UserStreak.updateFromLast. rewrite Hdiff. simpl.
  destruct (Z.eqb_spec n 0) as [->|_]; [lia |].
  destruct (Z.ltb_spec n 0); [| lia].
  repeat split.
Qed.

Lemma late_date_only_counts_witness :
  let s' := UserStreak.updateWithQualifiedDate "2025-01-12" Fixtures.dateProvider
              Fixtures.fiveDayStreak in
  UserStreak.qualifiedDaysCount s' = 11
  /\ UserStreak.currentStreak s' = 5
  /\ UserStreak.longestStreak s' = 5
  /\ UserStreak.lastQualifiedDate s' = Some "2025-01-15".
Proof.
  apply (late_date_only_counts Fixtures.dateProvider Fixtures.fiveDayStreak
           "2025-01-15" "2025-01-12" (-3)).
  - intros [ms|]; reflexivity.
  - reflexivity.
  - vm_compute. reflexivity.
  - reflexivity.
Defined.




(** C10: [updateWithQualifiedDate] sets [updatedAt] to the provider's
    [now()] in every branch, and no operation of the aggregate changes
    [userId]. *)
Theorem update_stamps_and_keeps_user (dateProvider : IDateProvider) (this : UserStreak.t) :
  (forall d : string,
     UserStreak.updatedAt (UserStreak.updateWithQualifiedDate d dateProvider this)
     = now dateProvider)
  /\ (forall (ops : list UserStreak.op) (s : UserStreak.t),
       s ∈ UserStreak.trace dateProvider this ops ->
       UserStreak.userId s = UserStreak.userId this).
Proof.
  split.
  - intros d. apply update_updatedAt.
  - intros ops s. apply trace_userId.
Qed.

Lemma update_stamps_and_keeps_user_witness :
  UserStreak.updatedAt
    (UserStreak.updateWithQualifiedDate "2025-01-15" Fixtures.dateProvider
       Fixtures.fiveDayStreak)
  = now Fixtures.dateProvider
  /\ UserStreak.userId
       (UserStreak.resetStreak Fixtures.dateProvider
          (UserStreak.updateWithQualifiedDate "2025-01-12" Fixtures.dateProvider
             Fixtures.fiveDayStreak))
     = UserStreak.userId Fixtures.fiveDayStreak.
Proof.
  split.
  - apply (proj1 (update_stamps_and_keeps_user Fixtures.dateProvider
                    Fixtures.fiveDayStreak)).
  - apply (proj2 (update_stamps_and_keeps_user Fixtures.dateProvider
                    Fixtures.fiveDayStreak)
             [UserStreak.OpUpdate "2025-01-12"; UserStreak.OpReset]).
    cbn [UserStreak.trace UserStreak.apply].
    apply elem_of_cons; right. apply elem_of_cons; right.
    apply elem_of_cons; left. reflexivity.
Defined.

(* ===================================================================== *)
(** ** The handlers *)
(* ===================================================================== *)

Section Handlers.
Import FocusSessionRepository UserStreakRepository AcceptFocusSession.
Context {R S : Type}.
Context {sessionRepository : IFocusSessionRepository R}.
Context {streakRepository : IUserStreakRepository S}.
Variable dateProvider : IDateProvider.

Lemma bind_ok {A B : Type} (m : M A) (k : A -> M (R:=R) (S:=S) B) w a w' :
  m w = (Ok a, w') -> bind m k w = k a w'.
Proof. unfold bind. now intros ->. Qed.


Lemma onSessions_eq {A : Type} (f : R -> Result A * R) r (s : S) a r' :
  f r = (a, r') -> onSessions f (r, s) = (a, (r', s)).
Proof. unfold onSessions. simpl. now intros ->. Qed.

(** The idempotency check of step 1: a stored session id ends the call at
    once. *)
Lemma execute_existing (command : AcceptFocusSessionCommandProps) r s existing r' :
  findById (sessionId command) r = (Ok (Some existing), r') ->
  execute dateProvider command (r, s) = (Ok tt, (r', s)).
Proof.
  intros H. unfold execute.
  rewrite (bind_ok _ _ _ _ _ (onSessions_eq _ _ _ _ _ H)). reflexivity.
Qed.





(** The threshold test in full: a date is fed to the transition exactly
    when its total reaches the threshold. *)
Lemma qualifyDate_total (userId timezone date : string) (userStreak : UserStreak.t)
    (r r' : R) (s : S) (totalMinutes : Z) :
  getTotalMinutesForDate userId date timezone r = (Ok totalMinutes, r') ->
  qualifyDate dateProvider userId timezone userStreak date (r, s)
  = (Ok (if QUALIFIED_DAY_THRESHOLD_MINUTES <=? totalMinutes
         then UserStreak.updateWithQualifiedDate date dateProvider userStreak
         else userStreak),
     (r', s)).
Proof.
  intros Htotal. unfold qualifyDate.
  rewrite (bind_ok _ _ _ _ _ (onSessions_eq _ _ _ _ _ Htotal)).
  now destruct (_ <=? _).
Qed.

End Handlers.

(** C1, on the session of the test suite that crosses midnight: the first
    call stores the segments 'midnight-session-day0' and
    'midnight-session-day1' and nothing under 'midnight-session'; the second
    call with the same command passes the [findById] check, reaches [save]
    and throws [FocusSessionAlreadyExistsError].  The stored segments and
    the streak stay as the first call left them, but the call fails. *)
Theorem replay_of_split_session_throws :
  let first := Fixtures.handle Fixtures.midnightSession Fixtures.noData in
  first.1 = Ok tt
  /\ first.2.1 !! "midnight-session" = None
  /\ is_Some (first.2.1 !! "midnight-session-day0")
  /\ is_Some (first.2.1 !! "midnight-session-day1")
  /\ Fixtures.handle Fixtures.midnightSession first.2
     = (Err (FocusSessionAlreadyExistsError "midnight-session-day0"), first.2).
Proof.
  split; [reflexivity |].
  split; [vm_compute; reflexivity |].
  split; [vm_compute; eexists; reflexivity |].
  split; [vm_compute; eexists; reflexivity |].
  vm_compute. reflexivity.
Qed.

(** A session that stays within one civil day is stored under its own id,
    and a second call with the same command changes nothing. *)
Lemma replay_of_stored_session_is_noop
    (dateProvider : IDateProvider)
    (command : AcceptFocusSession.AcceptFocusSessionCommandProps)
    (sessions : gmap string FocusSession.t) (streaks : gmap string UserStreak.t) :
  is_Some (sessions !! AcceptFocusSession.sessionId command) ->
  @AcceptFocusSession.execute _ _
     (FocusSessionRepository.InMemory.repository dateProvider)
     (UserStreakRepository.InMemory.repository dateProvider)
     dateProvider command (sessions, streaks)
  = (Ok tt, (sessions, streaks)).
Proof.
  intros [existing H]. apply (execute_existing dateProvider command _ _ existing).
  simpl. unfold FocusSessionRepository.InMemory.findById. now rewrite H.
Qed.

Section InMemoryHandler.
Import AcceptFocusSession.
Variable dateProvider : IDateProvider.

Abbreviation run :=
  (@execute _ _ (FocusSessionRepository.InMemory.repository dateProvider)
            (UserStreakRepository.InMemory.repository dateProvider) dateProvider).

Lemma createNew_sessionId (id uid : string) (st en : Date) (tz : string)
    (session : FocusSession.t) :
  FocusSession.createNew id uid st en tz dateProvider = Ok session ->
  FocusSession.sessionId session = id.
Proof.
  unfold FocusSession.createNew, FocusSession.create,
    FocusSession.FocusSessionPropsSchema.
  cbn [FocusSession.Props.durationMinutes].
  destruct (differenceInMinutes dateProvider en st); [| discriminate].
  match goal with |- context [if ?c then Some _ else None] => destruct c end;
    [| discriminate].
  destruct (date_leb _ _); [discriminate |].
  now intros [= <-].
Qed.

(** The loop over the dates reads the sessions and leaves them alone. *)
Lemma qualifyDates_sessions (uid tz : string) (dates : list string) :
  forall (userStreak : UserStreak.t)
         (sessions : gmap string FocusSession.t) (streaks : gmap string UserStreak.t),
    (qualifyDates (sessionRepository:=FocusSessionRepository.InMemory.repository dateProvider)
       dateProvider uid tz dates userStreak (sessions, streaks)).2
    = (sessions, streaks).
Proof.
  induction dates as [|date rest IH]; intros userStreak sessions streaks;
    [reflexivity |].
  cbn [qualifyDates]. unfold bind at 1. unfold qualifyDate, bind, onSessions.
  cbn [fst snd FocusSessionRepository.getTotalMinutesForDate
         FocusSessionRepository.InMemory.repository
         FocusSessionRepository.InMemory.getTotalMinutesForDate].
  destruct (fold_left _ _ _) as [total|e]; [| reflexivity].
  destruct (_ <=? _); unfold ret; apply IH.
Qed.

Lemma updateUserStreak_sessions (uid tz : string) (segments : list FocusSession.t)
    (sessions : gmap string FocusSession.t) (streaks : gmap string UserStreak.t) :
  (updateUserStreak (sessionRepository:=FocusSessionRepository.InMemory.repository dateProvider)
     (streakRepository:=UserStreakRepository.InMemory.repository dateProvider)
     dateProvider uid segments tz (sessions, streaks)).2.1
  = sessions.
Proof.
  unfold updateUserStreak. unfold bind at 1. unfold onStreaks at 1.
  cbn [fst snd].
  destruct (UserStreakRepository.findOrCreate uid streaks) as [[userStreak|e] streaks1];
    [| reflexivity].
  unfold bind at 1, liftResult.
  destruct (collectDates dateProvider segments []) as [dateSet|e]; [| reflexivity].
  unfold bind at 1.
  pose proof (qualifyDates_sessions uid tz (sort dateSet) userStreak sessions streaks1)
    as Hkeep.
  destruct (qualifyDates _ _ _ _ _ _) as [[userStreak'|e] w]; cbn [snd] in Hkeep;
    subst w; [| reflexivity].
  unfold onStreaks. cbn [fst snd].
  now destruct (UserStreakRepository.save userStreak' streaks1).
Qed.

(** A session that [splitByDay] leaves whole is stored under its own id,
    where the check of the next call finds it: after a call that succeeded,
    the same command is a successful no-op. *)
Lemma replay_of_whole_session_is_noop
    (command : AcceptFocusSessionCommandProps) (session : FocusSession.t)
    (w w' : gmap string FocusSession.t * gmap string UserStreak.t) :
  FocusSession.createNew (sessionId command) (userId command) (startTime command)
    (endTime command) (timezone command) dateProvider = Ok session ->
  FocusSession.splitByDay dateProvider session = Ok [session] ->
  run command w = (Ok tt, w') ->
  run command w' = (Ok tt, w').
Proof.
  intros Hnew Hsplit Hfirst. destruct w as [sessions streaks].
  assert (Hstored : is_Some (w'.1 !! sessionId command)).
  { revert Hfirst. unfold execute. unfold bind at 1. unfold onSessions at 1.
    cbn [fst snd FocusSessionRepository.findById
           FocusSessionRepository.InMemory.repository
           FocusSessionRepository.InMemory.findById].
    destruct (sessions !! sessionId command) as [existing|] eqn:Hlook.
    - intros [= <-]. cbn [fst]. rewrite Hlook. eauto.
    - rewrite Hnew. unfold bind at 1, liftResult at 1. rewrite Hsplit.
      unfold bind at 1, liftResult at 1. cbn [forEach].
      unfold bind at 1. unfold bind at 1. unfold onSessions at 1.
      cbn [fst snd FocusSessionRepository.save
             FocusSessionRepository.InMemory.repository
             FocusSessionRepository.InMemory.save].
      unfold FocusSessionRepository.InMemory.save.
      rewrite (createNew_sessionId _ _ _ _ _ _ Hnew), Hlook.
      unfold ret at 1.
      intros Hupdate.
      pose proof (updateUserStreak_sessions (userId command) (timezone command)
                    [session] (<[sessionId command:=session]> sessions) streaks)
        as Hkeep.
      rewrite Hupdate in Hkeep. cbn [snd] in Hkeep. rewrite Hkeep.
      rewrite lookup_insert_eq. eauto. }
  destruct w' as [sessions' streaks'].
  now apply replay_of_stored_session_is_noop.
Qed.

End InMemoryHandler.



(** The two boundary tests of the command's test suite, run from no data:
    a session of exactly 30 minutes starts a streak, one of 29 minutes
    creates the zero-value aggregate and leaves it there. *)
Example exactly_30_minutes_starts_a_streak :
  (UserStreak.currentStreak <$> Fixtures.after30min.2 !! Fixtures.userId) = Some 1
  /\ (UserStreak.currentStreak <$> Fixtures.after29min.2 !! Fixtures.userId) = Some 0.
Proof. split; vm_compute; reflexivity. Qed.




(** C9: for a user without a stored aggregate the query succeeds and
    returns the zero-value aggregate. *)
Theorem unknown_user_gets_zero_value {S : Type}
    {streakRepository : UserStreakRepository.IUserStreakRepository S}
    (query : GetUserStreak.GetUserStreakQueryProps) (streaks streaks' : S) :
  UserStreakRepository.findByUserId (GetUserStreak.userId query) streaks
  = (Ok None, streaks') ->
  GetUserStreak.execute query streaks
  = (Ok {| GetUserStreak.r_userId := GetUserStreak.userId query;
           GetUserStreak.r_currentStreak := 0;
           GetUserStreak.r_longestStreak := 0;
           GetUserStreak.r_lastQualifiedDate := None;
           GetUserStreak.r_qualifiedDaysCount := 0 |},
     streaks').
Proof. intros H. unfold GetUserStreak.execute. now rewrite H. Qed.

Lemma unknown_user_gets_zero_value_witness :
  GetUserStreak.execute (streakRepository:=Fixtures.streakRepository)
    Fixtures.someQuery ∅
  = (Ok {| GetUserStreak.r_userId := Fixtures.userId;
           GetUserStreak.r_currentStreak := 0;
           GetUserStreak.r_longestStreak := 0;
           GetUserStreak.r_lastQualifiedDate := None;
           GetUserStreak.r_qualifiedDaysCount := 0 |},
     ∅).
Proof.
  apply (unknown_user_gets_zero_value (streakRepository:=Fixtures.streakRepository)
           Fixtures.someQuery ∅ ∅).
  reflexivity.
Defined.

(** With the in-memory repository the unknown user is the one without an
    entry in the map, and the query leaves the map alone. *)
Lemma unknown_user_in_memory (dateProvider : IDateProvider)
    (query : GetUserStreak.GetUserStreakQueryProps)
    (streaks : gmap string UserStreak.t) :
  streaks !! GetUserStreak.userId query = None ->
  GetUserStreak.execute
    (streakRepository:=UserStreakRepository.InMemory.repository dateProvider)
    query streaks
  = (Ok {| GetUserStreak.r_userId := GetUserStreak.userId query;
           GetUserStreak.r_currentStreak := 0;
           GetUserStreak.r_longestStreak := 0;
           GetUserStreak.r_lastQualifiedDate := None;
           GetUserStreak.r_qualifiedDaysCount := 0 |},
     streaks).
Proof.
  intros H. unfold GetUserStreak.execute. simpl.
  unfold UserStreakRepository.InMemory.findByUserId. now rewrite H.
Qed.

(* ===================================================================== *)
(** ** Splitting a session by civil day *)
(* ===================================================================== *)

(** Arithmetic on days and minutes: the divisions by the two constants
    are turned into their equations. *)
Ltac day_arith :=
  unfold DateFns.MS_PER_DAY, DateFns.MS_PER_MINUTE, FocusSession.MS_PER_DAY in *;
  Z.to_euclidean_division_equations; lia.

Section SplitByDay.
Import FocusSession.
Variable zone : string -> option Z.
Variable now0 : Date.
Variable this : FocusSession.t.
Variable offset zonedEnd : Z.
Hypothesis Hzone : zone (timezone this) = Some offset.

Abbreviation dp := (DateFns.FakeDateProvider zone now0).
Abbreviation D := DateFns.MS_PER_DAY.


(** One turn of the loop, on valid dates. *)
Lemma splitLoop_turn (fuel : nat) (cur : Z) (idx : nat) :
  splitLoop (S fuel) dp this (ValidDate zonedEnd) (ValidDate cur) idx
  = if cur <? zonedEnd then
      bindR (create (Props.mk (sessionId this +:+ "-day" +:+ pretty idx)
                       (userId this) (ValidDate (cur - offset))
                       (ValidDate (Z.min (cur - cur mod D + (D - 1)) zonedEnd - offset))
                       (Num (Z.quot (Z.min (cur - cur mod D + (D - 1)) zonedEnd - offset
                                     - (cur - offset)) DateFns.MS_PER_MINUTE))
                       (timezone this) (createdAt this)))
        (fun segment =>
           bindR (splitLoop fuel dp this (ValidDate zonedEnd)
                    (ValidDate (cur - cur mod D + 1 * D)) (S idx))
             (fun sessions => Ok (segment :: sessions)))
    else Ok [].
Proof.
  cbn [splitLoop isBefore DateFns.FakeDateProvider DateFns.isBefore endOfDay
         DateFns.endOfDay fromZonedTime DateFns.fromZonedTime differenceInMinutes
         startOfDay DateFns.startOfDay addDays DateFns.addDays].
  destruct (Z.ltb_spec cur zonedEnd) as [Hlt|Hge]; [| reflexivity].
  destruct (Z.ltb_spec (cur - cur mod D + (D - 1)) zonedEnd) as [H1|H1];
    [rewrite Z.min_l by lia | rewrite Z.min_r by lia];
    unfold DateFns.fromZonedTime; rewrite Hzone; reflexivity.
Qed.

(** What the loop returns is what [emitted] describes. *)
Lemma splitLoop_emitted (fuel : nat) :
  forall (cur : Z) (idx : nat) (segments : list t),
    splitLoop fuel dp this (ValidDate zonedEnd) (ValidDate cur) idx = Ok segments ->
    Segments.emitted (timezone this) offset zonedEnd cur segments.
Proof.
  induction fuel as [|fuel IH]; intros cur idx segments.
  - cbn [splitLoop isBefore DateFns.FakeDateProvider DateFns.isBefore].
    destruct (Z.ltb_spec cur zonedEnd); [discriminate |].
    intros [= <-]. simpl. lia.
  - rewrite splitLoop_turn.
    destruct (Z.ltb_spec cur zonedEnd) as [Hlt|Hge];
      [| intros [= <-]; simpl; lia].
    unfold create, FocusSessionPropsSchema.
    cbn [Props.durationMinutes Props.sessionId Props.userId Props.startTime
           Props.endTime Props.timezone Props.createdAt].
    match goal with |- context [if ?c then Some _ else None] => destruct c end;
      [| discriminate].
    cbn [startTime endTime date_leb].
    match goal with |- context [if ?c then Err _ else _] => destruct c end;
      [discriminate |].
    cbn [bindR].
    destruct (splitLoop fuel dp this (ValidDate zonedEnd) _ (S idx))
      as [rest|e] eqn:Hrest; [| discriminate].
    intros [= <-]. cbn [Segments.emitted]. unfold Segments.piece.
    cbn [startTime endTime timezone].
    repeat split; try assumption.
    apply IH in Hrest. now rewrite Z.mul_1_l in Hrest.
Qed.



Lemma piece_civilDay (c : Z) (s : t) :
  Segments.piece (timezone this) offset zonedEnd c s -> Segments.civilDay dp s = ValidDate (c - c mod D).
Proof.
  intros (_ & Hstart & _ & Htz). unfold Segments.civilDay.
  rewrite Hstart, Htz.
  cbn [toZonedTime startOfDay DateFns.FakeDateProvider].
  unfold DateFns.toZonedTime. rewrite Hzone. cbn [DateFns.startOfDay].
  f_equal. day_arith.
Qed.





End SplitByDay.

(** [create] throws validation errors only. *)
Lemma create_error (props : FocusSession.Props.t) (e : Error) :
  FocusSession.create props = Err e -> e = ZodError \/ e = EndNotAfterStart.
Proof.
  unfold FocusSession.create.
  destruct (FocusSession.FocusSessionPropsSchema props) as [v|];
    [destruct (date_leb _ _) |]; intros [= <-]; auto.
Qed.

(** With the library model the bound granted to the loop is never
    reached: whatever [splitByDay] returns or throws is what the [while]
    loop of the source does. *)
Lemma splitByDay_within_bound (zone : string -> option Z) (now0 : Date)
    (this : FocusSession.t) :
  FocusSession.splitByDay (DateFns.FakeDateProvider zone now0) this
  <> Err LoopBoundExceeded.
Proof.
  unfold FocusSession.splitByDay.
  cbn [toZonedTime endOfDay isAfter DateFns.FakeDateProvider].
  unfold DateFns.toZonedTime.
  destruct (zone (FocusSession.timezone this)) as [offset|] eqn:Hzone;
    destruct (FocusSession.startTime this) as [a|];
    destruct (FocusSession.endTime this) as [b|];
    try (cbn; discriminate).
  cbn [DateFns.endOfDay DateFns.isAfter].
  destruct (Z.ltb_spec (a + offset - (a + offset) mod DateFns.MS_PER_DAY
                        + (DateFns.MS_PER_DAY - 1)) (b + offset)) as [Hmulti|Hsingle];
    cbn [negb]; [| discriminate].
  assert (Hbound : (b + offset) / DateFns.MS_PER_DAY - (a + offset) / DateFns.MS_PER_DAY + 1
                   <= Z.of_nat (FocusSession.loopBound (ValidDate (a + offset))
                                                       (ValidDate (b + offset)))).
  { cbn [FocusSession.loopBound]. day_arith. }
  revert Hbound.
  generalize (FocusSession.loopBound (ValidDate (a + offset)) (ValidDate (b + offset)))
    as fuel.
  generalize (a + offset) as cur, 0%nat as idx.
  intros cur idx fuel. revert cur idx.
  induction fuel as [|fuel IH]; intros cur idx Hbound.
  - cbn [FocusSession.splitLoop isBefore DateFns.FakeDateProvider DateFns.isBefore].
    destruct (Z.ltb_spec cur (b + offset)); [exfalso; day_arith | discriminate].
  - rewrite (splitLoop_turn zone now0 this offset (b + offset) Hzone).
    destruct (Z.ltb_spec cur (b + offset)); [| discriminate].
    destruct (FocusSession.create _) as [segment|e] eqn:Hcreate; cbn [bindR].
    + specialize (IH (cur - cur mod DateFns.MS_PER_DAY + 1 * DateFns.MS_PER_DAY)
                     (S idx) ltac:(day_arith)).
      destruct (FocusSession.splitLoop fuel _ this _ _ _); [discriminate | exact IH].
    + destruct (create_error _ _ Hcreate) as [-> | ->]; discriminate.
Qed.

Lemma create_ok_inv (props : FocusSession.Props.t) (this : FocusSession.t) :
  FocusSession.create props = Ok this ->
  z_uuid (FocusSession.userId this) = true
  /\ z_string_min1 (FocusSession.timezone this) = true
  /\ z_date (FocusSession.createdAt this) = true
  /\ exists a b : Z,
       FocusSession.startTime this = ValidDate a
       /\ FocusSession.endTime this = ValidDate b /\ a < b.
Proof.
  unfold FocusSession.create, FocusSession.FocusSessionPropsSchema.
  destruct (FocusSession.Props.durationMinutes props) as [d|]; [| discriminate].
  match goal with |- context [if ?c then Some _ else None] => destruct c eqn:Hc end;
    [| discriminate].
  repeat (apply andb_prop in Hc as [Hc ?]).
  cbn [FocusSession.startTime FocusSession.endTime].
  destruct (FocusSession.Props.startTime props) as [a|] eqn:Ha; [| discriminate].
  destruct (FocusSession.Props.endTime props) as [b|] eqn:Hb; [| discriminate].
  cbn [date_leb]. destruct (Z.leb_spec b a); [discriminate |].
  intros [= <-]. cbn. repeat split; try assumption.
  exists a, b. auto.
Qed.





(** The segments of that witness, as the test suite expects them: two
    segments, 'midnight-session-day0' of 29 minutes on 2025-01-15 and
    'midnight-session-day1' of 30 minutes on 2025-01-16. *)
Example est_midnight_segments :
  bindR (FocusSession.splitByDay Fixtures.dateProvider Fixtures.estMidnightSession)
    (fun segments =>
       Ok (map FocusSession.sessionId segments,
           map FocusSession.durationMinutes segments))
  = Ok (["midnight-session-day0"; "midnight-session-day1"], [29; 30]).
Proof. vm_compute. reflexivity. Qed.


(** A piece shorter than a minute has a duration of 0 minutes, which the
    schema rejects: [splitByDay] throws for a session that starts thirty
    seconds before midnight. *)
Lemma split_throws_on_piece_under_a_minute :
  FocusSession.splitByDay Fixtures.dateProvider Fixtures.lastSeconds = Err ZodError.
Proof. vm_compute. reflexivity. Qed.

(* ===================================================================== *)
(** * Further properties *)
(* ===================================================================== *)

(* ===================================================================== *)
(** ** The rows of the streak transition *)
(* ===================================================================== *)

Section TransitionRows.
Import UserStreak.
Variable dateProvider : IDateProvider.
Hypothesis parses_like_date_fns : EmptyStringIsNoDate dateProvider.

(** With a day difference that is a number, the aggregate takes the path
    of [updateFromLast]. *)
Lemma update_numbered (this : t) (d last : string) (n : Z) :
  lastQualifiedDate this = Some last ->
  calendarDayDiff dateProvider d last = Num n ->
  updateWithQualifiedDate d dateProvider this
  = updateFromLast last d dateProvider this.
Proof.
  intros Hlast Hdiff. apply update_dated; [exact Hlast |].
  exact (dated_not_empty dateProvider d last n parses_like_date_fns Hdiff).
Qed.

Lemma update_same_day (this : t) (d last : string) :
  lastQualifiedDate this = Some last ->
  calendarDayDiff dateProvider d last = Num 0 ->
  updateWithQualifiedDate d dateProvider this
  = mk (userId this) (currentStreak this) (longestStreak this)
       (lastQualifiedDate this) (qualifiedDaysCount this) (now dateProvider).
Proof.
  intros Hlast Hdiff. rewrite (update_numbered this d last 0 Hlast Hdiff).
  unfold updateFromLast. now rewrite Hdiff.
Qed.

Lemma update_late (this : t) (d last : string) (n : Z) :
  lastQualifiedDate this = Some last ->
  calendarDayDiff dateProvider d last = Num n ->
  n < 0 ->
  updateWithQualifiedDate d dateProvider this
  = mk (userId this) (currentStreak this) (longestStreak this)
       (lastQualifiedDate this) (qualifiedDaysCount this + 1) (now dateProvider).
Proof.
  intros Hlast Hdiff Hneg. rewrite (update_numbered this d last n Hlast Hdiff).
  unfold updateFromLast. rewrite Hdiff. cbn [num_eqb num_ltb].
  destruct (Z.eqb_spec n 0); [lia |]. destruct (Z.ltb_spec n 0); [reflexivity | lia].
Qed.

Lemma update_next_day (this : t) (d last : string) :
  lastQualifiedDate this = Some last ->
  calendarDayDiff dateProvider d last = Num 1 ->
  updateWithQualifiedDate d dateProvider this
  = mk (userId this) (currentStreak this + 1)
       (Z.max (longestStreak this) (currentStreak this + 1))
       (Some d) (qualifiedDaysCount this + 1) (now dateProvider).
Proof.
  intros Hlast Hdiff. rewrite (update_numbered this d last 1 Hlast Hdiff).
  unfold updateFromLast. rewrite Hdiff. cbn [num_eqb num_ltb Z.eqb Z.ltb Z.compare].
  f_equal. destruct (Z.ltb_spec (longestStreak this) (currentStreak this + 1)); lia.
Qed.

Lemma update_after_gap (this : t) (d last : string) (n : Z) :
  lastQualifiedDate this = Some last ->
  calendarDayDiff dateProvider d last = Num n ->
  1 < n ->
  updateWithQualifiedDate d dateProvider this
  = mk (userId this) 1 (longestStreak this) (Some d)
       (qualifiedDaysCount this + 1) (now dateProvider).
Proof.
  intros Hlast Hdiff Hgap. rewrite (update_numbered this d last n Hlast Hdiff).
  unfold updateFromLast. rewrite Hdiff. cbn [num_eqb num_ltb].
  destruct (Z.eqb_spec n 0); [lia |]. destruct (Z.ltb_spec n 0); [lia |].
  destruct (Z.eqb_spec n 1); [lia | reflexivity].
Qed.

End TransitionRows.

(** X1: for an aggregate with a last qualified date and a date [d] one
    calendar day after it, the transition adds 1 to [currentStreak], raises
    [longestStreak] to the new [currentStreak] if that is larger, sets
    [lastQualifiedDate] to [d] and adds 1 to [qualifiedDaysCount]. *)
Theorem next_day_extends_the_streak (dateProvider : IDateProvider)
    (this : UserStreak.t) (last d : string) :
  UserStreak.EmptyStringIsNoDate dateProvider ->
  UserStreak.lastQualifiedDate this = Some last ->
  UserStreak.calendarDayDiff dateProvider d last = Num 1 ->
  let s' := UserStreak.updateWithQualifiedDate d dateProvider this in
  UserStreak.currentStreak s' = UserStreak.currentStreak this + 1
  /\ UserStreak.longestStreak s'
     = Z.max (UserStreak.longestStreak this) (UserStreak.currentStreak this + 1)
  /\ UserStreak.lastQualifiedDate s' = Some d
  /\ UserStreak.qualifiedDaysCount s' = UserStreak.qualifiedDaysCount this + 1.
Proof.
  intros Hlaw Hlast Hdiff s'. subst s'.
  rewrite (update_next_day dateProvider Hlaw this d last Hlast Hdiff).
  repeat split.
Qed.

Lemma next_day_extends_the_streak_witness :
  let s' := UserStreak.updateWithQualifiedDate "2025-01-16" Fixtures.dateProvider
              Fixtures.fiveDayStreak in
  UserStreak.currentStreak s' = 6
  /\ UserStreak.longestStreak s' = 6
  /\ UserStreak.lastQualifiedDate s' = Some "2025-01-16"
  /\ UserStreak.qualifiedDaysCount s' = 11.
Proof.
  apply (next_day_extends_the_streak Fixtures.dateProvider Fixtures.fiveDayStreak
           "2025-01-15" "2025-01-16").
  - intros [ms|]; reflexivity.
  - reflexivity.
  - vm_compute. reflexivity.
Defined.

(** X2: for an aggregate with a last qualified date and a date [d] more
    than one calendar day after it, the transition sets [currentStreak] to
    1, leaves [longestStreak] as it was, sets [lastQualifiedDate] to [d] and
    adds 1 to [qualifiedDaysCount]. *)
Theorem gap_restarts_the_streak (dateProvider : IDateProvider)
    (this : UserStreak.t) (last d : string) (n : Z) :
  UserStreak.EmptyStringIsNoDate dateProvider ->
  UserStreak.lastQualifiedDate this = Some last ->
  UserStreak.calendarDayDiff dateProvider d last = Num n ->
  1 < n ->
  let s' := UserStreak.updateWithQualifiedDate d dateProvider this in
  UserStreak.currentStreak s' = 1
  /\ UserStreak.longestStreak s' = UserStreak.longestStreak this
  /\ UserStreak.lastQualifiedDate s' = Some d
  /\ UserStreak.qualifiedDaysCount s' = UserStreak.qualifiedDaysCount this + 1.
Proof.
  intros Hlaw Hlast Hdiff Hgap s'. subst s'.
  rewrite (update_after_gap dateProvider Hlaw this d last n Hlast Hdiff Hgap).
  repeat split.
Qed.

Lemma gap_restarts_the_streak_witness :
  let s' := UserStreak.updateWithQualifiedDate "2025-01-20" Fixtures.dateProvider
              Fixtures.tenDayStreak in
  UserStreak.currentStreak s' = 1
  /\ UserStreak.longestStreak s' = 15
  /\ UserStreak.lastQualifiedDate s' = Some "2025-01-20"
  /\ UserStreak.qualifiedDaysCount s' = 26.
Proof.
  apply (gap_restarts_the_streak Fixtures.dateProvider Fixtures.tenDayStreak
           "2025-01-15" "2025-01-20" 5).
  - intros [ms|]; reflexivity.
  - reflexivity.
  - vm_compute. reflexivity.
  - reflexivity.
Defined.

(** X3: a date on the calendar day of the last qualified date changes
    none of [currentStreak], [longestStreak], [lastQualifiedDate] and
    [qualifiedDaysCount]. *)
Theorem same_day_changes_nothing (dateProvider : IDateProvider)
    (this : UserStreak.t) (last d : string) :
  UserStreak.EmptyStringIsNoDate dateProvider ->
  UserStreak.lastQualifiedDate this = Some last ->
  UserStreak.calendarDayDiff dateProvider d last = Num 0 ->
  let s' := UserStreak.updateWithQualifiedDate d dateProvider this in
  UserStreak.currentStreak s' = UserStreak.currentStreak this
  /\ UserStreak.longestStreak s' = UserStreak.longestStreak this
  /\ UserStreak.lastQualifiedDate s' = UserStreak.lastQualifiedDate this
  /\ UserStreak.qualifiedDaysCount s' = UserStreak.qualifiedDaysCount this.
Proof.
  intros Hlaw Hlast Hdiff s'. subst s'.
  rewrite (update_same_day dateProvider Hlaw this d last Hlast Hdiff).
  repeat split.
Qed.

Lemma same_day_changes_nothing_witness :
  let s' := UserStreak.updateWithQualifiedDate "2025-01-15" Fixtures.dateProvider
              Fixtures.fiveDayStreak in
  UserStreak.currentStreak s' = 5
  /\ UserStreak.longestStreak s' = 5
  /\ UserStreak.lastQualifiedDate s' = Some "2025-01-15"
  /\ UserStreak.qualifiedDaysCount s' = 10.
Proof.
  apply (same_day_changes_nothing Fixtures.dateProvider Fixtures.fiveDayStreak
           "2025-01-15" "2025-01-15").
  - intros [ms|]; reflexivity.
  - reflexivity.
  - vm_compute. reflexivity.
Defined.

(** X4: a date whose day difference to the last qualified date is NaN (a
    string that does not parse) falls through to the last branch: the
    streak restarts at 1 and the string becomes [lastQualifiedDate]. *)
Theorem unparseable_date_restarts_the_streak (dateProvider : IDateProvider)
    (this : UserStreak.t) (last d : string) :
  UserStreak.lastQualifiedDate this = Some last ->
  last <> EmptyString ->
  UserStreak.calendarDayDiff dateProvider d last = NaN ->
  let s' := UserStreak.updateWithQualifiedDate d dateProvider this in
  UserStreak.currentStreak s' = 1
  /\ UserStreak.longestStreak s' = UserStreak.longestStreak this
  /\ UserStreak.lastQualifiedDate s' = Some d
  /\ UserStreak.qualifiedDaysCount s' = UserStreak.qualifiedDaysCount this + 1.
Proof.
  intros Hlast Hne Hdiff s'. subst s'.
  rewrite (update_dated dateProvider this d last Hlast Hne).
  unfold UserStreak.updateFromLast. rewrite Hdiff. repeat split.
Qed.

Lemma unparseable_date_restarts_the_streak_witness :
  let s' := UserStreak.updateWithQualifiedDate "2025-02-30" Fixtures.dateProvider
              Fixtures.fiveDayStreak in
  UserStreak.currentStreak s' = 1
  /\ UserStreak.longestStreak s' = 5
  /\ UserStreak.lastQualifiedDate s' = Some "2025-02-30"
  /\ UserStreak.qualifiedDaysCount s' = 11.
Proof.
  apply (unparseable_date_restarts_the_streak Fixtures.dateProvider
           Fixtures.fiveDayStreak "2025-01-15" "2025-02-30").
  - reflexivity.
  - discriminate.
  - vm_compute. reflexivity.
Defined.



(* ===================================================================== *)
(** ** Sequences of qualifying dates *)
(* ===================================================================== *)

Section UpdateSequences.
Import UserStreak StreakHistory.
Variable dateProvider : IDateProvider.

Lemma dated_not_fresh (this : t) (d : string) :
  d <> EmptyString -> lastQualifiedDate this = Some d -> startsFresh this = false.
Proof. intros Hne Hlast. unfold startsFresh. rewrite Hlast. now destruct d. Qed.

(** One qualifying date keeps the shape, and lowers neither the longest
    streak nor the day count. *)
Lemma update_consistent (this : t) (d : string) :
  consistent this -> d <> EmptyString ->
  consistent (updateWithQualifiedDate d dateProvider this)
  /\ startsFresh (updateWithQualifiedDate d dateProvider this) = false
  /\ longestStreak this <= longestStreak (updateWithQualifiedDate d dateProvider this)
  /\ qualifiedDaysCount this
     <= qualifiedDaysCount (updateWithQualifiedDate d dateProvider this).
Proof.
  intros [Hle Hshape] Hd.
  assert (Hdated : forall u c l q t, startsFresh (mk u c l (Some d) q t) = false)
    by (intros; now apply (dated_not_fresh _ d)).
  destruct (startsFresh this) eqn:Hfresh; rewrite ?Hfresh in Hshape.
  - rewrite (update_fresh dateProvider this d Hfresh). unfold consistent.
    rewrite Hdated. cbn [currentStreak longestStreak qualifiedDaysCount]. lia.
  - unfold startsFresh in Hfresh.
    destruct (lastQualifiedDate this) as [[|c last]|] eqn:Hlast;
      try discriminate Hfresh.
    rewrite (update_dated dateProvider this d _ Hlast) by discriminate.
    unfold updateFromLast, consistent.
    destruct (num_eqb _ 0); [| destruct (num_ltb _ 0); [| destruct (num_eqb _ 1)]];
      rewrite ?Hdated; unfold startsFresh;
      cbn [lastQualifiedDate currentStreak longestStreak qualifiedDaysCount];
      rewrite ?Hlast;
      try destruct (Z.ltb_spec (longestStreak this) (currentStreak this + 1));
      repeat split; lia.
Qed.

Lemma trace_updates_from (dates : list string) :
  forall this : t,
    consistent this -> Forall (fun d => d <> EmptyString) dates ->
    Forall (fun s => consistent s
                     /\ longestStreak this <= longestStreak s
                     /\ qualifiedDaysCount this <= qualifiedDaysCount s)
           (trace dateProvider this (updates dates)).
Proof.
  induction dates as [|d dates IH]; intros this Hthis Hdates; cbn [updates map trace].
  - apply Forall_cons. split; [| constructor].
    split; [exact Hthis | lia].
  - apply Forall_cons in Hdates as [Hd Hdates].
    destruct (update_consistent this d Hthis Hd) as (Hnext & _ & Hlong & Hcount).
    apply Forall_cons. split; [split; [exact Hthis | lia] |].
    eapply Forall_impl; [exact (IH _ Hnext Hdates) |].
    cbn [apply]. intros s (Hs & Hl & Hc). split; [exact Hs | lia].
Qed.

Lemma trace_tail_active (dates : list string) :
  forall this : t,
    consistent this -> Forall (fun d => d <> EmptyString) dates ->
    Forall (fun s => hasActiveStreak s = true)
           (tail (trace dateProvider this (updates dates))).
Proof.
  destruct dates as [|d dates]; intros this Hthis Hdates; [constructor |].
  cbn [updates map trace tail apply].
  apply Forall_cons in Hdates as [Hd Hdates].
  destruct (update_consistent this d Hthis Hd) as (Hnext & Hfresh & _).
  set (this' := updateWithQualifiedDate d dateProvider this) in *.
  clearbody this'. clear Hthis this.
  revert this' Hnext Hfresh. induction dates as [|d' dates IH];
    intros this Hthis Hfresh; cbn [map trace apply].
  - constructor; [| constructor].
    destruct Hthis as [_ Hshape]. rewrite Hfresh in Hshape.
    unfold hasActiveStreak. unfold startsFresh in Hfresh.
    destruct (lastQualifiedDate this); [| discriminate].
    apply andb_true_intro. split; [apply Z.ltb_lt; lia | reflexivity].
  - apply Forall_cons in Hdates as [Hd' Hdates].
    destruct (update_consistent this d' Hthis Hd') as (Hnext & Hfresh' & _).
    constructor; [| exact (IH Hdates _ Hnext Hfresh')].
    destruct Hthis as [_ Hshape]. rewrite Hfresh in Hshape.
    unfold hasActiveStreak. unfold startsFresh in Hfresh.
    destruct (lastQualifiedDate this); [| discriminate].
    apply andb_true_intro. split; [apply Z.ltb_lt; lia | reflexivity].
Qed.

(** The states from position [i] on are the trace of the rest of the
    calls from the state at [i]. *)
Lemma trace_later (ops : list op) :
  forall (this si sj : t) (i j : nat),
    trace dateProvider this ops !! i = Some si ->
    trace dateProvider this ops !! j = Some sj ->
    (i <= j)%nat ->
    sj ∈ trace dateProvider si (drop i ops).
Proof.
  induction ops as [|o ops IH]; intros this si sj i j Hi Hj Hij.
  - destruct i, j; try discriminate; cbn in *.
    injection Hi as <-. injection Hj as <-. apply list_elem_of_singleton. reflexivity.
  - destruct i as [|i].
    + cbn in Hi. injection Hi as <-. rewrite drop_0.
      apply list_elem_of_lookup. eauto.
    + destruct j as [|j]; [lia |]. cbn in Hi, Hj. cbn [drop].
      apply (IH _ si sj i j Hi Hj). lia.
Qed.

End UpdateSequences.

(** The zero-value aggregate of [createNew] has the shape. *)
Lemma createNew_consistent (dateProvider : IDateProvider) (uid : string)
    (s : UserStreak.t) :
  UserStreak.createNew uid dateProvider = Ok s -> StreakHistory.consistent s.
Proof.
  unfold UserStreak.createNew, UserStreak.create.
  destruct (UserStreak.UserStreakPropsSchema _); intros [= <-].
  unfold StreakHistory.consistent. cbn. lia.
Qed.

(** X6: along any sequence of qualifying dates (none of them the empty
    string) from the aggregate of [createNew], [longestStreak] at a later
    state is at least every [currentStreak] and every [longestStreak]
    observed before, and [qualifiedDaysCount] never decreases. *)
Theorem dates_never_lower_the_marks (dateProvider : IDateProvider) (uid : string)
    (s0 : UserStreak.t) (dates : list string) (i j : nat) (si sj : UserStreak.t) :
  UserStreak.createNew uid dateProvider = Ok s0 ->
  Forall (fun d => d <> EmptyString) dates ->
  UserStreak.trace dateProvider s0 (StreakHistory.updates dates) !! i = Some si ->
  UserStreak.trace dateProvider s0 (StreakHistory.updates dates) !! j = Some sj ->
  (i <= j)%nat ->
  UserStreak.currentStreak si <= UserStreak.longestStreak sj
  /\ UserStreak.longestStreak si <= UserStreak.longestStreak sj
  /\ UserStreak.qualifiedDaysCount si <= UserStreak.qualifiedDaysCount sj.
Proof.
  intros Hnew Hdates Hi Hj Hij.
  pose proof (createNew_consistent dateProvider uid s0 Hnew) as H0.
  pose proof (trace_updates_from dateProvider dates s0 H0 Hdates) as Hall.
  rewrite Forall_lookup in Hall. destruct (Hall i si Hi) as ([Hle _] & _).
  assert (Hsi : StreakHistory.consistent si) by (exact (proj1 (Hall i si Hi))).
  pose proof (trace_later dateProvider _ s0 si sj i j Hi Hj Hij) as Hin.
  unfold StreakHistory.updates in Hin. rewrite skipn_map in Hin.
  fold (StreakHistory.updates (drop i dates)) in Hin.
  pose proof (trace_updates_from dateProvider (drop i dates) si Hsi
                (Forall_drop _ i _ Hdates)) as Hlater.
  rewrite Forall_forall in Hlater.
  destruct (Hlater sj Hin) as (_ & Hl & Hc). lia.
Qed.

Lemma dates_never_lower_the_marks_witness :
  UserStreak.currentStreak MoreFixtures.twoDayStreak
  <= UserStreak.longestStreak MoreFixtures.restartedStreak
  /\ UserStreak.longestStreak MoreFixtures.twoDayStreak
     <= UserStreak.longestStreak MoreFixtures.restartedStreak
  /\ UserStreak.qualifiedDaysCount MoreFixtures.twoDayStreak
     <= UserStreak.qualifiedDaysCount MoreFixtures.restartedStreak.
Proof.
  apply (dates_never_lower_the_marks Fixtures.dateProvider Fixtures.userId
           Fixtures.newStreak ["2025-01-14"; "2025-01-15"; "2025-01-20"]
           2 3 MoreFixtures.twoDayStreak MoreFixtures.restartedStreak).
  - reflexivity.
  - repeat constructor; discriminate.
  - vm_compute. reflexivity.
  - vm_compute. reflexivity.
  - lia.
Defined.

(** X7: after the first of any sequence of qualifying dates (none of them
    the empty string) from the aggregate of [createNew], every state has
    an active streak. *)
Theorem active_after_the_first_date (dateProvider : IDateProvider) (uid : string)
    (s0 s : UserStreak.t) (dates : list string) :
  UserStreak.createNew uid dateProvider = Ok s0 ->
  Forall (fun d => d <> EmptyString) dates ->
  s ∈ tail (UserStreak.trace dateProvider s0 (StreakHistory.updates dates)) ->
  UserStreak.hasActiveStreak s = true.
Proof.
  intros Hnew Hdates Hs.
  pose proof (trace_tail_active dateProvider dates s0
                (createNew_consistent dateProvider uid s0 Hnew) Hdates) as Hall.
  rewrite Forall_forall in Hall. exact (Hall s Hs).
Qed.

Lemma active_after_the_first_date_witness :
  UserStreak.hasActiveStreak
    (UserStreak.updateWithQualifiedDate "2025-01-14" Fixtures.dateProvider
       Fixtures.newStreak) = true.
Proof.
  apply (active_after_the_first_date Fixtures.dateProvider Fixtures.userId
           Fixtures.newStreak _ ["2025-01-14"]).
  - reflexivity.
  - repeat constructor; discriminate.
  - cbn [StreakHistory.updates map UserStreak.trace tail UserStreak.apply].
    apply elem_of_cons. left. reflexivity.
Defined.

(* ===================================================================== *)
(** ** Sessions and their segments, for every date provider *)
(* ===================================================================== *)

Lemma min1_not_empty (s : string) : z_string_min1 s = true <-> s <> EmptyString.
Proof. destruct s; cbn; split; intros H; try discriminate; try reflexivity; now contradict H. Qed.

Lemma create_ok_iff (props : FocusSession.Props.t) (this : FocusSession.t) :
  FocusSession.create props = Ok this
  <-> props = SessionFacts.propsOf this /\ SessionFacts.valid this.
Proof.
  unfold FocusSession.create, FocusSession.FocusSessionPropsSchema,
    SessionFacts.valid, SessionFacts.propsOf.
  split.
  - destruct props as [sid uid st en dur tz created].
    cbn [FocusSession.Props.durationMinutes FocusSession.Props.sessionId
           FocusSession.Props.userId FocusSession.Props.startTime
           FocusSession.Props.endTime FocusSession.Props.timezone
           FocusSession.Props.createdAt].
    destruct dur as [d|]; [| discriminate].
    destruct (_ && _) eqn:Hc; [| discriminate].
    repeat (apply andb_prop in Hc as [Hc ?]).
    cbn [FocusSession.startTime FocusSession.endTime].
    destruct st as [a|]; [| discriminate]. destruct en as [b|]; [| discriminate].
    cbn [date_leb]. destruct (Z.leb_spec b a); [discriminate |].
    intros [= <-]. cbn. split; [reflexivity |].
    repeat split; try assumption; try (now apply min1_not_empty).
    + now apply Z.ltb_lt.
    + exists a, b. auto.
  - intros [-> (Hid & Huuid & Htz & Hdur & Hcreated & a & b & Ha & Hb & Hlt)].
    cbn [FocusSession.Props.durationMinutes FocusSession.Props.sessionId
           FocusSession.Props.userId FocusSession.Props.startTime
           FocusSession.Props.endTime FocusSession.Props.timezone
           FocusSession.Props.createdAt].
    apply min1_not_empty in Hid, Htz. apply Z.ltb_lt in Hdur.
    rewrite Hid, Huuid, Htz, Hdur, Hcreated, Ha, Hb. cbn.
    destruct (Z.leb_spec b a); [lia |]. destruct this; cbn in *. now subst.
Qed.

Section SegmentsOfAnyProvider.
Import FocusSession.
Variable dateProvider : IDateProvider.
Variable this : FocusSession.t.

(** The segments of the loop are numbered from the index of its first
    turn, carry the fields of the session and have passed [create]. *)
Lemma splitLoop_segments (fuel : nat) :
  forall (zonedEnd currentStart : Date) (idx : nat) (segments : list t),
    splitLoop fuel dateProvider this zonedEnd currentStart idx = Ok segments ->
    map sessionId segments
    = map (SessionFacts.segmentId this) (seq idx (length segments))
    /\ Forall (fun s => SessionFacts.cutFrom this s /\ SessionFacts.valid s) segments.
Proof.
  induction fuel as [|fuel IH]; intros zonedEnd currentStart idx segments;
    cbn [splitLoop]; destruct (isBefore dateProvider currentStart zonedEnd);
    try discriminate; try (intros [= <-]; split; [reflexivity | constructor]).
  destruct (create _) as [segment|e] eqn:Hcreate; [| discriminate].
  cbn [bindR].
  destruct (splitLoop fuel _ _ _ _ _) as [rest|e] eqn:Hrest; [| discriminate].
  intros [= <-]. apply IH in Hrest as [Hids Hall].
  apply create_ok_iff in Hcreate as [Hprops Hvalid].
  injection Hprops as Hid Huser _ _ _ Htz Hcreated.
  split.
  - cbn [map length seq]. now rewrite Hids, <- Hid.
  - constructor; [| exact Hall]. split; [| exact Hvalid].
    unfold SessionFacts.cutFrom. auto.
Qed.

Lemma segmentId_inj : Inj (=) (=) (SessionFacts.segmentId this).
Proof.
  intros i j H. unfold SessionFacts.segmentId in H.
  apply (inj (String.app (sessionId this))) in H.
  apply (inj (String.app "-day")) in H.
  now apply (inj pretty) in H.
Qed.

End SegmentsOfAnyProvider.



(** X9: whatever the date provider, the sessions that [splitByDay]
    returns have pairwise different ids: either the session itself, or
    segments named [sessionId-day0], [sessionId-day1], ... in order. *)
Theorem segments_have_their_own_ids (dateProvider : IDateProvider)
    (this : FocusSession.t) (segments : list FocusSession.t) :
  FocusSession.splitByDay dateProvider this = Ok segments ->
  NoDup (map FocusSession.sessionId segments)
  /\ (segments = [this]
      \/ map FocusSession.sessionId segments
         = map (SessionFacts.segmentId this) (seq 0 (length segments))).
Proof.
  unfold FocusSession.splitByDay.
  destruct (negb _).
  - intros [= <-]. split; [| now left]. repeat constructor. apply not_elem_of_nil.
  - intros Hloop. apply splitLoop_segments in Hloop as [Hids _].
    split; [| now right]. rewrite Hids.
    apply (NoDup_fmap_2 (SessionFacts.segmentId this) (Inj0 := segmentId_inj this)).
    apply NoDup_seq.
Qed.

Lemma segments_have_their_own_ids_witness :
  NoDup (map FocusSession.sessionId MoreFixtures.estMidnightSegments)
  /\ (MoreFixtures.estMidnightSegments = [Fixtures.estMidnightSession]
      \/ map FocusSession.sessionId MoreFixtures.estMidnightSegments
         = map (SessionFacts.segmentId Fixtures.estMidnightSession)
               (seq 0 (length MoreFixtures.estMidnightSegments))).
Proof.
  apply (segments_have_their_own_ids Fixtures.dateProvider
           Fixtures.estMidnightSession MoreFixtures.estMidnightSegments).
  vm_compute. reflexivity.
Defined.

(** X10: whatever the date provider, every session that [splitByDay]
    returns for a valid session is valid itself and carries the user, the
    timezone and the creation time of the session. *)
Theorem segments_are_valid_and_keep_the_origin (dateProvider : IDateProvider)
    (this : FocusSession.t) (segments : list FocusSession.t) :
  SessionFacts.valid this ->
  FocusSession.splitByDay dateProvider this = Ok segments ->
  Forall (fun s => SessionFacts.cutFrom this s /\ SessionFacts.valid s) segments.
Proof.
  intros Hvalid. unfold FocusSession.splitByDay.
  destruct (negb _).
  - intros [= <-]. constructor; [| constructor].
    split; [unfold SessionFacts.cutFrom; auto | exact Hvalid].
  - intros Hloop. now apply splitLoop_segments in Hloop as [_ Hall].
Qed.

Lemma segments_are_valid_and_keep_the_origin_witness :
  Forall (fun s => SessionFacts.cutFrom Fixtures.estMidnightSession s
                   /\ SessionFacts.valid s) MoreFixtures.estMidnightSegments.
Proof.
  apply (segments_are_valid_and_keep_the_origin Fixtures.dateProvider
           Fixtures.estMidnightSession MoreFixtures.estMidnightSegments).
  - apply (create_ok_iff Fixtures.estMidnight). vm_compute. reflexivity.
  - vm_compute. reflexivity.
Defined.

(* ===================================================================== *)
(** ** Sessions and their segments, with date-fns *)
(* ===================================================================== *)

Lemma string_length_app (s t : string) :
  String.length (s +:+ t) = (String.length s + String.length t)%nat.
Proof.
  induction s as [|c s IH]; [reflexivity |].
  change (String c s +:+ t) with (String c (s +:+ t)).
  cbn [String.length Nat.add]. f_equal. exact IH.
Qed.

Lemma segmentId_not_sessionId (this : FocusSession.t) (i : nat) :
  SessionFacts.segmentId this i <> FocusSession.sessionId this.
Proof.
  intros H. apply (f_equal String.length) in H.
  unfold SessionFacts.segmentId in H. rewrite !string_length_app in H.
  cbn in H. lia.
Qed.

Section SegmentsWithDateFns.
Import FocusSession.
Variable zone : string -> option Z.
Variable now0 : Date.
Variable this : FocusSession.t.
Variable offset zonedEnd : Z.
Hypothesis Hzone : zone (timezone this) = Some offset.

Abbreviation dp := (DateFns.FakeDateProvider zone now0).
Abbreviation D := DateFns.MS_PER_DAY.

(** The minutes of a segment of the loop are the whole minutes between
    its bounds. *)
Lemma splitLoop_minutes (fuel : nat) :
  forall (cur : Z) (idx : nat) (segments : list t),
    splitLoop fuel dp this (ValidDate zonedEnd) (ValidDate cur) idx = Ok segments ->
    Forall (fun s => exists x y : Z,
                startTime s = ValidDate x /\ endTime s = ValidDate y
                /\ durationMinutes s = Z.quot (y - x) DateFns.MS_PER_MINUTE
                /\ 0 < durationMinutes s)
           segments.
Proof.
  induction fuel as [|fuel IH]; intros cur idx segments.
  - cbn [splitLoop isBefore DateFns.FakeDateProvider DateFns.isBefore].
    destruct (cur <? zonedEnd); [discriminate |]. intros [= <-]. constructor.
  - rewrite (splitLoop_turn zone now0 this offset zonedEnd Hzone).
    destruct (cur <? zonedEnd); [| intros [= <-]; constructor].
    destruct (create _) as [segment|e] eqn:Hcreate; [| discriminate].
    cbn [bindR].
    destruct (splitLoop fuel _ _ _ _ _) as [rest|e] eqn:Hrest; [| discriminate].
    intros [= <-]. constructor; [| exact (IH _ _ _ Hrest)].
    apply create_ok_iff in Hcreate as [Hprops (_ & _ & _ & Hpos & _)].
    injection Hprops as _ _ Hstart Hend Hdur _ _.
    do 2 eexists. repeat split; [symmetry; exact Hstart | symmetry; exact Hend | | exact Hpos].
    now rewrite <- Hdur.
Qed.

(** One segment per civil day, none skipped. *)
Lemma emitted_days (segments : list t) :
  forall cur : Z,
    Segments.emitted (timezone this) offset zonedEnd cur segments ->
    forall (i : nat) (s : t),
      segments !! i = Some s ->
      Segments.civilDay dp s = ValidDate (cur - cur mod D + Z.of_nat i * D).
Proof.
  induction segments as [|s0 rest IH]; intros cur Hem i s Hi; [discriminate Hi |].
  destruct Hem as [Hpiece Hrest]. destruct i as [|i].
  - injection Hi as <-.
    rewrite (piece_civilDay zone now0 this offset zonedEnd Hzone cur s0 Hpiece).
    f_equal. lia.
  - cbn in Hi. rewrite (IH _ Hrest i s Hi). f_equal. day_arith.
Qed.

Lemma emitted_length (segments : list t) :
  forall cur : Z,
    cur < zonedEnd ->
    Segments.emitted (timezone this) offset zonedEnd cur segments ->
    Z.of_nat (length segments) = (zonedEnd - 1) / D - cur / D + 1.
Proof.
  induction segments as [|s0 rest IH]; intros cur Hlt Hem.
  - simpl in Hem. lia.
  - destruct Hem as [_ Hrest]. cbn [length]. rewrite Nat2Z.inj_succ.
    destruct (Z.lt_ge_cases (cur - cur mod D + D) zonedEnd) as [Hmore|Hdone].
    + rewrite (IH _ Hmore Hrest). day_arith.
    + destruct rest as [|s1 rest']; [| destruct Hrest as [[Hlt' _] _]; lia].
      cbn [length]. day_arith.
Qed.

(** The minutes of the segments against the minutes between the first
    start and the end of the session. *)
Lemma emitted_minutes (segments : list t) :
  zonedEnd mod D <> 0 ->
  forall cur : Z,
    segments <> [] ->
    Segments.emitted (timezone this) offset zonedEnd cur segments ->
    Forall (fun s => exists x y : Z,
                startTime s = ValidDate x /\ endTime s = ValidDate y
                /\ durationMinutes s = Z.quot (y - x) DateFns.MS_PER_MINUTE
                /\ 0 < durationMinutes s)
           segments ->
    60000 * SessionFacts.sumMinutes segments <= zonedEnd - cur
    /\ zonedEnd - cur
       <= 60000 * SessionFacts.sumMinutes segments
          + 60000 * Z.of_nat (length segments) - 1.
Proof.
  intros Hend. induction segments as [|s0 rest IH]; intros cur Hne Hem Hall;
    [contradiction |].
  destruct Hem as [(Hlt & Hstart & Hstop & _) Hrest].
  apply Forall_cons in Hall as [(x & y & Hx & Hy & Hdur & Hpos) Hall].
  rewrite Hstart in Hx. rewrite Hstop in Hy.
  injection Hx as <-. injection Hy as <-.
  cbn [SessionFacts.sumMinutes foldr length]. rewrite Nat2Z.inj_succ.
  fold (SessionFacts.sumMinutes rest).
  destruct rest as [|s1 rest'].
  - simpl in Hrest. cbn [SessionFacts.sumMinutes foldr length]. day_arith.
  - assert (Hnext : cur - cur mod D + D < zonedEnd)
      by (destruct Hrest as [[? _] _]; assumption).
    specialize (IH _ ltac:(discriminate) Hrest Hall).
    revert IH. generalize (SessionFacts.sumMinutes (s1 :: rest')) as total.
    generalize (Z.of_nat (length (s1 :: rest'))) as n.
    intros n total IH. day_arith.
Qed.

End SegmentsWithDateFns.

(** What [createNew] returns with date-fns: the fields given, the whole
    minutes between the dates, and the provider's now. *)
Lemma createNew_with_date_fns (zone : string -> option Z) (now0 : Date)
    (id uid : string) (st en : Date) (tz : string) (this : FocusSession.t) :
  FocusSession.createNew id uid st en tz (DateFns.FakeDateProvider zone now0) = Ok this ->
  exists a b : Z,
    st = ValidDate a /\ en = ValidDate b
    /\ this = FocusSession.mk id uid (ValidDate a) (ValidDate b)
                (Z.quot (b - a) DateFns.MS_PER_MINUTE) tz now0
    /\ 60000 <= b - a.
Proof.
  unfold FocusSession.createNew. intros Hcreate.
  apply create_ok_iff in Hcreate as [Hprops (_ & _ & _ & Hpos & _)].
  cbn [differenceInMinutes now DateFns.FakeDateProvider] in Hprops.
  injection Hprops as Hid Huid Hst Hen Hdur Htz Hnow.
  destruct st as [a|], en as [b|]; try discriminate Hdur.
  cbn [DateFns.differenceInMinutes] in Hdur. injection Hdur as Hdur.
  exists a, b. repeat split.
  - destruct this; cbn in *. now subst.
  - rewrite <- Hdur in Hpos. day_arith.
Qed.

(** X11: with date-fns, [createNew] accepts an interval only if it lasts
    at least one minute, and the session then counts the whole minutes of
    the interval; an interval that is shorter, empty or reversed is
    rejected by the schema, so [createNew] never throws the error of the
    end-after-start rule. *)
Theorem createNew_needs_a_whole_minute (zone : string -> option Z) (now0 : Date)
    (id uid : string) (st en : Date) (tz : string) :
  let dateProvider := DateFns.FakeDateProvider zone now0 in
  (forall this : FocusSession.t,
     FocusSession.createNew id uid st en tz dateProvider = Ok this ->
     exists a b : Z,
       st = ValidDate a /\ en = ValidDate b /\ 60000 <= b - a
       /\ FocusSession.durationMinutes this = (b - a) / 60000)
  /\ (forall a b : Z,
        st = ValidDate a -> en = ValidDate b -> b - a < 60000 ->
        FocusSession.createNew id uid st en tz dateProvider = Err ZodError)
  /\ FocusSession.createNew id uid st en tz dateProvider <> Err EndNotAfterStart.
Proof.
  intros dateProvider. subst dateProvider. split; [| split].
  - intros this Hnew.
    destruct (createNew_with_date_fns zone now0 id uid st en tz this Hnew)
      as (a & b & -> & -> & -> & Hmin).
    exists a, b. repeat split; [exact Hmin |].
    cbn [FocusSession.durationMinutes]. day_arith.
  - intros a b -> -> Hshort.
    unfold FocusSession.createNew, FocusSession.create,
      FocusSession.FocusSessionPropsSchema.
    cbn [differenceInMinutes DateFns.FakeDateProvider DateFns.differenceInMinutes
           FocusSession.Props.durationMinutes].
    assert (Hdur : (0 <? Z.quot (b - a) DateFns.MS_PER_MINUTE) = false)
      by (apply Z.ltb_ge; day_arith).
    rewrite Hdur, !andb_false_r. reflexivity.
  - intros Hthrow.
    unfold FocusSession.createNew in Hthrow.
    destruct st as [a|], en as [b|];
      cbn [differenceInMinutes DateFns.FakeDateProvider DateFns.differenceInMinutes]
        in Hthrow;
      try discriminate Hthrow.
    unfold FocusSession.create, FocusSession.FocusSessionPropsSchema in Hthrow.
    cbn [FocusSession.Props.durationMinutes] in Hthrow.
    destruct (_ && _) eqn:Hc; [| discriminate Hthrow].
    repeat (apply andb_prop in Hc as [Hc ?]).
    cbn [FocusSession.startTime FocusSession.endTime date_leb
           FocusSession.Props.startTime FocusSession.Props.endTime] in Hthrow.
    destruct (Z.leb_spec b a); [| discriminate Hthrow].
    match goal with H : (0 <? _) = true |- _ => apply Z.ltb_lt in H; day_arith end.
Qed.

Lemma createNew_needs_a_whole_minute_witness :
  FocusSession.createNew "short" Fixtures.userId (DateFns.utc 2025 1 15 10 0)
    (ValidDate (DateFns.utcMs 2025 1 15 10 0 + 59999)) "UTC" Fixtures.dateProvider
  = Err ZodError.
Proof.
  apply (proj1 (proj2 (createNew_needs_a_whole_minute DateFns.winterZones
                         (DateFns.utc 2025 1 15 12 0) "short" Fixtures.userId
                         (DateFns.utc 2025 1 15 10 0)
                         (ValidDate (DateFns.utcMs 2025 1 15 10 0 + 59999)) "UTC"))
           (DateFns.utcMs 2025 1 15 10 0) (DateFns.utcMs 2025 1 15 10 0 + 59999)).
  - reflexivity.
  - reflexivity.
  - lia.
Defined.

(** The two cases of [splitByDay] with date-fns, for valid dates in a
    recognised zone. *)
Lemma splitByDay_cases (zone : string -> option Z) (now0 : Date)
    (this : FocusSession.t) (a b offset : Z) :
  FocusSession.startTime this = ValidDate a ->
  FocusSession.endTime this = ValidDate b ->
  zone (FocusSession.timezone this) = Some offset ->
  FocusSession.splitByDay (DateFns.FakeDateProvider zone now0) this
  = if (a + offset) - (a + offset) mod DateFns.MS_PER_DAY + (DateFns.MS_PER_DAY - 1)
       <? b + offset
    then FocusSession.splitLoop
           (FocusSession.loopBound (ValidDate (a + offset)) (ValidDate (b + offset)))
           (DateFns.FakeDateProvider zone now0) this
           (ValidDate (b + offset)) (ValidDate (a + offset)) 0
    else Ok [this].
Proof.
  intros Hstart Hend Hzone. unfold FocusSession.splitByDay. rewrite Hstart, Hend.
  cbn [toZonedTime endOfDay isAfter DateFns.FakeDateProvider].
  unfold DateFns.toZonedTime. rewrite Hzone.
  cbn [DateFns.endOfDay DateFns.isAfter].
  now destruct (_ <? _).
Qed.

(** X12: with date-fns, a session is returned whole, as the list of the
    session itself, exactly when its start and its end fall on the same
    civil day of its timezone. *)
Theorem session_is_whole_iff_within_one_day (zone : string -> option Z) (now0 : Date)
    (this : FocusSession.t) (a b offset : Z) :
  FocusSession.startTime this = ValidDate a ->
  FocusSession.endTime this = ValidDate b ->
  a < b ->
  zone (FocusSession.timezone this) = Some offset ->
  FocusSession.splitByDay (DateFns.FakeDateProvider zone now0) this = Ok [this]
  <-> (a + offset) / DateFns.MS_PER_DAY = (b + offset) / DateFns.MS_PER_DAY.
Proof.
  intros Hstart Hend Hlt Hzone.
  rewrite (splitByDay_cases zone now0 this a b offset Hstart Hend Hzone).
  destruct (Z.ltb_spec ((a + offset) - (a + offset) mod DateFns.MS_PER_DAY
                        + (DateFns.MS_PER_DAY - 1)) (b + offset)) as [Hmulti|Hsingle].
  - split; [| intros; exfalso; day_arith].
    intros Hloop. apply splitLoop_segments in Hloop as [Hids _].
    cbn in Hids. injection Hids as Hid.
    exfalso. exact (segmentId_not_sessionId this 0 (eq_sym Hid)).
  - split; [intros _; day_arith | reflexivity].
Qed.

Lemma session_is_whole_iff_within_one_day_witness :
  FocusSession.splitByDay Fixtures.dateProvider MoreFixtures.exact30minSession
  = Ok [MoreFixtures.exact30minSession].
Proof.
  apply (proj2 (session_is_whole_iff_within_one_day DateFns.winterZones
                  (DateFns.utc 2025 1 15 12 0) MoreFixtures.exact30minSession
                  (DateFns.utcMs 2025 1 15 10 0) (DateFns.utcMs 2025 1 15 10 30) 0
                  eq_refl eq_refl ltac:(vm_compute; reflexivity) eq_refl)).
  vm_compute. reflexivity.
Defined.

(** X13: with date-fns, for a session made by [createNew] that does not
    end on a civil midnight, the minutes of the sessions that [splitByDay]
    returns add up to the minutes of the session or to less, by at most one
    minute for every segment after the first. *)
Theorem minutes_of_segments_within_tolerance (zone : string -> option Z) (now0 : Date)
    (id uid tz : string) (a b offset : Z)
    (this : FocusSession.t) (segments : list FocusSession.t) :
  let dateProvider := DateFns.FakeDateProvider zone now0 in
  FocusSession.createNew id uid (ValidDate a) (ValidDate b) tz dateProvider = Ok this ->
  zone tz = Some offset ->
  (b + offset) mod DateFns.MS_PER_DAY <> 0 ->
  FocusSession.splitByDay dateProvider this = Ok segments ->
  SessionFacts.sumMinutes segments <= FocusSession.durationMinutes this
  /\ FocusSession.durationMinutes this
     <= SessionFacts.sumMinutes segments + (Z.of_nat (length segments) - 1).
Proof.
  intros dateProvider Hnew Hzone Hlast. subst dateProvider.
  destruct (createNew_with_date_fns zone now0 id uid _ _ tz this Hnew)
    as (a' & b' & [= <-] & [= <-] & -> & Hmin).
  set (this := FocusSession.mk id uid (ValidDate a) (ValidDate b)
                 (Z.quot (b - a) DateFns.MS_PER_MINUTE) tz now0) in *.
  assert (Hzone' : zone (FocusSession.timezone this) = Some offset) by exact Hzone.
  rewrite (splitByDay_cases zone now0 this a b offset eq_refl eq_refl Hzone').
  destruct (_ <? _).
  - intros Hloop.
    pose proof (splitLoop_emitted zone now0 this offset (b + offset) Hzone' _ _ _ _ Hloop)
      as Hem.
    pose proof (splitLoop_minutes zone now0 this offset (b + offset) Hzone' _ _ _ _ Hloop)
      as Hminutes.
    assert (Hne : segments <> []) by (intros ->; simpl in Hem; lia).
    pose proof (emitted_minutes this offset (b + offset) segments Hlast
                  (a + offset) Hne Hem Hminutes) as Hsum.
    subst this. cbn [FocusSession.durationMinutes].
    revert Hsum. generalize (SessionFacts.sumMinutes segments) as total.
    generalize (Z.of_nat (length segments)) as n. intros n total Hsum. day_arith.
  - intros [= <-]. cbn. lia.
Qed.

Lemma minutes_of_segments_within_tolerance_witness :
  SessionFacts.sumMinutes MoreFixtures.estMidnightSegments
  <= FocusSession.durationMinutes Fixtures.estMidnightSession
  /\ FocusSession.durationMinutes Fixtures.estMidnightSession
     <= SessionFacts.sumMinutes MoreFixtures.estMidnightSegments
        + (Z.of_nat (length MoreFixtures.estMidnightSegments) - 1).
Proof.
  apply (minutes_of_segments_within_tolerance DateFns.winterZones
           (DateFns.utc 2025 1 15 12 0) "midnight-session" Fixtures.userId
           "America/New_York" (DateFns.utcMs 2025 1 16 4 30)
           (DateFns.utcMs 2025 1 16 5 30) (-18000000) Fixtures.estMidnightSession
           MoreFixtures.estMidnightSegments).
  - vm_compute. reflexivity.
  - reflexivity.
  - vm_compute. discriminate.
  - vm_compute. reflexivity.
Defined.

(** X14: with date-fns, [splitByDay] returns one session for every civil
    day that the interval touches, in order and without skipping a day:
    the session at position [i] starts on the civil day [i] days after the
    civil day of the start. *)
Theorem one_segment_per_civil_day (zone : string -> option Z) (now0 : Date)
    (this : FocusSession.t) (a b offset : Z) (segments : list FocusSession.t) :
  let dateProvider := DateFns.FakeDateProvider zone now0 in
  let zonedStart := a + offset in
  let zonedEnd := b + offset in
  FocusSession.startTime this = ValidDate a ->
  FocusSession.endTime this = ValidDate b ->
  a < b ->
  zone (FocusSession.timezone this) = Some offset ->
  FocusSession.splitByDay dateProvider this = Ok segments ->
  Z.of_nat (length segments)
  = (zonedEnd - 1) / DateFns.MS_PER_DAY - zonedStart / DateFns.MS_PER_DAY + 1
  /\ forall (i : nat) (s : FocusSession.t),
       segments !! i = Some s ->
       Segments.civilDay dateProvider s
       = addDays dateProvider (startOfDay dateProvider (ValidDate zonedStart))
                 (Z.of_nat i).
Proof.
  intros dateProvider zonedStart zonedEnd Hstart Hend Hlt Hzone.
  subst dateProvider.
  rewrite (splitByDay_cases zone now0 this a b offset Hstart Hend Hzone).
  fold zonedStart zonedEnd.
  cbn [addDays startOfDay DateFns.FakeDateProvider DateFns.startOfDay DateFns.addDays].
  destruct (Z.ltb_spec (zonedStart - zonedStart mod DateFns.MS_PER_DAY
                        + (DateFns.MS_PER_DAY - 1)) zonedEnd) as [Hmulti|Hsingle].
  - intros Hloop.
    pose proof (splitLoop_emitted zone now0 this offset zonedEnd Hzone _ _ _ _ Hloop)
      as Hem.
    split.
    + apply (emitted_length this offset zonedEnd segments zonedStart); [| exact Hem].
      subst zonedStart zonedEnd. lia.
    + intros i s Hi.
      exact (emitted_days zone now0 this offset zonedEnd Hzone segments _ Hem i s Hi).
  - intros [= <-]. split.
    + cbn [length]. subst zonedStart zonedEnd. day_arith.
    + intros [|i] s Hi; [| discriminate Hi]. injection Hi as <-.
      unfold Segments.civilDay. rewrite Hstart.
      cbn [toZonedTime startOfDay DateFns.FakeDateProvider].
      unfold DateFns.toZonedTime. rewrite Hzone. cbn [DateFns.startOfDay].
      f_equal. subst zonedStart. lia.
Qed.

Lemma one_segment_per_civil_day_witness :
  Z.of_nat (length MoreFixtures.estMidnightSegments) = 2
  /\ forall (i : nat) (s : FocusSession.t),
       MoreFixtures.estMidnightSegments !! i = Some s ->
       Segments.civilDay Fixtures.dateProvider s
       = addDays Fixtures.dateProvider
           (startOfDay Fixtures.dateProvider
              (ValidDate (DateFns.utcMs 2025 1 16 4 30 + -18000000)))
           (Z.of_nat i).
Proof.
  apply (one_segment_per_civil_day DateFns.winterZones (DateFns.utc 2025 1 15 12 0)
           Fixtures.estMidnightSession (DateFns.utcMs 2025 1 16 4 30)
           (DateFns.utcMs 2025 1 16 5 30) (-18000000) MoreFixtures.estMidnightSegments).
  - reflexivity.
  - reflexivity.
  - vm_compute. reflexivity.
  - reflexivity.
  - vm_compute. reflexivity.
Defined.

(* ===================================================================== *)
(** ** The in-memory repositories *)
(* ===================================================================== *)

(** X15: [save] of the in-memory session repository stores a session
    under its id when the id is free, so that [findById] returns it; it
    throws [FocusSessionAlreadyExistsError] and leaves the map as it is when
    the id is taken; in both cases every session stored before is still
    there, unchanged. *)
Theorem save_stores_once_and_never_overwrites
    (session : FocusSession.t) (sessions : gmap string FocusSession.t) :
  let id := FocusSession.sessionId session in
  let after := (FocusSessionRepository.InMemory.save session sessions).2 in
  (sessions !! id = None ->
   FocusSessionRepository.InMemory.save session sessions
   = (Ok tt, <[id := session]> sessions)
   /\ FocusSessionRepository.InMemory.findById id after = (Ok (Some session), after))
  /\ (is_Some (sessions !! id) ->
      FocusSessionRepository.InMemory.save session sessions
      = (Err (FocusSessionAlreadyExistsError id), sessions))
  /\ sessions ⊆ after.
Proof.
  intros id after. subst id after. unfold FocusSessionRepository.InMemory.save,
    FocusSessionRepository.InMemory.findById.
  destruct (sessions !! FocusSession.sessionId session) as [old|] eqn:Hlook;
    cbn [snd]; (split; [| split]).
  - intros [=].
  - reflexivity.
  - reflexivity.
  - intros _. now rewrite lookup_insert_eq.
  - intros [? [=]].
  - now apply insert_subseteq.
Qed.

Lemma save_stores_once_and_never_overwrites_witness :
  FocusSessionRepository.InMemory.save Fixtures.lastHourSession
    (<[ "last-hour" := Fixtures.lastHourSession ]> ∅)
  = (Err (FocusSessionAlreadyExistsError "last-hour"),
     <[ "last-hour" := Fixtures.lastHourSession ]> ∅).
Proof.
  apply (proj1 (proj2 (save_stores_once_and_never_overwrites Fixtures.lastHourSession
                         (<[ "last-hour" := Fixtures.lastHourSession ]> ∅)))).
  cbn [FocusSession.sessionId Fixtures.lastHourSession].
  rewrite lookup_insert_eq. eauto.
Defined.

Section TotalMinutes.
Import FocusSessionRepository.InMemory StoreFacts.
Variable dateProvider : IDateProvider.
Variables userId date : string.

Lemma addMinutes_dated (total : Z) (s : FocusSession.t) :
  (FocusSession.userId s = userId ->
   exists d, FocusSession.getQualifiedDate dateProvider s = Ok d) ->
  addMinutes dateProvider userId date (Ok total) s
  = Ok (total + minutesOn dateProvider userId date s).
Proof.
  intros Hdated. unfold addMinutes, minutesOn. cbn [bindR].
  destruct (String.eqb_spec (FocusSession.userId s) userId) as [Huser|_];
    cbn [negb]; [| f_equal; lia].
  destruct (Hdated Huser) as [d ->]. cbn [bindR].
  destruct (String.eqb d date); f_equal; lia.
Qed.

Lemma fold_addMinutes (l : list FocusSession.t) :
  forall total : Z,
    Forall (fun s => FocusSession.userId s = userId ->
                     exists d, FocusSession.getQualifiedDate dateProvider s = Ok d) l ->
    fold_left (addMinutes dateProvider userId date) l (Ok total)
    = Ok (total + sumOn dateProvider userId date l).
Proof.
  induction l as [|s l IH]; intros total Hall; cbn [fold_left sumOn foldr].
  - f_equal. lia.
  - apply Forall_cons in Hall as [Hs Hall].
    rewrite (addMinutes_dated total s Hs), (IH _ Hall).
    f_equal. unfold sumOn. lia.
Qed.

Lemma sumOn_permutation (l l' : list FocusSession.t) :
  l ≡ₚ l' -> sumOn dateProvider userId date l = sumOn dateProvider userId date l'.
Proof.
  induction 1 as [| s l l' _ IH | s s' l | l l' l'' _ IH1 _ IH2];
    cbn [sumOn foldr] in *; unfold sumOn in *; lia.
Qed.

Lemma dated_values (sessions : gmap string FocusSession.t) :
  dated dateProvider userId sessions ->
  Forall (fun s => FocusSession.userId s = userId ->
                   exists d, FocusSession.getQualifiedDate dateProvider s = Ok d)
         (map_to_list sessions).*2.
Proof.
  intros Hdated. apply Forall_forall. intros s Hs.
  apply list_elem_of_fmap in Hs as ([id s'] & -> & Hin).
  apply elem_of_map_to_list in Hin. exact (Hdated id s' Hin).
Qed.

(** The total is the sum of the contributions of the stored sessions. *)
Lemma total_is_sumOn (sessions : gmap string FocusSession.t) (tz : string) :
  dated dateProvider userId sessions ->
  getTotalMinutesForDate dateProvider userId date tz sessions
  = (Ok (sumOn dateProvider userId date (map_to_list sessions).*2), sessions).
Proof.
  intros Hdated. unfold getTotalMinutesForDate.
  rewrite (fold_addMinutes _ 0 (dated_values sessions Hdated)). reflexivity.
Qed.

Lemma fold_addMinutes_thrown (l : list FocusSession.t) (e : Error) :
  fold_left (addMinutes dateProvider userId date) l (Err e) = Err e.
Proof. induction l as [|s l IH]; [reflexivity | exact IH]. Qed.

(** A session of the user without a qualified date makes the sum throw,
    wherever it stands in the iteration. *)
Lemma fold_addMinutes_undated (l : list FocusSession.t) (bad : FocusSession.t) (e : Error) :
  bad ∈ l ->
  FocusSession.userId bad = userId ->
  FocusSession.getQualifiedDate dateProvider bad = Err e ->
  forall acc : Result Z,
    exists e' : Error, fold_left (addMinutes dateProvider userId date) l acc = Err e'.
Proof.
  intros Hin Huser Hbad. induction l as [|s l IH]; intros acc.
  - now apply not_elem_of_nil in Hin.
  - cbn [fold_left]. apply elem_of_cons in Hin as [<- | Hin]; [| exact (IH Hin _)].
    destruct acc as [total|e0]; [| exists e0; apply fold_addMinutes_thrown].
    unfold addMinutes at 2. cbn [bindR].
    rewrite Huser, String.eqb_refl, Hbad. cbn [negb bindR].
    exists e. apply fold_addMinutes_thrown.
Qed.

End TotalMinutes.

(** X16: when every stored session of the user has a qualified date,
    [getTotalMinutesForDate] succeeds, and saving one more session under a
    free id raises the total of a date by the duration of that session if
    the session belongs to the user and falls on the date, and leaves it
    as it is otherwise. *)
Theorem saved_minutes_add_to_their_date (dateProvider : IDateProvider)
    (userId date tz : string) (session : FocusSession.t)
    (sessions : gmap string FocusSession.t) :
  StoreFacts.dated dateProvider userId sessions ->
  StoreFacts.dated dateProvider userId
    (<[FocusSession.sessionId session := session]> sessions) ->
  sessions !! FocusSession.sessionId session = None ->
  exists total : Z,
    FocusSessionRepository.InMemory.getTotalMinutesForDate dateProvider userId date tz
      sessions = (Ok total, sessions)
    /\ FocusSessionRepository.InMemory.getTotalMinutesForDate dateProvider userId date tz
         (<[FocusSession.sessionId session := session]> sessions)
       = (Ok (total + StoreFacts.minutesOn dateProvider userId date session),
          <[FocusSession.sessionId session := session]> sessions).
Proof.
  intros Hbefore Hafter Hfree. eexists. split.
  - apply total_is_sumOn. exact Hbefore.
  - rewrite (total_is_sumOn dateProvider userId date _ tz Hafter). f_equal. f_equal.
    rewrite (sumOn_permutation dateProvider userId date _
               (session :: (map_to_list sessions).*2)).
    + cbn [StoreFacts.sumOn foldr]. unfold StoreFacts.sumOn. lia.
    + rewrite (map_to_list_insert sessions _ session Hfree). reflexivity.
Qed.

Lemma saved_minutes_add_to_their_date_witness :
  exists total : Z,
    FocusSessionRepository.InMemory.getTotalMinutesForDate Fixtures.dateProvider
      Fixtures.userId "2025-01-15" "UTC" ∅ = (Ok total, ∅)
    /\ FocusSessionRepository.InMemory.getTotalMinutesForDate Fixtures.dateProvider
         Fixtures.userId "2025-01-15" "UTC"
         (<[FocusSession.sessionId MoreFixtures.exact30minSession
            := MoreFixtures.exact30minSession]> ∅)
       = (Ok (total + StoreFacts.minutesOn Fixtures.dateProvider Fixtures.userId
                        "2025-01-15" MoreFixtures.exact30minSession),
          <[FocusSession.sessionId MoreFixtures.exact30minSession
            := MoreFixtures.exact30minSession]> ∅).
Proof.
  apply (saved_minutes_add_to_their_date Fixtures.dateProvider Fixtures.userId
           "2025-01-15" "UTC" MoreFixtures.exact30minSession ∅).
  - intros id s Hlook. rewrite lookup_empty in Hlook. discriminate Hlook.
  - intros id s Hlook _.
    apply lookup_insert_Some in Hlook as [[_ <-] | [_ Hlook]];
      [| rewrite lookup_empty in Hlook; discriminate Hlook].
    eexists. vm_compute. reflexivity.
  - apply lookup_empty.
Defined.

(** X17: one stored session of the user for which [getQualifiedDate]
    throws (a timezone that the provider does not know) makes
    [getTotalMinutesForDate] throw for that user on every date. *)
Theorem undated_session_breaks_every_total (dateProvider : IDateProvider)
    (userId date tz id : string) (bad : FocusSession.t) (e : Error)
    (sessions : gmap string FocusSession.t) :
  sessions !! id = Some bad ->
  FocusSession.userId bad = userId ->
  FocusSession.getQualifiedDate dateProvider bad = Err e ->
  exists e' : Error,
    FocusSessionRepository.InMemory.getTotalMinutesForDate dateProvider userId date tz
      sessions = (Err e', sessions).
Proof.
  intros Hlook Huser Hbad. unfold FocusSessionRepository.InMemory.getTotalMinutesForDate.
  destruct (fold_addMinutes_undated dateProvider userId date
              (map_to_list sessions).*2 bad e) with (acc := Ok 0) as [e' He'];
    [| exact Huser | exact Hbad | exists e'; now rewrite He'].
  apply list_elem_of_fmap. exists (id, bad). split; [reflexivity |].
  now apply elem_of_map_to_list.
Qed.

Lemma undated_session_breaks_every_total_witness :
  exists e' : Error,
    FocusSessionRepository.InMemory.getTotalMinutesForDate Fixtures.dateProvider
      Fixtures.userId "2025-01-15" "UTC"
      (<["unknown-zone" := MoreFixtures.unknownZoneSession]> ∅)
    = (Err e', <["unknown-zone" := MoreFixtures.unknownZoneSession]> ∅).
Proof.
  apply (undated_session_breaks_every_total Fixtures.dateProvider Fixtures.userId
           "2025-01-15" "UTC" "unknown-zone" MoreFixtures.unknownZoneSession RangeError
           (<["unknown-zone" := MoreFixtures.unknownZoneSession]> ∅)).
  - apply lookup_insert_eq.
  - reflexivity.
  - vm_compute. reflexivity.
Defined.

(* ===================================================================== *)
(** ** The command handler on the in-memory repositories *)
(* ===================================================================== *)

Section InMemoryFrame.
Import AcceptFocusSession.
Variable dateProvider : IDateProvider.

Abbreviation sessionsOf := (FocusSessionRepository.InMemory.repository dateProvider).
Abbreviation streaksOf := (UserStreakRepository.InMemory.repository dateProvider).
Abbreviation World := (gmap string FocusSession.t * gmap string UserStreak.t)%type.
Abbreviation saveAll :=
  (forEach (R:=gmap string FocusSession.t) (S:=gmap string UserStreak.t)
     (fun segment => onSessions (FocusSessionRepository.InMemory.save segment))).
Abbreviation update :=
  (@updateUserStreak _ _ sessionsOf streaksOf dateProvider).
Abbreviation run := (@execute _ _ sessionsOf streaksOf dateProvider).

(** The steps of [execute], one [match] per step that can end the call. *)
Lemma execute_steps (command : AcceptFocusSessionCommandProps) (w : World) :
  run command w
  = match w.1 !! sessionId command with
    | Some _ => (Ok tt, w)
    | None =>
        match FocusSession.createNew (sessionId command) (userId command)
                (startTime command) (endTime command) (timezone command)
                dateProvider with
        | Err e => (Err e, w)
        | Ok session =>
            match FocusSession.splitByDay dateProvider session with
            | Err e => (Err e, w)
            | Ok sessionSegments =>
                match saveAll sessionSegments w with
                | (Err e, w1) => (Err e, w1)
                | (Ok _, w1) =>
                    update (userId command) sessionSegments (timezone command) w1
                end
            end
        end
    end.
Proof.
  destruct w as [sessions streaks]. unfold execute. unfold bind at 1.
  unfold onSessions at 1.
  cbn [fst snd FocusSessionRepository.findById
         FocusSessionRepository.InMemory.repository
         FocusSessionRepository.InMemory.findById].
  destruct (sessions !! sessionId command); [reflexivity |].
  unfold bind at 1, liftResult at 1.
  destruct (FocusSession.createNew _ _ _ _ _ _) as [session|e]; [| reflexivity].
  unfold bind at 1, liftResult at 1.
  destruct (FocusSession.splitByDay _ _) as [segments|e]; [| reflexivity].
  unfold bind at 1. reflexivity.
Qed.

(** The steps of [updateUserStreak]. *)
Lemma updateUserStreak_steps (uid tz : string) (segments : list FocusSession.t)
    (sessions : gmap string FocusSession.t) (streaks : gmap string UserStreak.t) :
  update uid segments tz (sessions, streaks)
  = match UserStreakRepository.InMemory.findOrCreate dateProvider uid streaks with
    | (Err e, streaks1) => (Err e, (sessions, streaks1))
    | (Ok userStreak, streaks1) =>
        match collectDates dateProvider segments [] with
        | Err e => (Err e, (sessions, streaks1))
        | Ok dateSet =>
            match qualifyDates (sessionRepository:=sessionsOf) dateProvider uid tz
                    (sort dateSet) userStreak (sessions, streaks1) with
            | (Err e, w) => (Err e, w)
            | (Ok userStreak', w) =>
                (Ok tt, (w.1, <[UserStreak.userId userStreak' := userStreak']> w.2))
            end
        end
    end.
Proof.
  unfold updateUserStreak. unfold bind at 1. unfold onStreaks at 1.
  cbn [fst snd UserStreakRepository.findOrCreate
         UserStreakRepository.InMemory.repository].
  destruct (UserStreakRepository.InMemory.findOrCreate dateProvider uid streaks)
    as [[userStreak|e] streaks1]; [| reflexivity].
  unfold bind at 1, liftResult at 1.
  destruct (collectDates dateProvider segments []) as [dateSet|e]; [| reflexivity].
  unfold bind at 1.
  destruct (qualifyDates _ _ _ _ _ _) as [[userStreak'|e] w]; reflexivity.
Qed.

(** The loop of step 4 only adds sessions, and leaves the aggregates
    alone. *)
Lemma saveAll_grows (segments : list FocusSession.t) :
  forall (sessions : gmap string FocusSession.t) (streaks : gmap string UserStreak.t),
    exists sessions' : gmap string FocusSession.t,
      (saveAll segments (sessions, streaks)).2 = (sessions', streaks)
      /\ sessions ⊆ sessions'.
Proof.
  induction segments as [|segment rest IH]; intros sessions streaks.
  - exists sessions. split; reflexivity.
  - cbn [forEach]. unfold bind at 1. unfold onSessions at 1. cbn [fst snd].
    unfold FocusSessionRepository.InMemory.save at 1.
    destruct (sessions !! FocusSession.sessionId segment) eqn:Hlook.
    + exists sessions. split; reflexivity.
    + destruct (IH (<[FocusSession.sessionId segment := segment]> sessions) streaks)
        as (sessions' & Hrun & Hsub).
      exists sessions'. split; [exact Hrun |].
      transitivity (<[FocusSession.sessionId segment := segment]> sessions);
        [now apply insert_subseteq | exact Hsub].
Qed.

(** A segment list that was saved without an error is in the store. *)
Lemma saveAll_stored (segments : list FocusSession.t) :
  forall (w w' : World),
    saveAll segments w = (Ok tt, w') ->
    Forall (fun segment => w'.1 !! FocusSession.sessionId segment = Some segment)
           segments.
Proof.
  induction segments as [|segment rest IH]; intros [sessions streaks] w';
    [constructor |].
  cbn [forEach]. unfold bind at 1. unfold onSessions at 1. cbn [fst snd].
  unfold FocusSessionRepository.InMemory.save at 1.
  destruct (sessions !! FocusSession.sessionId segment) eqn:Hlook; [discriminate |].
  intros Hrest. constructor; [| exact (IH _ _ Hrest)].
  destruct (saveAll_grows rest (<[FocusSession.sessionId segment := segment]> sessions)
              streaks) as (sessions' & Hrun & Hsub).
  rewrite Hrest in Hrun. cbn [snd] in Hrun. subst w'. cbn [fst].
  eapply lookup_weaken; [| exact Hsub]. apply lookup_insert_eq.
Qed.




End InMemoryFrame.

(** X18: whatever the command and whatever the outcome, [execute] on the
    in-memory repositories never removes or changes a stored session: the
    sessions held before the call are all held after it. *)
Theorem execute_keeps_stored_sessions (dateProvider : IDateProvider)
    (command : AcceptFocusSession.AcceptFocusSessionCommandProps)
    (sessions : gmap string FocusSession.t) (streaks : gmap string UserStreak.t) :
  sessions ⊆
    (AcceptFocusSession.execute
       (sessionRepository:=FocusSessionRepository.InMemory.repository dateProvider)
       (streakRepository:=UserStreakRepository.InMemory.repository dateProvider)
       dateProvider command (sessions, streaks)).2.1.
Proof.
  rewrite execute_steps. cbn [fst].
  destruct (sessions !! AcceptFocusSession.sessionId command); [reflexivity |].
  destruct (FocusSession.createNew _ _ _ _ _ _) as [session|e]; [| reflexivity].
  destruct (FocusSession.splitByDay _ _) as [segments|e]; [| reflexivity].
  destruct (saveAll_grows segments sessions streaks) as (sessions' & Hrun & Hsub).
  destruct (AcceptFocusSession.forEach _ segments _) as [[[]|e] w1];
    cbn [snd] in Hrun; subst w1; [| exact Hsub].
  now rewrite updateUserStreak_sessions.
Qed.



(* ===================================================================== *)
(** ** The dates of [updateUserStreak] *)
(* ===================================================================== *)

Section UniqueDates.
Import AcceptFocusSession.

Abbreviation le_string := (fun d1 d2 : string => String.leb d1 d2 = true).

Lemma ascii_compare_refl (c : ascii) : Ascii.compare c c = Eq.
Proof. unfold Ascii.compare. apply N.compare_refl. Qed.

Lemma ascii_compare_lt_trans (a b c : ascii) :
  Ascii.compare a b = Lt -> Ascii.compare b c = Lt -> Ascii.compare a c = Lt.
Proof. unfold Ascii.compare. rewrite !N.compare_lt_iff. lia. Qed.

Lemma string_compare_lt_trans (s1 : string) :
  forall s2 s3 : string,
    String.compare s1 s2 = Lt -> String.compare s2 s3 = Lt -> String.compare s1 s3 = Lt.
Proof.
  induction s1 as [|c1 s1 IH]; intros [|c2 s2] [|c3 s3]; cbn [String.compare];
    try discriminate; try reflexivity.
  destruct (Ascii.compare c1 c2) eqn:H12; try discriminate;
    destruct (Ascii.compare c2 c3) eqn:H23; try discriminate.
  - apply Ascii.compare_eq_iff in H12, H23. subst.
    rewrite ascii_compare_refl. apply IH.
  - apply Ascii.compare_eq_iff in H12. subst. now rewrite H23.
  - apply Ascii.compare_eq_iff in H23. subst. now rewrite H12.
  - now rewrite (ascii_compare_lt_trans _ _ _ H12 H23).
Qed.

Lemma string_leb_trans (s1 s2 s3 : string) :
  le_string s1 s2 -> le_string s2 s3 -> le_string s1 s3.
Proof.
  cbv beta. intros Hle12 Hle23.
  destruct (String.compare s1 s2) eqn:H12.
  - apply String.compare_eq_iff in H12. now subst.
  - destruct (String.compare s2 s3) eqn:H23.
    + apply String.compare_eq_iff in H23. now subst.
    + unfold String.leb. now rewrite (string_compare_lt_trans _ _ _ H12 H23).
    + unfold String.leb in Hle23. rewrite H23 in Hle23. discriminate Hle23.
  - unfold String.leb in Hle12. rewrite H12 in Hle12. discriminate Hle12.
Qed.

Lemma sortInsert_permutation (x : string) (l : list string) :
  sortInsert x l ≡ₚ x :: l.
Proof.
  induction l as [|y l IH]; cbn [sortInsert]; [reflexivity |].
  destruct (String.leb x y); [reflexivity |].
  rewrite IH. apply Permutation_swap.
Qed.

Lemma sort_permutation (l : list string) : sort l ≡ₚ l.
Proof.
  induction l as [|x l IH]; [reflexivity |].
  cbn [sort foldr]. fold (sort l). now rewrite sortInsert_permutation, IH.
Qed.

Lemma sortInsert_sorted (x : string) (l : list string) :
  StronglySorted le_string l -> StronglySorted le_string (sortInsert x l).
Proof.
  induction 1 as [|y l Hsorted IH Hall]; cbn [sortInsert].
  - repeat constructor.
  - destruct (String.leb x y) eqn:Hxy.
    + constructor; [now constructor |].
      constructor; [exact Hxy |].
      eapply Forall_impl; [exact Hall |]. intros z Hyz.
      exact (string_leb_trans x y z Hxy Hyz).
    + constructor; [exact IH |].
      rewrite sortInsert_permutation. constructor; [| exact Hall].
      destruct (String.leb_total x y) as [H|H]; [congruence | exact H].
Qed.

Lemma sort_sorted (l : list string) : StronglySorted le_string (sort l).
Proof.
  induction l as [|x l IH]; [constructor |].
  cbn [sort foldr]. fold (sort l). now apply sortInsert_sorted.
Qed.

Lemma setAdd_elem (dateSet : list string) (date x : string) :
  x ∈ setAdd dateSet date <-> x ∈ dateSet \/ x = date.
Proof.
  unfold setAdd. destruct (existsb (String.eqb date) dateSet) eqn:Hin.
  - split; [now left |]. intros [H | ->]; [exact H |].
    apply existsb_exists in Hin as (y & Hy & Heq).
    apply String.eqb_eq in Heq. subst y. now apply list_elem_of_In.
  - rewrite elem_of_app, list_elem_of_singleton. reflexivity.
Qed.

Lemma setAdd_NoDup (dateSet : list string) (date : string) :
  NoDup dateSet -> NoDup (setAdd dateSet date).
Proof.
  intros Hnodup. unfold setAdd.
  destruct (existsb (String.eqb date) dateSet) eqn:Hin; [exact Hnodup |].
  apply NoDup_app. split; [exact Hnodup |]. split; [| apply NoDup_singleton].
  intros x Hx Hx'. apply list_elem_of_singleton in Hx'. subst x.
  assert (existsb (String.eqb date) dateSet = true); [| congruence].
  apply existsb_exists. exists date. split; [now apply list_elem_of_In |].
  apply String.eqb_refl.
Qed.

Lemma setAdd_not_empty (dateSet : list string) (date : string) :
  setAdd dateSet date <> [].
Proof.
  unfold setAdd. destruct dateSet as [|d rest]; cbn [existsb]; [discriminate |].
  destruct (_ || _); [discriminate |]. discriminate.
Qed.

Variable dateProvider : IDateProvider.

(** The set that the first loop builds: the set it started from and the
    qualified dates of the segments, each once. *)
Lemma collectDates_set (segments : list FocusSession.t) :
  forall dateSet dates : list string,
    collectDates dateProvider segments dateSet = Ok dates ->
    (NoDup dateSet -> NoDup dates)
    /\ (forall d : string,
          d ∈ dates
          <-> d ∈ dateSet
              \/ exists segment, segment ∈ segments
                   /\ FocusSession.getQualifiedDate dateProvider segment = Ok d)
    /\ (dateSet <> [] \/ segments <> [] -> dates <> []).
Proof.
  induction segments as [|segment rest IH]; intros dateSet dates; cbn [collectDates].
  - intros [= <-]. split; [tauto |]. split.
    + intros d. split; [now left |]. intros [H | (s & Hs & _)]; [exact H |].
      now apply not_elem_of_nil in Hs.
    + intros [H | H]; [exact H | contradiction].
  - destruct (FocusSession.getQualifiedDate dateProvider segment) as [date|e] eqn:Hdate;
      cbn [bindR]; [| discriminate].
    intros Hrest. apply IH in Hrest as (Hnodup & Helem & Hne). split; [| split].
    + intros H. apply Hnodup. now apply setAdd_NoDup.
    + intros d. rewrite Helem, setAdd_elem. split.
      * intros [[H | ->] | (s & Hs & Hd)]; [now left | right | right].
        -- exists segment. split; [apply elem_of_cons; now left | exact Hdate].
        -- exists s. split; [apply elem_of_cons; now right | exact Hd].
      * intros [H | (s & Hs & Hd)]; [now left; left |].
        apply elem_of_cons in Hs as [-> | Hs].
        -- left; right. congruence.
        -- right. now exists s.
    + intros _. apply Hne. left. apply setAdd_not_empty.
Qed.

End UniqueDates.

(** X20: the dates that [updateUserStreak] walks through, that is, the
    sorted array of the set of the qualified dates of the segments, hold
    exactly the qualified dates of the segments, each of them once, in
    ascending order of their strings. *)
Theorem dates_are_walked_once_in_order (dateProvider : IDateProvider)
    (sessionSegments : list FocusSession.t) (dateSet : list string) :
  AcceptFocusSession.collectDates dateProvider sessionSegments [] = Ok dateSet ->
  let uniqueDates := AcceptFocusSession.sort dateSet in
  NoDup uniqueDates
  /\ StronglySorted (fun d1 d2 => String.leb d1 d2 = true) uniqueDates
  /\ (forall d : string,
        d ∈ uniqueDates
        <-> exists segment, segment ∈ sessionSegments
              /\ FocusSession.getQualifiedDate dateProvider segment = Ok d).
Proof.
  intros Hdates uniqueDates. subst uniqueDates.
  apply collectDates_set in Hdates as (Hnodup & Helem & _).
  split; [| split].
  - rewrite sort_permutation. apply Hnodup. constructor.
  - apply sort_sorted.
  - intros d. rewrite sort_permutation, Helem. split; [| now right].
    intros [H | H]; [now apply not_elem_of_nil in H | exact H].
Qed.

Lemma dates_are_walked_once_in_order_witness :
  NoDup (AcceptFocusSession.sort ["2025-01-15"; "2025-01-14"])
  /\ StronglySorted (fun d1 d2 => String.leb d1 d2 = true)
       (AcceptFocusSession.sort ["2025-01-15"; "2025-01-14"])
  /\ (forall d : string,
        d ∈ AcceptFocusSession.sort ["2025-01-15"; "2025-01-14"]
        <-> exists segment,
              segment ∈ [MoreFixtures.exact30minSession; MoreFixtures.dayBeforeSession;
                         MoreFixtures.exact30minSession]
              /\ FocusSession.getQualifiedDate Fixtures.dateProvider segment = Ok d).
Proof.
  apply (dates_are_walked_once_in_order Fixtures.dateProvider
           [MoreFixtures.exact30minSession; MoreFixtures.dayBeforeSession;
            MoreFixtures.exact30minSession]
           ["2025-01-15"; "2025-01-14"]).
  vm_compute. reflexivity.
Defined.

(* ===================================================================== *)
(** ** The command handler with date-fns *)
(* ===================================================================== *)

Section InMemoryWithDateFns.
Import AcceptFocusSession.
Variable zone : string -> option Z.
Variable now0 : Date.

Abbreviation dateFns := (DateFns.FakeDateProvider zone now0).
Abbreviation runWith :=
  (@execute _ _ (FocusSessionRepository.InMemory.repository dateFns)
     (UserStreakRepository.InMemory.repository dateFns) dateFns).


(** A session in a zone that date-fns-tz does not know has no qualified
    date: [format] throws on the Invalid Date of [toZonedTime]. *)
Lemma unknown_zone_has_no_date (this : FocusSession.t) :
  zone (FocusSession.timezone this) = None ->
  FocusSession.getQualifiedDate dateFns this = Err RangeError.
Proof.
  intros Hzone. unfold FocusSession.getQualifiedDate.
  cbn [toZonedTime format DateFns.FakeDateProvider].
  unfold DateFns.toZonedTime. rewrite Hzone.
  now destruct (FocusSession.startTime this).
Qed.

(** The aggregate that [findOrCreate] hands to a user whose sessions pass
    the schema: the stored one, or the zero-value one, which it stores. *)
Lemma findOrCreate_of_session_user (session : FocusSession.t)
    (props : FocusSession.Props.t) (streaks : gmap string UserStreak.t) :
  FocusSession.create props = Ok session ->
  FocusSession.createdAt session = now0 ->
  UserStreakRepository.InMemory.findOrCreate dateFns (FocusSession.userId session) streaks
  = match streaks !! FocusSession.userId session with
    | Some existing => (Ok existing, streaks)
    | None =>
        (Ok (UserStreak.mk (FocusSession.userId session) 0 0 None 0 now0),
         <[FocusSession.userId session
           := UserStreak.mk (FocusSession.userId session) 0 0 None 0 now0]> streaks)
    end.
Proof.
  intros Hcreate Hnow. unfold UserStreakRepository.InMemory.findOrCreate.
  destruct (streaks !! FocusSession.userId session); [reflexivity |].
  destruct (create_ok_inv props session Hcreate) as (Huuid & _ & Hcreated & _).
  unfold UserStreak.createNew, UserStreak.create, UserStreak.UserStreakPropsSchema.
  cbn [UserStreak.userId UserStreak.currentStreak UserStreak.longestStreak
         UserStreak.qualifiedDaysCount UserStreak.updatedAt now DateFns.FakeDateProvider].
  rewrite Huuid. rewrite Hnow in Hcreated. rewrite Hcreated. reflexivity.
Qed.


End InMemoryWithDateFns.

(** X21: with date-fns, a command whose timezone the library does not
    know, and whose session passes [createNew], is not rejected before
    anything is written: the session is stored under its id, the user gets
    the zero-value aggregate if there was none, and then the call throws the
    RangeError of [format], from the first loop of [updateUserStreak]. *)
Theorem unknown_timezone_is_stored_then_thrown (zone : string -> option Z) (now0 : Date)
    (command : AcceptFocusSession.AcceptFocusSessionCommandProps)
    (session : FocusSession.t)
    (sessions : gmap string FocusSession.t) (streaks : gmap string UserStreak.t) :
  let dateProvider := DateFns.FakeDateProvider zone now0 in
  let uid := AcceptFocusSession.userId command in
  FocusSession.createNew (AcceptFocusSession.sessionId command) uid
    (AcceptFocusSession.startTime command) (AcceptFocusSession.endTime command)
    (AcceptFocusSession.timezone command) dateProvider = Ok session ->
  zone (AcceptFocusSession.timezone command) = None ->
  sessions !! AcceptFocusSession.sessionId command = None ->
  AcceptFocusSession.execute
    (sessionRepository:=FocusSessionRepository.InMemory.repository dateProvider)
    (streakRepository:=UserStreakRepository.InMemory.repository dateProvider)
    dateProvider command (sessions, streaks)
  = (Err RangeError,
     (<[AcceptFocusSession.sessionId command := session]> sessions,
      match streaks !! uid with
      | Some _ => streaks
      | None => <[uid := UserStreak.mk uid 0 0 None 0 now0]> streaks
      end)).
Proof.
  intros dateProvider uid Hnew Hzone Hfree. subst dateProvider uid.
  rewrite execute_steps. cbn [fst]. rewrite Hfree, Hnew.
  destruct (createNew_with_date_fns zone now0 _ _ _ _ _ _ Hnew)
    as (a & b & Hst & Hen & Hsession & Hlong).
  assert (Htz : FocusSession.timezone session = AcceptFocusSession.timezone command)
    by now rewrite Hsession.
  assert (Hid : FocusSession.sessionId session = AcceptFocusSession.sessionId command)
    by now rewrite Hsession.
  assert (Huid : FocusSession.userId session = AcceptFocusSession.userId command)
    by now rewrite Hsession.
  assert (Hnow : FocusSession.createdAt session = now0) by now rewrite Hsession.
  assert (Hsplit : FocusSession.splitByDay (DateFns.FakeDateProvider zone now0) session
                   = Ok [session]).
  { unfold FocusSession.splitByDay.
    cbn [toZonedTime endOfDay isAfter DateFns.FakeDateProvider].
    unfold DateFns.toZonedTime. rewrite Htz, Hzone.
    now destruct (FocusSession.startTime session), (FocusSession.endTime session). }
  rewrite Hsplit. cbn [AcceptFocusSession.forEach].
  unfold AcceptFocusSession.bind at 1. unfold AcceptFocusSession.onSessions at 1.
  cbn [fst snd]. unfold FocusSessionRepository.InMemory.save. rewrite Hid, Hfree.
  unfold AcceptFocusSession.ret at 1. rewrite updateUserStreak_steps.
  unfold FocusSession.createNew in Hnew.
  rewrite <- Huid.
  rewrite (findOrCreate_of_session_user zone now0 session _ streaks Hnew Hnow).
  assert (Hdates : AcceptFocusSession.collectDates (DateFns.FakeDateProvider zone now0)
                     [session] [] = Err RangeError).
  { cbn [AcceptFocusSession.collectDates].
    rewrite (unknown_zone_has_no_date zone now0 session); [reflexivity |].
    now rewrite Htz. }
  destruct (streaks !! FocusSession.userId session); now rewrite Hdates.
Qed.

Lemma unknown_timezone_is_stored_then_thrown_witness :
  AcceptFocusSession.execute
    (sessionRepository:=FocusSessionRepository.InMemory.repository Fixtures.dateProvider)
    (streakRepository:=UserStreakRepository.InMemory.repository Fixtures.dateProvider)
    Fixtures.dateProvider MoreFixtures.unknownZone (∅, ∅)
  = (Err RangeError,
     (<[AcceptFocusSession.sessionId MoreFixtures.unknownZone
        := MoreFixtures.unknownZoneSession]> ∅,
      match (∅ : gmap string UserStreak.t)
            !! AcceptFocusSession.userId MoreFixtures.unknownZone with
      | Some _ => ∅
      | None =>
          <[AcceptFocusSession.userId MoreFixtures.unknownZone
            := UserStreak.mk (AcceptFocusSession.userId MoreFixtures.unknownZone)
                 0 0 None 0 (DateFns.utc 2025 1 15 12 0)]> ∅
      end)).
Proof.
  apply (unknown_timezone_is_stored_then_thrown DateFns.winterZones
           (DateFns.utc 2025 1 15 12 0) MoreFixtures.unknownZone
           MoreFixtures.unknownZoneSession ∅ ∅).
  - vm_compute. reflexivity.
  - vm_compute. reflexivity.
  - apply lookup_empty.
Defined.



(* ===================================================================== *)
(** ** From the command to the query *)
(* ===================================================================== *)

Section FirstSession.
Import AcceptFocusSession.
Variable dateProvider : IDateProvider.

(** Sessions of other users add nothing to a total. *)
Lemma sumOn_of_others (uid date : string) (l : list FocusSession.t) :
  Forall (fun s => FocusSession.userId s <> uid) l ->
  StoreFacts.sumOn dateProvider uid date l = 0.
Proof.
  induction 1 as [|s l Hs _ IH]; [reflexivity |].
  cbn [StoreFacts.sumOn foldr]. fold (StoreFacts.sumOn dateProvider uid date l).
  rewrite IH. unfold StoreFacts.minutesOn.
  destruct (String.eqb_spec (FocusSession.userId s) uid); [contradiction | reflexivity].
Qed.

(** The total of the date of the first session that is stored for a
    user is the duration of that session. *)
Lemma total_of_first_session (session : FocusSession.t) (date tz : string)
    (sessions : gmap string FocusSession.t) :
  FocusSession.getQualifiedDate dateProvider session = Ok date ->
  sessions !! FocusSession.sessionId session = None ->
  (forall id s, sessions !! id = Some s ->
                FocusSession.userId s <> FocusSession.userId session) ->
  FocusSessionRepository.InMemory.getTotalMinutesForDate dateProvider
    (FocusSession.userId session) date tz
    (<[FocusSession.sessionId session := session]> sessions)
  = (Ok (FocusSession.durationMinutes session),
     <[FocusSession.sessionId session := session]> sessions).
Proof.
  intros Hdate Hfree Hothers. rewrite total_is_sumOn.
  - f_equal. f_equal.
    rewrite (sumOn_permutation dateProvider _ date _
               (session :: (map_to_list sessions).*2))
      by (rewrite (map_to_list_insert sessions _ session Hfree); reflexivity).
    cbn [StoreFacts.sumOn foldr].
    fold (StoreFacts.sumOn dateProvider (FocusSession.userId session) date
            (map_to_list sessions).*2).
    rewrite sumOn_of_others.
    + unfold StoreFacts.minutesOn.
      rewrite String.eqb_refl, Hdate, String.eqb_refl. cbn [negb]. lia.
    + apply Forall_forall. intros s Hs.
      apply list_elem_of_fmap in Hs as ([id s'] & -> & Hin).
      apply elem_of_map_to_list in Hin. exact (Hothers id s' Hin).
  - intros id s Hs Huser.
    apply lookup_insert_Some in Hs as [[_ <-] | [_ Hs]]; [eauto |].
    now destruct (Hothers id s Hs).
Qed.

End FirstSession.

(** X23: the first session of a user, from the command to the query.
    For a command that [createNew] accepts, whose session [splitByDay]
    leaves whole and has a qualified date, whose id is not stored, and
    whose user has neither a stored session nor an aggregate, [execute]
    succeeds and stores the session and one aggregate; the query of the user
    then answers with a streak of one day on that date if the session lasts
    30 minutes or more, and with the zero values otherwise. *)
Theorem first_session_of_a_user (dateProvider : IDateProvider)
    (command : AcceptFocusSession.AcceptFocusSessionCommandProps)
    (query : GetUserStreak.GetUserStreakQueryProps)
    (session : FocusSession.t) (date : string)
    (sessions : gmap string FocusSession.t) (streaks : gmap string UserStreak.t) :
  let uid := AcceptFocusSession.userId command in
  FocusSession.createNew (AcceptFocusSession.sessionId command) uid
    (AcceptFocusSession.startTime command) (AcceptFocusSession.endTime command)
    (AcceptFocusSession.timezone command) dateProvider = Ok session ->
  FocusSession.splitByDay dateProvider session = Ok [session] ->
  FocusSession.getQualifiedDate dateProvider session = Ok date ->
  sessions !! AcceptFocusSession.sessionId command = None ->
  (forall id s, sessions !! id = Some s -> FocusSession.userId s <> uid) ->
  streaks !! uid = None ->
  GetUserStreak.userId query = uid ->
  exists streaks' : gmap string UserStreak.t,
    AcceptFocusSession.execute
      (sessionRepository:=FocusSessionRepository.InMemory.repository dateProvider)
      (streakRepository:=UserStreakRepository.InMemory.repository dateProvider)
      dateProvider command (sessions, streaks)
    = (Ok tt, (<[AcceptFocusSession.sessionId command := session]> sessions, streaks'))
    /\ GetUserStreak.execute
         (streakRepository:=UserStreakRepository.InMemory.repository dateProvider)
         query streaks'
       = (Ok (if AcceptFocusSession.QUALIFIED_DAY_THRESHOLD_MINUTES
                   <=? FocusSession.durationMinutes session
              then {| GetUserStreak.r_userId := uid;
                      GetUserStreak.r_currentStreak := 1;
                      GetUserStreak.r_longestStreak := 1;
                      GetUserStreak.r_lastQualifiedDate := Some date;
                      GetUserStreak.r_qualifiedDaysCount := 1 |}
              else {| GetUserStreak.r_userId := uid;
                      GetUserStreak.r_currentStreak := 0;
                      GetUserStreak.r_longestStreak := 0;
                      GetUserStreak.r_lastQualifiedDate := None;
                      GetUserStreak.r_qualifiedDaysCount := 0 |}),
          streaks').
Proof.
  intros uid Hnew Hsplit Hdate Hfree Hothers Hnone Hquery. subst uid.
  pose proof Hnew as Hcreate. unfold FocusSession.createNew in Hcreate.
  pose proof (create_ok_inv _ _ Hcreate) as (Huuid & _ & Hcreated & _).
  apply create_ok_iff in Hcreate as [Hprops _].
  injection Hprops as Hid Huid _ _ _ _ Hnow.
  rewrite execute_steps. cbn [fst]. rewrite Hfree, Hnew, Hsplit.
  cbn [AcceptFocusSession.forEach].
  unfold AcceptFocusSession.bind at 1. unfold AcceptFocusSession.onSessions at 1.
  cbn [fst snd]. unfold FocusSessionRepository.InMemory.save.
  rewrite <- Hid, Hfree. unfold AcceptFocusSession.ret at 1.
  rewrite updateUserStreak_steps.
  unfold UserStreakRepository.InMemory.findOrCreate. rewrite Hnone.
  unfold UserStreak.createNew, UserStreak.create, UserStreak.UserStreakPropsSchema.
  cbn [UserStreak.userId UserStreak.currentStreak UserStreak.longestStreak
         UserStreak.qualifiedDaysCount UserStreak.updatedAt].
  rewrite <- Huid in Huuid. rewrite <- Hnow in Hcreated. rewrite Huuid, Hcreated.
  cbn [andb Z.leb Z.compare].
  cbn [AcceptFocusSession.collectDates]. rewrite Hdate. cbn [bindR].
  change (AcceptFocusSession.sort (AcceptFocusSession.setAdd [] date)) with [date].
  cbn [AcceptFocusSession.qualifyDates]. unfold AcceptFocusSession.bind at 1.
  assert (Htotal :
    FocusSessionRepository.InMemory.getTotalMinutesForDate dateProvider
      (AcceptFocusSession.userId command) date (AcceptFocusSession.timezone command)
      (<[AcceptFocusSession.sessionId command := session]> sessions)
    = (Ok (FocusSession.durationMinutes session),
       <[AcceptFocusSession.sessionId command := session]> sessions)).
  { rewrite Hid, Huid. apply total_of_first_session; [exact Hdate | |].
    - now rewrite <- Hid.
    - intros id s Hs. rewrite <- Huid. exact (Hothers id s Hs). }
  rewrite (qualifyDate_total
             (sessionRepository:=FocusSessionRepository.InMemory.repository dateProvider)
             dateProvider _ _ date _ _ _ _ _ Htotal).
  unfold AcceptFocusSession.ret. cbn [fst snd].
  eexists. split; [reflexivity |].
  unfold GetUserStreak.execute.
  cbn [UserStreakRepository.findByUserId UserStreakRepository.InMemory.repository].
  unfold UserStreakRepository.InMemory.findByUserId. rewrite Hquery.
  destruct (_ <=? _).
  - rewrite update_userId. cbn [UserStreak.userId]. rewrite lookup_insert_eq.
    reflexivity.
  - cbn [UserStreak.userId]. rewrite lookup_insert_eq. reflexivity.
Qed.

Lemma first_session_of_a_user_witness :
  exists streaks' : gmap string UserStreak.t,
    AcceptFocusSession.execute
      (sessionRepository:=FocusSessionRepository.InMemory.repository Fixtures.dateProvider)
      (streakRepository:=UserStreakRepository.InMemory.repository Fixtures.dateProvider)
      Fixtures.dateProvider Fixtures.exact30min (∅, ∅)
    = (Ok tt, (<[AcceptFocusSession.sessionId Fixtures.exact30min
                 := MoreFixtures.exact30minSession]> ∅, streaks'))
    /\ GetUserStreak.execute
         (streakRepository:=UserStreakRepository.InMemory.repository Fixtures.dateProvider)
         Fixtures.someQuery streaks'
       = (Ok (if AcceptFocusSession.QUALIFIED_DAY_THRESHOLD_MINUTES
                   <=? FocusSession.durationMinutes MoreFixtures.exact30minSession
              then {| GetUserStreak.r_userId := AcceptFocusSession.userId Fixtures.exact30min;
                      GetUserStreak.r_currentStreak := 1;
                      GetUserStreak.r_longestStreak := 1;
                      GetUserStreak.r_lastQualifiedDate := Some "2025-01-15";
                      GetUserStreak.r_qualifiedDaysCount := 1 |}
              else {| GetUserStreak.r_userId := AcceptFocusSession.userId Fixtures.exact30min;
                      GetUserStreak.r_currentStreak := 0;
                      GetUserStreak.r_longestStreak := 0;
                      GetUserStreak.r_lastQualifiedDate := None;
                      GetUserStreak.r_qualifiedDaysCount := 0 |}),
          streaks').
Proof.
  apply (first_session_of_a_user Fixtures.dateProvider Fixtures.exact30min
           Fixtures.someQuery MoreFixtures.exact30minSession "2025-01-15" ∅ ∅).
  - vm_compute. reflexivity.
  - vm_compute. reflexivity.
  - vm_compute. reflexivity.
  - apply lookup_empty.
  - intros id s Hs. rewrite lookup_empty in Hs. discriminate Hs.
  - apply lookup_empty.
  - reflexivity.
Defined.

(** X24: when [findOrCreate] of the in-memory streak repository returns
    an aggregate, that aggregate is the one stored for the user afterwards:
    [findByUserId] finds it, a second [findOrCreate] returns it again and
    changes nothing, the entries of the other users are as they were, and
    for a user without an entry it is the zero-value aggregate stamped with
    the provider's now. *)
Theorem findOrCreate_returns_what_it_stores (dateProvider : IDateProvider)
    (userId : string) (userStreak : UserStreak.t)
    (streaks streaks' : gmap string UserStreak.t) :
  UserStreakRepository.InMemory.findOrCreate dateProvider userId streaks
  = (Ok userStreak, streaks') ->
  UserStreakRepository.InMemory.findByUserId userId streaks'
  = (Ok (Some userStreak), streaks')
  /\ UserStreakRepository.InMemory.findOrCreate dateProvider userId streaks'
     = (Ok userStreak, streaks')
  /\ (forall other : string, other <> userId -> streaks' !! other = streaks !! other)
  /\ (streaks !! userId = None ->
      userStreak = UserStreak.mk userId 0 0 None 0 (now dateProvider)).
Proof.
  unfold UserStreakRepository.InMemory.findOrCreate,
    UserStreakRepository.InMemory.findByUserId.
  destruct (streaks !! userId) as [existing|] eqn:Hlook.
  - intros [= <- <-]. rewrite Hlook. repeat split. discriminate.
  - unfold UserStreak.createNew, UserStreak.create.
    destruct (UserStreak.UserStreakPropsSchema _); intros [= <- <-].
    rewrite lookup_insert_eq. repeat split.
    intros other Hother. now rewrite lookup_insert_ne.
Qed.

Lemma findOrCreate_returns_what_it_stores_witness :
  UserStreakRepository.InMemory.findByUserId Fixtures.userId
    (<[Fixtures.userId := Fixtures.newStreak]> ∅)
  = (Ok (Some Fixtures.newStreak), <[Fixtures.userId := Fixtures.newStreak]> ∅).
Proof.
  refine (proj1 (findOrCreate_returns_what_it_stores Fixtures.dateProvider Fixtures.userId
                   Fixtures.newStreak ∅ (<[Fixtures.userId := Fixtures.newStreak]> ∅) _)).
  unfold UserStreakRepository.InMemory.findOrCreate. rewrite lookup_empty.
  vm_compute. reflexivity.
Defined.

(* ===================================================================== *)
(** ** Calendar dates, read and written *)
(* ===================================================================== *)

(** Decides the tests on closed numbers in [H] and in the goal. *)
Ltac known_tests H :=
  repeat match type of H with
         | context [if ?b then _ else _] =>
             let v := eval vm_compute in b in
             lazymatch v with true => idtac | false => idtac end;
             change b with v in H; cbv iota in H
         end;
  repeat match goal with
         | |- context [if ?b then _ else _] =>
             let v := eval vm_compute in b in
             lazymatch v with true => idtac | false => idtac end;
             change b with v; cbv iota
         end.

Ltac div_arith := Z.to_euclidean_division_equations; lia.

Section ReadAndWritten.
Import CalendarDates.

(** [civil_from_days] on the day number that [days_from_civil] builds
    from an era, a year of the era, a month counted from March and a day of
    the month. *)
Lemma civil_of_era_day (era yoe mp d : Z) :
  0 <= yoe < 400 -> 0 <= mp <= 11 -> 1 <= d ->
  d <= (153 * (mp + 1) + 2) / 5 - (153 * mp + 2) / 5 ->
  (153 * mp + 2) / 5 + d - 1
  < 365 + ((yoe + 1) / 4 - yoe / 4) - ((yoe + 1) / 100 - yoe / 100)
        + ((yoe + 1) / 400 - yoe / 400) ->
  DateFns.civil_from_days
    (era * 146097 + (yoe * 365 + yoe / 4 - yoe / 100 + ((153 * mp + 2) / 5 + d - 1))
     - 719468)
  = ((if (if mp <? 10 then mp + 3 else mp - 9) <=? 2
      then yoe + era * 400 + 1 else yoe + era * 400),
     (if mp <? 10 then mp + 3 else mp - 9), d).
Proof.
  intros Hyoe Hmp Hd Hmonth Hyear. unfold DateFns.civil_from_days. cbv zeta.
  set (doy := (153 * mp + 2) / 5 + d - 1) in *.
  set (doe := yoe * 365 + yoe / 4 - yoe / 100 + doy).
  replace (era * 146097 + doe - 719468 + 719468) with (era * 146097 + doe) by lia.
  assert (Hdoe : 0 <= doe < 146097) by (subst doe doy; div_arith).
  assert (Hera : (era * 146097 + doe) / 146097 = era) by div_arith.
  rewrite Hera.
  replace (era * 146097 + doe - era * 146097) with doe by lia.
  assert (Hyoe' : (doe - doe / 1460 + doe / 36524 - doe / 146096) / 365 = yoe)
    by (subst doe; div_arith).
  rewrite Hyoe'.
  replace (doe - (365 * yoe + yoe / 4 - yoe / 100)) with doy by (subst doe; lia).
  assert (Hmp' : (5 * doy + 2) / 153 = mp) by (subst doy; div_arith).
  rewrite Hmp'.
  replace (doy - (153 * mp + 2) / 5 + 1) with d by (subst doy; lia).
  reflexivity.
Qed.

(** The day number of a civil date gives the civil date back, for every
    day that the month has. *)
Lemma civil_round_trip (y m d : Z) :
  1 <= m <= 12 -> 1 <= d <= daysInMonth y m ->
  DateFns.civil_from_days (DateFns.days_from_civil y m d) = (y, m, d).
Proof.
  intros Hm [Hd1 Hd2].
  set (y' := if m <=? 2 then y - 1 else y).
  set (mp := if 2 <? m then m - 3 else m + 9).
  assert (Hdays : DateFns.days_from_civil y m d
                  = (y' / 400) * 146097
                    + ((y' - y' / 400 * 400) * 365 + (y' - y' / 400 * 400) / 4
                       - (y' - y' / 400 * 400) / 100 + ((153 * mp + 2) / 5 + d - 1))
                    - 719468) by reflexivity.
  assert (Hcases : m = 1 \/ m = 2 \/ m = 3 \/ m = 4 \/ m = 5 \/ m = 6 \/ m = 7
                   \/ m = 8 \/ m = 9 \/ m = 10 \/ m = 11 \/ m = 12) by lia.
  rewrite Hdays. clear Hdays. rewrite civil_of_era_day.
  - subst y' mp.
    destruct (Z.ltb_spec 2 m), (Z.leb_spec m 2); try lia.
    + destruct (Z.ltb_spec (m - 3) 10); [| lia].
      destruct (Z.leb_spec (m - 3 + 3) 2); [lia |]. repeat (f_equal; try lia).
    + destruct (Z.ltb_spec (m + 9) 10); [lia |].
      destruct (Z.leb_spec (m + 9 - 9) 2); [| lia]. repeat (f_equal; try lia).
  - div_arith.
  - subst mp. destruct (Z.ltb_spec 2 m); lia.
  - exact Hd1.
  - unfold daysInMonth, DateFns.days_from_civil in Hd2. cbv zeta in Hd2.
    subst mp y'.
    repeat (destruct Hcases as [-> | Hcases]); try subst m; known_tests Hd2;
      div_arith.
  - unfold daysInMonth, DateFns.days_from_civil in Hd2. cbv zeta in Hd2.
    subst mp y'.
    repeat (destruct Hcases as [-> | Hcases]); try subst m; known_tests Hd2;
      div_arith.
Qed.

Lemma range_elem (n : nat) (z : Z) : 0 <= z < Z.of_nat n -> In z (range n).
Proof.
  intros H. unfold range. apply in_map_iff. exists (Z.to_nat z). split; [lia |].
  apply in_seq. lia.
Qed.

Lemma digit_inv (c : ascii) (k : Z) :
  DateFns.digit c = Some k -> 0 <= k < 10 /\ c = digitChar k.
Proof.
  unfold DateFns.digit, digitChar.
  destruct (Z.leb_spec 48 (Z.of_nat (nat_of_ascii c))) as [Hlo|]; [| discriminate].
  destruct (Z.leb_spec (Z.of_nat (nat_of_ascii c)) 57) as [Hhi|]; [| discriminate].
  cbn [andb]. intros [= <-]. split; [lia |].
  replace (Z.to_nat (48 + (Z.of_nat (nat_of_ascii c) - 48))) with (nat_of_ascii c) by lia.
  symmetry. apply ascii_nat_embedding.
Qed.

Lemma pad2_checked : pad2Checked = true.
Proof. vm_compute. reflexivity. Qed.

Lemma pad4_checked : pad4Checked = true.
Proof. vm_compute. reflexivity. Qed.

(** [pad] writes two digits as they were read. *)
Lemma digits2_inv (c0 c1 : ascii) (n : Z) :
  DateFns.digits 0 (String c0 (String c1 EmptyString)) = Some n ->
  DateFns.pad 2 n = String c0 (String c1 EmptyString).
Proof.
  cbn [DateFns.digits].
  destruct (DateFns.digit c0) as [k0|] eqn:H0; [| discriminate].
  destruct (DateFns.digit c1) as [k1|] eqn:H1; [| discriminate].
  intros [= <-].
  apply digit_inv in H0 as [B0 ->], H1 as [B1 ->].
  pose proof pad2_checked as Hall. unfold pad2Checked in Hall.
  rewrite forallb_forall in Hall. specialize (Hall k0 (range_elem 10 k0 B0)).
  rewrite forallb_forall in Hall. specialize (Hall k1 (range_elem 10 k1 B1)).
  now apply String.eqb_eq in Hall.
Qed.

(** [pad] writes four digits as they were read. *)
Lemma digits4_inv (c0 c1 c2 c3 : ascii) (n : Z) :
  DateFns.digits 0 (String c0 (String c1 (String c2 (String c3 EmptyString)))) = Some n ->
  DateFns.pad 4 n = String c0 (String c1 (String c2 (String c3 EmptyString))).
Proof.
  cbn [DateFns.digits].
  destruct (DateFns.digit c0) as [k0|] eqn:H0; [| discriminate].
  destruct (DateFns.digit c1) as [k1|] eqn:H1; [| discriminate].
  destruct (DateFns.digit c2) as [k2|] eqn:H2; [| discriminate].
  destruct (DateFns.digit c3) as [k3|] eqn:H3; [| discriminate].
  intros [= <-].
  apply digit_inv in H0 as [B0 ->], H1 as [B1 ->], H2 as [B2 ->], H3 as [B3 ->].
  pose proof pad4_checked as Hall. unfold pad4Checked in Hall.
  rewrite forallb_forall in Hall. specialize (Hall k0 (range_elem 10 k0 B0)).
  rewrite forallb_forall in Hall. specialize (Hall k1 (range_elem 10 k1 B1)).
  rewrite forallb_forall in Hall. specialize (Hall k2 (range_elem 10 k2 B2)).
  rewrite forallb_forall in Hall. specialize (Hall k3 (range_elem 10 k3 B3)).
  now apply String.eqb_eq in Hall.
Qed.

Lemma length10_inv (s : string) :
  String.length s = 10%nat ->
  exists c0 c1 c2 c3 c4 c5 c6 c7 c8 c9 : ascii,
    s = String c0 (String c1 (String c2 (String c3 (String c4 (String c5
          (String c6 (String c7 (String c8 (String c9 EmptyString))))))))).
Proof.
  do 10 (destruct s as [|? s]; [discriminate |]).
  destruct s; [| discriminate]. intros _. repeat eexists.
Qed.

(** A string that [parseISO] reads as a calendar date is what [format]
    writes for the date read. *)
Lemma format_parseISO (dateString : string) (w : Z) (tz : option string) :
  DateFns.parseISO dateString = ValidDate w ->
  DateFns.format (ValidDate w) "yyyy-MM-dd" tz = Ok dateString.
Proof.
  unfold DateFns.parseISO.
  destruct (DateFns.digits 0 (String.substring 0 4 dateString)) as [y|] eqn:Hy;
    [| discriminate].
  destruct (DateFns.digits 0 (String.substring 5 2 dateString)) as [m|] eqn:Hm;
    [| discriminate].
  destruct (DateFns.digits 0 (String.substring 8 2 dateString)) as [d|] eqn:Hd;
    [| discriminate].
  match goal with |- context [if ?c then _ else _] => destruct c eqn:Hc end;
    [| discriminate].
  intros [= <-].
  repeat (apply andb_prop in Hc as [Hc ?]).
  apply Nat.eqb_eq in Hc.
  destruct (length10_inv dateString Hc)
    as (c0 & c1 & c2 & c3 & c4 & c5 & c6 & c7 & c8 & c9 & ->).
  cbv [String.substring] in *.
  repeat match goal with
         | H : String.eqb _ _ = true |- _ => apply String.eqb_eq in H; injection H as ->
         end.
  apply digits4_inv in Hy. apply digits2_inv in Hm, Hd.
  unfold DateFns.format. rewrite Z.div_mul by discriminate.
  rewrite civil_round_trip by (unfold daysInMonth; lia).
  rewrite Hy, Hm, Hd. reflexivity.
Qed.

End ReadAndWritten.

(* ===================================================================== *)
(** ** The mappers *)
(* ===================================================================== *)

(** X25: an aggregate that passes the schema of [create], and whose
    last qualified date is null or a calendar date 'YYYY-MM-DD' of the
    years 1 to 9999, comes back unchanged from [toPrisma] followed by
    [toDomain] of the streak mapper: [format] writes the string that
    [parseISO] read. *)
Theorem streak_survives_the_mapper (props this : UserStreak.t) :
  UserStreak.create props = Ok this ->
  match UserStreak.lastQualifiedDate this with
  | None => True
  | Some last => CalendarDates.isCalendarDate last = true
  end ->
  SqlUserStreakMapper.toDomain (SqlUserStreakMapper.toPrisma this) = Ok this.
Proof.
  unfold UserStreak.create.
  destruct (UserStreak.UserStreakPropsSchema props) eqn:Hschema; [| discriminate].
  intros [= <-]. destruct props as [uid current longest last count updated].
  unfold SqlUserStreakMapper.toDomain, SqlUserStreakMapper.toPrisma,
    CalendarDates.isCalendarDate.
  cbn [UserStreak.lastQualifiedDate UserStreak.userId UserStreak.currentStreak
         UserStreak.longestStreak UserStreak.qualifiedDaysCount UserStreak.updatedAt
         SqlUserStreakMapper.last_qualified_date SqlUserStreakMapper.user_id
         SqlUserStreakMapper.current_streak SqlUserStreakMapper.longest_streak
         SqlUserStreakMapper.qualified_days_count SqlUserStreakMapper.updated_at].
  destruct last as [[|c last]|]; intros Hdate.
  - discriminate Hdate.
  - destruct (DateFns.parseISO (String c last)) as [w|] eqn:Hparse;
      [| discriminate Hdate].
    rewrite (format_parseISO _ w None Hparse). cbn [bindR].
    unfold UserStreak.create. now rewrite Hschema.
  - cbn [bindR]. unfold UserStreak.create. now rewrite Hschema.
Qed.

Lemma streak_survives_the_mapper_witness :
  SqlUserStreakMapper.toDomain (SqlUserStreakMapper.toPrisma Fixtures.fiveDayStreak)
  = Ok Fixtures.fiveDayStreak.
Proof.
  apply (streak_survives_the_mapper Fixtures.fiveDayStreak Fixtures.fiveDayStreak).
  - vm_compute. reflexivity.
  - vm_compute. reflexivity.
Defined.

(** X26: the session mapper loses nothing in either direction: a
    session that [create] returned comes back unchanged from [toPrisma]
    followed by [toDomain], and a row that [toDomain] accepts is the row that
    [toPrisma] writes for the session it was read as. *)
Theorem session_mapper_round_trips (props : FocusSession.Props.t)
    (row : SqlFocusSessionMapper.PrismaFocusSession) (this : FocusSession.t) :
  (FocusSession.create props = Ok this ->
   SqlFocusSessionMapper.toDomain (SqlFocusSessionMapper.toPrisma this) = Ok this)
  /\ (SqlFocusSessionMapper.toDomain row = Ok this ->
      SqlFocusSessionMapper.toPrisma this = row).
Proof.
  split.
  - intros Hcreate. apply create_ok_iff in Hcreate as [_ Hvalid].
    unfold SqlFocusSessionMapper.toDomain, SqlFocusSessionMapper.toPrisma.
    cbn [SqlFocusSessionMapper.session_id SqlFocusSessionMapper.user_id
           SqlFocusSessionMapper.start_time SqlFocusSessionMapper.end_time
           SqlFocusSessionMapper.duration_minutes SqlFocusSessionMapper.timezone
           SqlFocusSessionMapper.created_at].
    apply create_ok_iff. split; [reflexivity | exact Hvalid].
  - unfold SqlFocusSessionMapper.toDomain. intros Hcreate.
    apply create_ok_iff in Hcreate as [Hprops _].
    unfold SessionFacts.propsOf in Hprops. destruct row.
    cbn [SqlFocusSessionMapper.session_id SqlFocusSessionMapper.user_id
           SqlFocusSessionMapper.start_time SqlFocusSessionMapper.end_time
           SqlFocusSessionMapper.duration_minutes SqlFocusSessionMapper.timezone
           SqlFocusSessionMapper.created_at] in Hprops.
    injection Hprops as -> -> -> -> -> -> ->. reflexivity.
Qed.

Lemma session_mapper_round_trips_witness :
  SqlFocusSessionMapper.toDomain
    (SqlFocusSessionMapper.toPrisma MoreFixtures.exact30minSession)
  = Ok MoreFixtures.exact30minSession.
Proof.
  refine (proj1 (session_mapper_round_trips
                   (SessionFacts.propsOf MoreFixtures.exact30minSession)
                   (SqlFocusSessionMapper.toPrisma MoreFixtures.exact30minSession)
                   MoreFixtures.exact30minSession) _).
  vm_compute. reflexivity.
Defined.

(* ===================================================================== *)
(** ** A session within one day, for a user with an aggregate *)
(* ===================================================================== *)

Section SingleDay.
Variable dateProvider : IDateProvider.

(** A total that is reported means that every stored session of the
    user has a qualified date. *)
Lemma total_reported_dated (uid date tz : string) (total : Z)
    (sessions : gmap string FocusSession.t) :
  FocusSessionRepository.InMemory.getTotalMinutesForDate dateProvider uid date tz sessions
  = (Ok total, sessions) ->
  StoreFacts.dated dateProvider uid sessions.
Proof.
  intros Htotal id s Hlook Huser.
  destruct (FocusSession.getQualifiedDate dateProvider s) as [d|e] eqn:Hdate; [eauto |].
  unfold FocusSessionRepository.InMemory.getTotalMinutesForDate in Htotal.
  destruct (fold_addMinutes_undated dateProvider uid date (map_to_list sessions).*2 s e)
    with (acc := @Ok Z 0) as [e' He']; [| exact Huser | exact Hdate |].
  - apply list_elem_of_fmap. exists (id, s). split; [reflexivity |].
    now apply elem_of_map_to_list.
  - rewrite He' in Htotal. discriminate Htotal.
Qed.

(** The total of a date after one more session of the user on that date
    was stored. *)
Lemma total_with_one_more (session : FocusSession.t) (date tz : string) (before : Z)
    (sessions : gmap string FocusSession.t) :
  FocusSession.getQualifiedDate dateProvider session = Ok date ->
  sessions !! FocusSession.sessionId session = None ->
  FocusSessionRepository.InMemory.getTotalMinutesForDate dateProvider
    (FocusSession.userId session) date tz sessions = (Ok before, sessions) ->
  FocusSessionRepository.InMemory.getTotalMinutesForDate dateProvider
    (FocusSession.userId session) date tz
    (<[FocusSession.sessionId session := session]> sessions)
  = (Ok (before + FocusSession.durationMinutes session),
     <[FocusSession.sessionId session := session]> sessions).
Proof.
  intros Hdate Hfree Hbefore.
  pose proof (total_reported_dated _ _ _ _ _ Hbefore) as Hdated.
  rewrite (total_is_sumOn dateProvider _ date sessions tz Hdated) in Hbefore.
  injection Hbefore as Hbefore. rewrite total_is_sumOn.
  - f_equal. f_equal.
    rewrite (sumOn_permutation dateProvider _ date _
               (session :: (map_to_list sessions).*2))
      by (rewrite (map_to_list_insert sessions _ session Hfree); reflexivity).
    cbn [StoreFacts.sumOn foldr].
    fold (StoreFacts.sumOn dateProvider (FocusSession.userId session) date
            (map_to_list sessions).*2).
    rewrite Hbefore. unfold StoreFacts.minutesOn.
    rewrite String.eqb_refl, Hdate, String.eqb_refl. cbn [negb]. lia.
  - intros id s Hs Huser.
    apply lookup_insert_Some in Hs as [[_ <-] | [_ Hs]]; [eauto |].
    exact (Hdated id s Hs Huser).
Qed.

End SingleDay.

(** What [execute] does with a session within one day, for a user who
    has an aggregate. *)
Lemma single_day_outcome (dateProvider : IDateProvider)
    (command : AcceptFocusSession.AcceptFocusSessionCommandProps)
    (session : FocusSession.t) (date : string) (before : Z)
    (userStreak : UserStreak.t)
    (sessions : gmap string FocusSession.t) (streaks : gmap string UserStreak.t) :
  let uid := AcceptFocusSession.userId command in
  FocusSession.createNew (AcceptFocusSession.sessionId command) uid
    (AcceptFocusSession.startTime command) (AcceptFocusSession.endTime command)
    (AcceptFocusSession.timezone command) dateProvider = Ok session ->
  FocusSession.splitByDay dateProvider session = Ok [session] ->
  FocusSession.getQualifiedDate dateProvider session = Ok date ->
  sessions !! AcceptFocusSession.sessionId command = None ->
  FocusSessionRepository.InMemory.getTotalMinutesForDate dateProvider uid date
    (AcceptFocusSession.timezone command) sessions = (Ok before, sessions) ->
  streaks !! uid = Some userStreak ->
  UserStreak.userId userStreak = uid ->
  AcceptFocusSession.execute
    (sessionRepository:=FocusSessionRepository.InMemory.repository dateProvider)
    (streakRepository:=UserStreakRepository.InMemory.repository dateProvider)
    dateProvider command (sessions, streaks)
  = (Ok tt,
     (<[AcceptFocusSession.sessionId command := session]> sessions,
      if AcceptFocusSession.QUALIFIED_DAY_THRESHOLD_MINUTES
           <=? before + FocusSession.durationMinutes session
      then <[uid := UserStreak.updateWithQualifiedDate date dateProvider userStreak]>
             streaks
      else streaks)).
Proof.
  intros uid Hnew Hsplit Hdate Hfree Hbefore Hstreak Hkeyed. subst uid.
  pose proof Hnew as Hcreate. unfold FocusSession.createNew in Hcreate.
  apply create_ok_iff in Hcreate as [Hprops _].
  injection Hprops as Hid Huid _ _ _ _ _.
  rewrite execute_steps. cbn [fst]. rewrite Hfree, Hnew, Hsplit.
  cbn [AcceptFocusSession.forEach].
  unfold AcceptFocusSession.bind at 1. unfold AcceptFocusSession.onSessions at 1.
  cbn [fst snd]. unfold FocusSessionRepository.InMemory.save.
  rewrite <- Hid, Hfree. unfold AcceptFocusSession.ret at 1.
  rewrite updateUserStreak_steps.
  unfold UserStreakRepository.InMemory.findOrCreate. rewrite Hstreak.
  cbn [AcceptFocusSession.collectDates]. rewrite Hdate. cbn [bindR].
  change (AcceptFocusSession.sort (AcceptFocusSession.setAdd [] date)) with [date].
  cbn [AcceptFocusSession.qualifyDates]. unfold AcceptFocusSession.bind at 1.
  assert (Htotal :
    FocusSessionRepository.InMemory.getTotalMinutesForDate dateProvider
      (AcceptFocusSession.userId command) date (AcceptFocusSession.timezone command)
      (<[AcceptFocusSession.sessionId command := session]> sessions)
    = (Ok (before + FocusSession.durationMinutes session),
       <[AcceptFocusSession.sessionId command := session]> sessions)).
  { rewrite Hid, Huid. apply total_with_one_more; [exact Hdate | |].
    - now rewrite <- Hid.
    - now rewrite <- Huid. }
  rewrite (qualifyDate_total
             (sessionRepository:=FocusSessionRepository.InMemory.repository dateProvider)
             dateProvider _ _ date _ _ _ _ _ Htotal).
  unfold AcceptFocusSession.ret. cbn [fst snd].
  destruct (_ <=? _).
  - now rewrite update_userId, Hkeyed.
  - rewrite Hkeyed. now rewrite (insert_id _ _ _ Hstreak).
Qed.

(** X27: a session within one day, for a user who has an aggregate.
    For a command that [createNew] accepts, whose session [splitByDay]
    leaves whole and has a qualified date, and whose id is not stored,
    [execute] succeeds and stores the session; it feeds the date to the
    aggregate of the user exactly when the minutes that were stored for that
    date, plus those of the session, reach 30; otherwise no aggregate
    changes. *)
Theorem single_day_session_outcome (dateProvider : IDateProvider)
    (command : AcceptFocusSession.AcceptFocusSessionCommandProps)
    (session : FocusSession.t) (date : string) (before : Z)
    (userStreak : UserStreak.t)
    (sessions : gmap string FocusSession.t) (streaks : gmap string UserStreak.t) :
  let uid := AcceptFocusSession.userId command in
  FocusSession.createNew (AcceptFocusSession.sessionId command) uid
    (AcceptFocusSession.startTime command) (AcceptFocusSession.endTime command)
    (AcceptFocusSession.timezone command) dateProvider = Ok session ->
  FocusSession.splitByDay dateProvider session = Ok [session] ->
  FocusSession.getQualifiedDate dateProvider session = Ok date ->
  sessions !! AcceptFocusSession.sessionId command = None ->
  FocusSessionRepository.InMemory.getTotalMinutesForDate dateProvider uid date
    (AcceptFocusSession.timezone command) sessions = (Ok before, sessions) ->
  streaks !! uid = Some userStreak ->
  UserStreak.userId userStreak = uid ->
  AcceptFocusSession.execute
    (sessionRepository:=FocusSessionRepository.InMemory.repository dateProvider)
    (streakRepository:=UserStreakRepository.InMemory.repository dateProvider)
    dateProvider command (sessions, streaks)
  = (Ok tt,
     (<[AcceptFocusSession.sessionId command := session]> sessions,
      if AcceptFocusSession.QUALIFIED_DAY_THRESHOLD_MINUTES
           <=? before + FocusSession.durationMinutes session
      then <[uid := UserStreak.updateWithQualifiedDate date dateProvider userStreak]>
             streaks
      else streaks)).
Proof. exact (single_day_outcome dateProvider command session date before userStreak
               sessions streaks). Qed.

Lemma single_day_session_outcome_witness :
  AcceptFocusSession.execute
    (sessionRepository:=FocusSessionRepository.InMemory.repository Fixtures.dateProvider)
    (streakRepository:=UserStreakRepository.InMemory.repository Fixtures.dateProvider)
    Fixtures.dateProvider Fixtures.exact30min
    (<["day-before" := MoreFixtures.dayBeforeSession]> ∅,
     <[Fixtures.userId := MoreFixtures.dayBeforeStreak]> ∅)
  = (Ok tt,
     (<[AcceptFocusSession.sessionId Fixtures.exact30min
        := MoreFixtures.exact30minSession]>
        (<["day-before" := MoreFixtures.dayBeforeSession]> ∅),
      if AcceptFocusSession.QUALIFIED_DAY_THRESHOLD_MINUTES
           <=? 0 + FocusSession.durationMinutes MoreFixtures.exact30minSession
      then <[AcceptFocusSession.userId Fixtures.exact30min
             := UserStreak.updateWithQualifiedDate "2025-01-15" Fixtures.dateProvider
                  MoreFixtures.dayBeforeStreak]>
             (<[Fixtures.userId := MoreFixtures.dayBeforeStreak]> ∅)
      else <[Fixtures.userId := MoreFixtures.dayBeforeStreak]> ∅)).
Proof.
  apply (single_day_session_outcome Fixtures.dateProvider Fixtures.exact30min
           MoreFixtures.exact30minSession "2025-01-15" 0 MoreFixtures.dayBeforeStreak
           (<["day-before" := MoreFixtures.dayBeforeSession]> ∅)
           (<[Fixtures.userId := MoreFixtures.dayBeforeStreak]> ∅)).
  - vm_compute. reflexivity.
  - vm_compute. reflexivity.
  - vm_compute. reflexivity.
  - rewrite lookup_insert_ne by discriminate. apply lookup_empty.
  - vm_compute. reflexivity.
  - apply lookup_insert_eq.
  - reflexivity.
Defined.

(* ===================================================================== *)
(** ** Qualified dates, written and read *)
(* ===================================================================== *)

Section WrittenAndRead.
Import CalendarDates.

(** The civil date of a day number gives the day number back, and is a
    day that its month has. *)
Lemma days_round_trip (z : Z) :
  let '(y, m, d) := DateFns.civil_from_days z in
  DateFns.days_from_civil y m d = z
  /\ 1 <= m <= 12 /\ 1 <= d <= daysInMonth y m.
Proof.
  unfold DateFns.civil_from_days. cbv zeta.
  set (era := (z + 719468) / 146097).
  set (doe := z + 719468 - era * 146097).
  assert (Hdoe : 0 <= doe < 146097) by (subst doe era; div_arith).
  set (yoe := (doe - doe / 1460 + doe / 36524 - doe / 146096) / 365).
  assert (Hyoe : 0 <= yoe < 400) by (subst yoe; div_arith).
  set (doy := doe - (365 * yoe + yoe / 4 - yoe / 100)).
  assert (Hdoy : 0 <= doy
                 /\ doy < 365 + ((yoe + 1) / 4 - yoe / 4) - ((yoe + 1) / 100 - yoe / 100)
                              + ((yoe + 1) / 400 - yoe / 400))
    by (subst doy yoe; div_arith).
  set (mp := (5 * doy + 2) / 153).
  assert (Hmp : 0 <= mp <= 11) by (subst mp; div_arith).
  set (d := doy - (153 * mp + 2) / 5 + 1).
  assert (Hd : 1 <= d <= (153 * (mp + 1) + 2) / 5 - (153 * mp + 2) / 5)
    by (subst d mp; div_arith).
  set (m := if mp <? 10 then mp + 3 else mp - 9).
  set (y := if m <=? 2 then yoe + era * 400 + 1 else yoe + era * 400).
  assert (Hm : 1 <= m <= 12) by (unfold m; destruct (Z.ltb_spec mp 10); lia).
  assert (Hy' : (if m <=? 2 then y - 1 else y) = yoe + era * 400)
    by (unfold y; destruct (Z.leb_spec m 2); lia).
  assert (Hmp' : (if 2 <? m then m - 3 else m + 9) = mp)
    by (unfold m; destruct (Z.ltb_spec mp 10);
        [destruct (Z.ltb_spec 2 (mp + 3)) | destruct (Z.ltb_spec 2 (mp - 9))]; lia).
  assert (Hdays : DateFns.days_from_civil y m d = z).
  { unfold DateFns.days_from_civil. cbv zeta. rewrite Hy', Hmp'.
    assert (Hera : (yoe + era * 400) / 400 = era) by div_arith.
    rewrite Hera. replace (yoe + era * 400 - era * 400) with yoe by lia.
    subst d doy doe. lia. }
  split; [exact Hdays |]. split; [exact Hm |]. split; [lia |].
  assert (Ed : d = doy - (153 * mp + 2) / 5 + 1) by reflexivity.
  assert (Hcases : mp = 0 \/ mp = 1 \/ mp = 2 \/ mp = 3 \/ mp = 4 \/ mp = 5 \/ mp = 6
                   \/ mp = 7 \/ mp = 8 \/ mp = 9 \/ mp = 10 \/ mp = 11) by lia.
  clear Hdays Hy' Hmp' Hm. unfold daysInMonth, DateFns.days_from_civil. cbv zeta.
  subst y m. clearbody d mp doy yoe era.
  repeat (destruct Hcases as [-> | Hcases]); try subst mp; known_tests Ed;
    div_arith.
Qed.

(** The day numbers of the years 1 to 9999. *)
Lemma year_in_range (z : Z) :
  -719162 <= z < 2932897 ->
  1 <= (DateFns.civil_from_days z).1.1 <= 9999.
Proof.
  intros Hz. unfold DateFns.civil_from_days. cbv zeta. cbn [fst].
  set (era := (z + 719468) / 146097).
  set (doe := z + 719468 - era * 146097).
  assert (Hdoe : 0 <= doe < 146097) by (subst doe era; div_arith).
  assert (Hera : 0 <= era <= 24) by (subst era; div_arith).
  set (yoe := (doe - doe / 1460 + doe / 36524 - doe / 146096) / 365).
  assert (Hyoe : 0 <= yoe < 400) by (subst yoe; div_arith).
  set (doy := doe - (365 * yoe + yoe / 4 - yoe / 100)).
  assert (Hdoy : 0 <= doy <= 365) by (subst doy yoe; div_arith).
  set (mp := (5 * doy + 2) / 153).
  assert (Hmp : 0 <= mp <= 11 /\ (mp < 10 <-> doy < 306)) by (subst mp; div_arith).
  assert (Hlow : era = 0 -> yoe = 0 -> 306 <= doy) by (subst doy yoe doe; div_arith).
  assert (Hhigh : era = 24 -> yoe = 399 -> doy < 306) by (subst doy yoe doe; div_arith).
  destruct (Z.ltb_spec mp 10).
  - destruct (Z.leb_spec (mp + 3) 2); lia.
  - destruct (Z.leb_spec (mp - 9) 2); lia.
Qed.

Lemma digit_digitChar (k : Z) : 0 <= k < 10 -> DateFns.digit (digitChar k) = Some k.
Proof.
  intros Hk.
  assert (Hcases : k = 0 \/ k = 1 \/ k = 2 \/ k = 3 \/ k = 4 \/ k = 5 \/ k = 6
                   \/ k = 7 \/ k = 8 \/ k = 9) by lia.
  repeat (destruct Hcases as [-> | Hcases]); try subst k; reflexivity.
Qed.

(** A number of at most two digits is read back from what [pad] writes
    for it. *)
Lemma read_pad2 (n : Z) :
  0 <= n <= 99 ->
  exists c0 c1 : ascii,
    DateFns.pad 2 n = String c0 (String c1 EmptyString)
    /\ DateFns.digits 0 (String c0 (String c1 EmptyString)) = Some n.
Proof.
  intros Hn. exists (digitChar (n / 10)), (digitChar (n mod 10)).
  assert (B0 : 0 <= n / 10 < 10) by div_arith.
  assert (B1 : 0 <= n mod 10 < 10) by div_arith.
  assert (Hvalue : (0 * 10 + n / 10) * 10 + n mod 10 = n) by div_arith.
  split.
  - pose proof pad2_checked as Hall. unfold pad2Checked in Hall.
    rewrite forallb_forall in Hall. specialize (Hall _ (range_elem 10 _ B0)).
    rewrite forallb_forall in Hall. specialize (Hall _ (range_elem 10 _ B1)).
    apply String.eqb_eq in Hall. now rewrite Hvalue in Hall.
  - cbn [DateFns.digits]. rewrite !digit_digitChar by assumption.
    now rewrite Hvalue.
Qed.

(** The same for a number of at most four digits. *)
Lemma read_pad4 (n : Z) :
  0 <= n <= 9999 ->
  exists c0 c1 c2 c3 : ascii,
    DateFns.pad 4 n = String c0 (String c1 (String c2 (String c3 EmptyString)))
    /\ DateFns.digits 0 (String c0 (String c1 (String c2 (String c3 EmptyString))))
       = Some n.
Proof.
  intros Hn.
  exists (digitChar (n / 1000)), (digitChar (n / 100 mod 10)),
         (digitChar (n / 10 mod 10)), (digitChar (n mod 10)).
  assert (B0 : 0 <= n / 1000 < 10) by div_arith.
  assert (B1 : 0 <= n / 100 mod 10 < 10) by div_arith.
  assert (B2 : 0 <= n / 10 mod 10 < 10) by div_arith.
  assert (B3 : 0 <= n mod 10 < 10) by div_arith.
  assert (Hvalue : (((0 * 10 + n / 1000) * 10 + n / 100 mod 10) * 10 + n / 10 mod 10) * 10
                   + n mod 10 = n) by div_arith.
  split.
  - pose proof pad4_checked as Hall. unfold pad4Checked in Hall.
    rewrite forallb_forall in Hall. specialize (Hall _ (range_elem 10 _ B0)).
    rewrite forallb_forall in Hall. specialize (Hall _ (range_elem 10 _ B1)).
    rewrite forallb_forall in Hall. specialize (Hall _ (range_elem 10 _ B2)).
    rewrite forallb_forall in Hall. specialize (Hall _ (range_elem 10 _ B3)).
    apply String.eqb_eq in Hall. now rewrite Hvalue in Hall.
  - cbn [DateFns.digits]. rewrite !digit_digitChar by assumption.
    now rewrite Hvalue.
Qed.

(** The string that [format] writes for an instant of the years 1 to
    9999 is read by [parseISO] as the start of the day of that instant, and
    is a calendar date. *)
Lemma parseISO_format (w : Z) (tz : option string) :
  inYears1to9999 w = true ->
  exists dateString : string,
    DateFns.format (ValidDate w) "yyyy-MM-dd" tz = Ok dateString
    /\ DateFns.parseISO dateString
       = ValidDate (w / DateFns.MS_PER_DAY * DateFns.MS_PER_DAY)
    /\ isCalendarDate dateString = true.
Proof.
  intros Hrange.
  assert (Hz : -719162 <= w / DateFns.MS_PER_DAY < 2932897).
  { unfold inYears1to9999 in Hrange. apply andb_prop in Hrange as [Hlo Hhi].
    apply Z.leb_le in Hlo. apply Z.ltb_lt in Hhi.
    change (DateFns.days_from_civil 1 1 1) with (-719162) in Hlo.
    change (DateFns.days_from_civil 10000 1 1) with 2932897 in Hhi.
    day_arith. }
  pose proof (days_round_trip (w / DateFns.MS_PER_DAY)) as Hback.
  pose proof (year_in_range (w / DateFns.MS_PER_DAY) Hz) as Hyear.
  unfold DateFns.format.
  destruct (DateFns.civil_from_days (w / DateFns.MS_PER_DAY)) as [[y m] d].
  cbn [fst] in Hyear. destruct Hback as (Hdays & Hm & Hd).
  assert (Hd31 : d <= 31).
  { unfold daysInMonth, DateFns.days_from_civil in Hd. cbv zeta in Hd.
    assert (Hcases : m = 1 \/ m = 2 \/ m = 3 \/ m = 4 \/ m = 5 \/ m = 6 \/ m = 7
                     \/ m = 8 \/ m = 9 \/ m = 10 \/ m = 11 \/ m = 12) by lia.
    clear Hdays.
    repeat (destruct Hcases as [-> | Hcases]); try subst m; known_tests Hd; div_arith. }
  destruct (read_pad4 y) as (c0 & c1 & c2 & c3 & Hy & Hy'); [lia |].
  destruct (read_pad2 m) as (c5 & c6 & Hmm & Hm'); [lia |].
  destruct (read_pad2 d) as (c8 & c9 & Hdd & Hd'); [lia |].
  eexists. split; [reflexivity |].
  rewrite Hy, Hmm, Hdd.
  assert (Hparse :
    DateFns.parseISO
      (String c0 (String c1 (String c2 (String c3 EmptyString))) +:+ "-"
       +:+ String c5 (String c6 EmptyString) +:+ "-" +:+ String c8 (String c9 EmptyString))
    = ValidDate (w / DateFns.MS_PER_DAY * DateFns.MS_PER_DAY)).
  { unfold DateFns.parseISO. cbv [String.append String.substring String.length].
    rewrite Hy', Hm', Hd'.
    match goal with
    | |- context [if ?c then _ else _] => assert (Hc : c = true)
    end.
    { repeat (apply andb_true_intro; split); try reflexivity;
        try (apply Z.leb_le; unfold daysInMonth in Hd; lia). }
    rewrite Hc. now rewrite Hdays. }
  split; [exact Hparse |].
  unfold isCalendarDate. rewrite Hparse.
  cbv [String.append String.substring].
  destruct (String.eqb_spec (String c0 (String c1 (String c2 (String c3 EmptyString))))
              "0000") as [Hzero|]; [| reflexivity].
  rewrite Hzero in Hy'. cbv in Hy'. injection Hy' as <-. lia.
Qed.

Variable zone : string -> option Z.
Variable now0 : Date.

(** The qualified date of a session that starts in the years 1 to 9999
    of its timezone: a calendar date, read back as the civil day on which
    the session starts. *)
Lemma qualified_date_read_back (this : FocusSession.t) (a offset : Z) :
  FocusSession.startTime this = ValidDate a ->
  zone (FocusSession.timezone this) = Some offset ->
  inYears1to9999 (a + offset) = true ->
  exists date : string,
    FocusSession.getQualifiedDate (DateFns.FakeDateProvider zone now0) this = Ok date
    /\ DateFns.parseISO date
       = ValidDate ((a + offset) / DateFns.MS_PER_DAY * DateFns.MS_PER_DAY)
    /\ isCalendarDate date = true.
Proof.
  intros Hstart Hzone Hrange. unfold FocusSession.getQualifiedDate.
  cbn [toZonedTime format DateFns.FakeDateProvider].
  unfold DateFns.toZonedTime. rewrite Hstart, Hzone.
  exact (parseISO_format (a + offset) _ Hrange).
Qed.

(** The day difference of two date strings that are read as the starts
    of two days. *)
Lemma calendarDayDiff_of_days (d1 d2 : string) (z1 z2 : Z) :
  DateFns.parseISO d1 = ValidDate (z1 * DateFns.MS_PER_DAY) ->
  DateFns.parseISO d2 = ValidDate (z2 * DateFns.MS_PER_DAY) ->
  UserStreak.calendarDayDiff (DateFns.FakeDateProvider zone now0) d1 d2 = Num (z1 - z2).
Proof.
  intros H1 H2. unfold UserStreak.calendarDayDiff.
  cbn [startOfDay parseISO differenceInCalendarDays DateFns.FakeDateProvider].
  rewrite H1, H2. cbn [DateFns.startOfDay DateFns.differenceInCalendarDays].
  f_equal. day_arith.
Qed.

(** The transition on a date at [n] days from the last one, row by
    row. *)
Lemma update_by_days (this : UserStreak.t) (d last : string) (n : Z) :
  UserStreak.lastQualifiedDate this = Some last ->
  UserStreak.calendarDayDiff (DateFns.FakeDateProvider zone now0) d last = Num n ->
  UserStreak.updateWithQualifiedDate d (DateFns.FakeDateProvider zone now0) this
  = if n =? 0 then
      UserStreak.mk (UserStreak.userId this) (UserStreak.currentStreak this)
        (UserStreak.longestStreak this) (Some last)
        (UserStreak.qualifiedDaysCount this) now0
    else if n <? 0 then
      UserStreak.mk (UserStreak.userId this) (UserStreak.currentStreak this)
        (UserStreak.longestStreak this) (Some last)
        (UserStreak.qualifiedDaysCount this + 1) now0
    else if n =? 1 then
      UserStreak.mk (UserStreak.userId this) (UserStreak.currentStreak this + 1)
        (Z.max (UserStreak.longestStreak this) (UserStreak.currentStreak this + 1))
        (Some d) (UserStreak.qualifiedDaysCount this + 1) now0
    else
      UserStreak.mk (UserStreak.userId this) 1 (UserStreak.longestStreak this)
        (Some d) (UserStreak.qualifiedDaysCount this + 1) now0.
Proof.
  intros Hlast Hdiff.
  pose proof (FakeDateProvider_empty_string zone now0) as Hlaw.
  destruct (Z.eqb_spec n 0) as [-> | Hn0].
  - rewrite (update_same_day _ Hlaw this d last Hlast Hdiff). now rewrite Hlast.
  - destruct (Z.ltb_spec n 0) as [Hneg | Hpos].
    + rewrite (update_late _ Hlaw this d last n Hlast Hdiff Hneg). now rewrite Hlast.
    + destruct (Z.eqb_spec n 1) as [-> | Hn1].
      * now rewrite (update_next_day _ Hlaw this d last Hlast Hdiff).
      * rewrite (update_after_gap _ Hlaw this d last n Hlast Hdiff); [reflexivity | lia].
Qed.

End WrittenAndRead.

(** X28: with date-fns, the qualified dates of two sessions that start
    in the years 1 to 9999 of their timezones are calendar dates, and the
    day difference that [updateWithQualifiedDate] computes from the two
    strings is the number of civil days between the two starts. *)
Theorem qualified_dates_differ_by_their_civil_days (zone : string -> option Z)
    (now0 : Date) (s1 s2 : FocusSession.t) (a1 a2 offset1 offset2 : Z) :
  let dateProvider := DateFns.FakeDateProvider zone now0 in
  FocusSession.startTime s1 = ValidDate a1 ->
  FocusSession.startTime s2 = ValidDate a2 ->
  zone (FocusSession.timezone s1) = Some offset1 ->
  zone (FocusSession.timezone s2) = Some offset2 ->
  CalendarDates.inYears1to9999 (a1 + offset1) = true ->
  CalendarDates.inYears1to9999 (a2 + offset2) = true ->
  exists d1 d2 : string,
    FocusSession.getQualifiedDate dateProvider s1 = Ok d1
    /\ FocusSession.getQualifiedDate dateProvider s2 = Ok d2
    /\ CalendarDates.isCalendarDate d1 = true
    /\ CalendarDates.isCalendarDate d2 = true
    /\ UserStreak.calendarDayDiff dateProvider d1 d2
       = Num ((a1 + offset1) / DateFns.MS_PER_DAY - (a2 + offset2) / DateFns.MS_PER_DAY).
Proof.
  intros dateProvider Hs1 Hs2 Hz1 Hz2 Hy1 Hy2. subst dateProvider.
  destruct (qualified_date_read_back zone now0 s1 a1 offset1 Hs1 Hz1 Hy1)
    as (d1 & Hd1 & Hp1 & Hc1).
  destruct (qualified_date_read_back zone now0 s2 a2 offset2 Hs2 Hz2 Hy2)
    as (d2 & Hd2 & Hp2 & Hc2).
  exists d1, d2. repeat (split; [assumption |]).
  exact (calendarDayDiff_of_days zone now0 d1 d2 _ _ Hp1 Hp2).
Qed.

Lemma qualified_dates_differ_by_their_civil_days_witness :
  exists d1 d2 : string,
    FocusSession.getQualifiedDate Fixtures.dateProvider MoreFixtures.exact30minSession
    = Ok d1
    /\ FocusSession.getQualifiedDate Fixtures.dateProvider MoreFixtures.dayBeforeSession
       = Ok d2
    /\ CalendarDates.isCalendarDate d1 = true
    /\ CalendarDates.isCalendarDate d2 = true
    /\ UserStreak.calendarDayDiff Fixtures.dateProvider d1 d2
       = Num ((DateFns.utcMs 2025 1 15 10 0 + 0) / DateFns.MS_PER_DAY
              - (DateFns.utcMs 2025 1 14 9 0 + 0) / DateFns.MS_PER_DAY).
Proof.
  apply (qualified_dates_differ_by_their_civil_days DateFns.winterZones
           (DateFns.utc 2025 1 15 12 0) MoreFixtures.exact30minSession
           MoreFixtures.dayBeforeSession (DateFns.utcMs 2025 1 15 10 0)
           (DateFns.utcMs 2025 1 14 9 0) 0 0);
    vm_compute; reflexivity.
Defined.

(** X29: with date-fns, from the command to the aggregate.  For a
    session within one day that brings the minutes of its date to 30 or
    more, and a user whose last qualified date is the qualified date of an
    earlier session, [execute] stores the session and moves the aggregate by
    the number [n] of civil days from the earlier session to this one: one
    day later extends the streak, a gap restarts it at 1, the same day only
    stamps the aggregate, and an earlier day only counts. *)
Theorem session_moves_the_streak_by_the_calendar (zone : string -> option Z)
    (now0 : Date) (command : AcceptFocusSession.AcceptFocusSessionCommandProps)
    (session previous : FocusSession.t) (date last : string)
    (a a0 offset offset0 before : Z) (userStreak : UserStreak.t)
    (sessions : gmap string FocusSession.t) (streaks : gmap string UserStreak.t) :
  let dateProvider := DateFns.FakeDateProvider zone now0 in
  let uid := AcceptFocusSession.userId command in
  let n := (a + offset) / DateFns.MS_PER_DAY - (a0 + offset0) / DateFns.MS_PER_DAY in
  FocusSession.createNew (AcceptFocusSession.sessionId command) uid
    (AcceptFocusSession.startTime command) (AcceptFocusSession.endTime command)
    (AcceptFocusSession.timezone command) dateProvider = Ok session ->
  FocusSession.splitByDay dateProvider session = Ok [session] ->
  FocusSession.startTime session = ValidDate a ->
  zone (FocusSession.timezone session) = Some offset ->
  CalendarDates.inYears1to9999 (a + offset) = true ->
  FocusSession.getQualifiedDate dateProvider session = Ok date ->
  FocusSession.startTime previous = ValidDate a0 ->
  zone (FocusSession.timezone previous) = Some offset0 ->
  CalendarDates.inYears1to9999 (a0 + offset0) = true ->
  FocusSession.getQualifiedDate dateProvider previous = Ok last ->
  sessions !! AcceptFocusSession.sessionId command = None ->
  FocusSessionRepository.InMemory.getTotalMinutesForDate dateProvider uid date
    (AcceptFocusSession.timezone command) sessions = (Ok before, sessions) ->
  AcceptFocusSession.QUALIFIED_DAY_THRESHOLD_MINUTES
  <= before + FocusSession.durationMinutes session ->
  streaks !! uid = Some userStreak ->
  UserStreak.userId userStreak = uid ->
  UserStreak.lastQualifiedDate userStreak = Some last ->
  AcceptFocusSession.execute
    (sessionRepository:=FocusSessionRepository.InMemory.repository dateProvider)
    (streakRepository:=UserStreakRepository.InMemory.repository dateProvider)
    dateProvider command (sessions, streaks)
  = (Ok tt,
     (<[AcceptFocusSession.sessionId command := session]> sessions,
      <[uid :=
          if n =? 0 then
            UserStreak.mk uid (UserStreak.currentStreak userStreak)
              (UserStreak.longestStreak userStreak) (Some last)
              (UserStreak.qualifiedDaysCount userStreak) now0
          else if n <? 0 then
            UserStreak.mk uid (UserStreak.currentStreak userStreak)
              (UserStreak.longestStreak userStreak) (Some last)
              (UserStreak.qualifiedDaysCount userStreak + 1) now0
          else if n =? 1 then
            UserStreak.mk uid (UserStreak.currentStreak userStreak + 1)
              (Z.max (UserStreak.longestStreak userStreak)
                     (UserStreak.currentStreak userStreak + 1))
              (Some date) (UserStreak.qualifiedDaysCount userStreak + 1) now0
          else
            UserStreak.mk uid 1 (UserStreak.longestStreak userStreak) (Some date)
              (UserStreak.qualifiedDaysCount userStreak + 1) now0]> streaks)).
Proof.
  intros dateProvider uid n Hnew Hsplit Hstart Hzone Hyears Hdate Hstart0 Hzone0
    Hyears0 Hlast Hfree Hbefore Hreached Hstreak Hkeyed Hdated.
  subst dateProvider uid n.
  rewrite (single_day_outcome _ command session date before userStreak sessions streaks
             Hnew Hsplit Hdate Hfree Hbefore Hstreak Hkeyed).
  destruct (Z.leb_spec AcceptFocusSession.QUALIFIED_DAY_THRESHOLD_MINUTES
              (before + FocusSession.durationMinutes session)) as [_ | Hless]; [| lia].
  destruct (qualified_date_read_back zone now0 session a offset Hstart Hzone Hyears)
    as (date' & Hdate' & Hparse & _).
  destruct (qualified_date_read_back zone now0 previous a0 offset0 Hstart0 Hzone0 Hyears0)
    as (last' & Hlast' & Hparse0 & _).
  rewrite Hdate in Hdate'. injection Hdate' as <-.
  rewrite Hlast in Hlast'. injection Hlast' as <-.
  rewrite (update_by_days zone now0 userStreak date last _ Hdated
             (calendarDayDiff_of_days zone now0 date last _ _ Hparse Hparse0)).
  now rewrite Hkeyed.
Qed.

Lemma session_moves_the_streak_by_the_calendar_witness :
  AcceptFocusSession.execute
    (sessionRepository:=FocusSessionRepository.InMemory.repository Fixtures.dateProvider)
    (streakRepository:=UserStreakRepository.InMemory.repository Fixtures.dateProvider)
    Fixtures.dateProvider Fixtures.exact30min
    (<["day-before" := MoreFixtures.dayBeforeSession]> ∅,
     <[Fixtures.userId := MoreFixtures.dayBeforeStreak]> ∅)
  = (Ok tt,
     (<["exact-30min" := MoreFixtures.exact30minSession]>
        (<["day-before" := MoreFixtures.dayBeforeSession]> ∅),
      <[Fixtures.userId :=
          UserStreak.mk Fixtures.userId 2 2 (Some "2025-01-15") 2
            (DateFns.utc 2025 1 15 12 0)]>
        (<[Fixtures.userId := MoreFixtures.dayBeforeStreak]> ∅))).
Proof.
  apply (session_moves_the_streak_by_the_calendar DateFns.winterZones
           (DateFns.utc 2025 1 15 12 0) Fixtures.exact30min
           MoreFixtures.exact30minSession MoreFixtures.dayBeforeSession
           "2025-01-15" "2025-01-14"
           (DateFns.utcMs 2025 1 15 10 0) (DateFns.utcMs 2025 1 14 9 0) 0 0 0
           MoreFixtures.dayBeforeStreak
           (<["day-before" := MoreFixtures.dayBeforeSession]> ∅)
           (<[Fixtures.userId := MoreFixtures.dayBeforeStreak]> ∅));
    try (vm_compute; reflexivity).
  vm_compute. discriminate.
Defined.
